(** * thronetools: the hotspot orchestration subsystem

    A shallow embedding of the hotspot part of [thronetools.py]
    (interface discovery, access-point activation, nftables rules, the
    dry-run aware command runner and the command-line dispatch), with the
    properties of its specification stated and settled over it.

    Conventions of the model.
    - Python [str] values are Rocq strings holding the UTF-8 encoding of
      the text, and [Py.len] counts its characters, not its bytes.  The
      functions on white space and on case ([strip], [split], [splitlines],
      [lower]) are those of ASCII text, on which they are exact: bytes of
      value 128 and above (the UTF-8 bytes of the symbols in the program's
      messages) are carried along unchanged; they are never white space,
      never a line boundary and never changed by [lower].  A statement
      about what is made of a line typed by the user takes that line to be
      ASCII ([Py.isascii]).
    - The operating system is an oracle [OS]: [os_which] answers
      [shutil.which], [os_path_exists] answers [os.path.exists], and
      [os_run history cmd] gives the exit code and the standard output of
      running [cmd] after the commands of [history] have been run, so the
      answer to a command may depend on everything executed before it.
      Processes are taken to be spawnable: [subprocess.run] yields a
      [CompletedProcess].  A statement that an operation always returns
      names the programs that have to be installed for that ([spawnable]),
      since [subprocess.run] raises where the program to run is missing.
    - A run threads a [state]: the commands really executed, in order, the
      writes of the program to its standard output, and the lines still
      waiting on standard input.  Reading past the last line raises
      [EOFError], as [input] and [getpass] do. *)

From Stdlib Require Import String Ascii List ZArith Bool Arith Lia.
Import ListNotations.
Local Open Scope list_scope.
Local Open Scope string_scope.

(** ** Strings *)

Module Py.

Definition chr (n : nat) : string := String (ascii_of_nat n) EmptyString.

(** [str.isspace] on one character of ASCII text: the white space below
    128.  (Unicode has eighteen more white-space characters, all outside
    ASCII.) *)
Definition isspace (c : ascii) : bool :=
  let n := nat_of_ascii c in
  (((9 <=? n) && (n <=? 13)) || ((28 <=? n) && (n <=? 32)))%nat.

(** The line boundaries of [str.splitlines], the pair CR LF apart. *)
Definition islinebreak (c : ascii) : bool :=
  let n := nat_of_ascii c in
  (((10 <=? n) && (n <=? 13)) || ((28 <=? n) && (n <=? 30)))%nat.

Fixpoint lstrip (s : string) : string :=
  match s with
  | String c t => if isspace c then lstrip t else s
  | EmptyString => EmptyString
  end.

Fixpoint rstrip (s : string) : string :=
  match s with
  | String c t =>
      match rstrip t with
      | EmptyString => if isspace c then EmptyString else String c EmptyString
      | t' => String c t'
      end
  | EmptyString => EmptyString
  end.

Definition strip (s : string) : string := rstrip (lstrip s).

(** [str.lower] on one character of ASCII text. *)
Definition lower_char (c : ascii) : ascii :=
  let n := nat_of_ascii c in
  if ((65 <=? n) && (n <=? 90))%nat then ascii_of_nat (n + 32) else c.

Fixpoint lower (s : string) : string :=
  match s with
  | String c t => String (lower_char c) (lower t)
  | EmptyString => EmptyString
  end.

(** [str.startswith]. *)
Definition startswith (s p : string) : bool := String.prefix p s.

(** [needle in hay]. *)
Fixpoint contains (needle hay : string) : bool :=
  match hay with
  | String _ t => String.prefix needle hay || contains needle t
  | EmptyString => String.prefix needle EmptyString
  end.

(** [sep.join(l)]. *)
Fixpoint join (sep : string) (l : list string) : string :=
  match l with
  | [] => EmptyString
  | [x] => x
  | x :: t => x ++ sep ++ join sep t
  end.

(** [str.splitlines]: [cur] is the line being read, in reverse. *)
Fixpoint rev_string (acc s : string) : string :=
  match s with
  | String c t => rev_string (String c acc) t
  | EmptyString => acc
  end.

Fixpoint splitlines_aux (cur : string) (s : string) : list string :=
  match s with
  | EmptyString =>
      match cur with
      | EmptyString => []
      | _ => [rev_string EmptyString cur]
      end
  | String c t =>
      if islinebreak c then
        rev_string EmptyString cur ::
          match t with
          | String c' t' =>
              if ((nat_of_ascii c =? 13) && (nat_of_ascii c' =? 10))%nat
              then splitlines_aux EmptyString t'
              else splitlines_aux EmptyString t
          | EmptyString => []
          end
      else splitlines_aux (String c cur) t
  end.

Definition splitlines (s : string) : list string :=
  splitlines_aux EmptyString s.

(** [str.split()] with no separator: the maximal runs of characters that
    are not white space. *)
Fixpoint split_ws_aux (cur : string) (s : string) : list string :=
  match s with
  | EmptyString =>
      match cur with
      | EmptyString => []
      | _ => [rev_string EmptyString cur]
      end
  | String c t =>
      if isspace c then
        match cur with
        | EmptyString => split_ws_aux EmptyString t
        | _ => rev_string EmptyString cur :: split_ws_aux EmptyString t
        end
      else split_ws_aux (String c cur) t
  end.

Definition split_ws (s : string) : list string := split_ws_aux EmptyString s.

(** [line.split(sep, 1)] for a one-character [sep], when [sep in line]:
    the text before the first [sep] and the text after it. *)
Fixpoint split_once (sep : ascii) (s : string) : option (string * string) :=
  match s with
  | EmptyString => None
  | String c t =>
      if Ascii.eqb c sep then Some (EmptyString, t)
      else match split_once sep t with
           | Some (a, b) => Some (String c a, b)
           | None => None
           end
  end.

(** [str.replace(old, new)] for a one-character [old]. *)
Fixpoint replace_char (old : ascii) (new : string) (s : string) : string :=
  match s with
  | EmptyString => EmptyString
  | String c t =>
      if Ascii.eqb c old then new ++ replace_char old new t
      else String c (replace_char old new t)
  end.

(** Truth value of a string that may be [None]. *)
Definition truthy (o : option string) : bool :=
  match o with
  | Some (String _ _) => true
  | _ => false
  end.

(** [a or b] on strings. *)
Definition or_else (o : option string) (d : string) : string :=
  match o with
  | Some (String c t) => String c t
  | _ => d
  end.

(** [str.isascii]. *)
Fixpoint isascii (s : string) : bool :=
  match s with
  | String c t => (nat_of_ascii c <? 128)%nat && isascii t
  | EmptyString => true
  end.

(** [len(s)], in characters.  [utf8_tail c t] is the number of
    continuation bytes that follow the lead byte [c] in [t] when a
    well-formed UTF-8 sequence starts at [c], and 0 otherwise; a byte that
    starts no well-formed sequence counts as one character, which is how
    Python reads the arguments of the command line. *)
Definition byte_in (lo hi : nat) (c : ascii) : bool :=
  let n := nat_of_ascii c in ((lo <=? n) && (n <=? hi))%nat.

Definition utf8_tail (c : ascii) (t : string) : nat :=
  match t with
  | String c1 t1 =>
      if byte_in 194 223 c && byte_in 128 191 c1 then 1
      else
        match t1 with
        | String c2 t2 =>
            if (byte_in 224 224 c && byte_in 160 191 c1
                || byte_in 225 236 c && byte_in 128 191 c1
                || byte_in 237 237 c && byte_in 128 159 c1
                || byte_in 238 239 c && byte_in 128 191 c1)
               && byte_in 128 191 c2
            then 2
            else
              match t2 with
              | String c3 _ =>
                  if (byte_in 240 240 c && byte_in 144 191 c1
                      || byte_in 241 243 c && byte_in 128 191 c1
                      || byte_in 244 244 c && byte_in 128 143 c1)
                     && byte_in 128 191 c2 && byte_in 128 191 c3
                  then 3
                  else 0
              | EmptyString => 0
              end
        | EmptyString => 0
        end
  | EmptyString => 0
  end.

Fixpoint len (s : string) : nat :=
  match s with
  | EmptyString => 0
  | String c t =>
      S match utf8_tail c t, t with
        | 1, String _ t1 => len t1
        | 2, String _ (String _ t2) => len t2
        | 3, String _ (String _ (String _ t3)) => len t3
        | _, _ => len t
        end
  end.

End Py.

(** ** [shlex.quote] *)

Definition dq : string := Py.chr 34.
Definition sq : string := Py.chr 39.

(** A character outside [[\w@%+=:,./-]] (ASCII) makes a word unsafe. *)
Definition shell_safe (c : ascii) : bool :=
  let n := nat_of_ascii c in
  (((48 <=? n) && (n <=? 57)) || ((65 <=? n) && (n <=? 90)) ||
   ((97 <=? n) && (n <=? 122)) || (n =? 95) ||
   (n =? 64) || (n =? 37) || (n =? 43) || (n =? 61) || (n =? 58) ||
   (n =? 44) || (n =? 46) || (n =? 47) || (n =? 45))%nat.

Fixpoint all_safe (s : string) : bool :=
  match s with
  | String c t => shell_safe c && all_safe t
  | EmptyString => true
  end.

Definition quote (s : string) : string :=
  match s with
  | EmptyString => sq ++ sq
  | _ =>
      if all_safe s then s
      else sq ++ Py.replace_char (ascii_of_nat 39) (sq ++ dq ++ sq ++ dq ++ sq) s ++ sq
  end.

(** ** The outside world and the effects of a run *)

(** A command as [subprocess.run] receives it: an argument vector (a
    Python list, run with [shell=False]) or one line for the shell (a
    Python [str], run with [shell=True]).  Every call site of the hotspot
    code passes one of these two shapes. *)
Inductive Cmd : Type :=
| Argv (argv : list string)
| Shell (line : string).

Record OS : Type := {
  os_which : string -> bool;
  os_path_exists : string -> bool;
  os_run : list Cmd -> Cmd -> Z * string
}.

(** [subprocess.CompletedProcess]; [stdout] is [None] unless captured. *)
Record CompletedProcess : Type := {
  args : Cmd;
  returncode : Z;
  stdout : option string
}.

Inductive exn : Type :=
| EOFError
| CalledProcessError (code : Z) (cmd : Cmd).

(** How a piece of the program ends: it returns a value, it calls
    [sys.exit], or an exception escapes. *)
Inductive outcome (A : Type) : Type :=
| Ret (a : A)
| SysExit (code : Z)
| Raise (e : exn).
Arguments Ret {A} a.
Arguments SysExit {A} code.
Arguments Raise {A} e.

Record state : Type := {
  executed : list Cmd;
  output : list string;
  stdin : list string
}.

Definition M (A : Type) : Type := state -> outcome A * state.

Definition ret {A} (a : A) : M A := fun st => (Ret a, st).

Definition bind {A B} (m : M A) (f : A -> M B) : M B :=
  fun st =>
    match m st with
    | (Ret a, st') => f a st'
    | (SysExit c, st') => (SysExit c, st')
    | (Raise e, st') => (Raise e, st')
    end.

Declare Scope py_scope.
Delimit Scope py_scope with py.
Notation "x <- m ;; k" := (bind m (fun x => k))
  (at level 61, m at next level, right associativity) : py_scope.
Notation "m ;; k" := (bind m (fun _ => k))
  (at level 61, right associativity) : py_scope.
Local Open Scope py_scope.

Definition sys_exit {A} (code : Z) : M A := fun st => (SysExit code, st).

Definition raise {A} (e : exn) : M A := fun st => (Raise e, st).

Definition when (b : bool) (m : M unit) : M unit := if b then m else ret tt.

(** [typer.echo(msg)]: one write to standard output (a line). *)
Definition echo (msg : string) : M unit :=
  fun st =>
    (Ret tt, {| executed := executed st;
                output := (output st ++ [msg])%list;
                stdin := stdin st |}).

(** [input(prompt)]: writes the prompt, then reads one line. *)
Definition input (prompt : string) : M string :=
  fun st =>
    let out := (output st ++ [prompt])%list in
    match stdin st with
    | l :: rest =>
        (Ret l, {| executed := executed st; output := out; stdin := rest |})
    | [] =>
        (Raise EOFError, {| executed := executed st; output := out; stdin := [] |})
    end.

(** [getpass(prompt)]: reads one line without echo; the prompt goes to the
    terminal device, not to standard output. *)
Definition getpass (prompt : string) : M string :=
  fun st =>
    match stdin st with
    | l :: rest =>
        (Ret l, {| executed := executed st; output := output st; stdin := rest |})
    | [] => (Raise EOFError, st)
    end.

Definition init (lines : list string) : state :=
  {| executed := []; output := []; stdin := lines |}.

(** ** Constants of the program *)

Definition LINUX_SSID : string := "thronetools".
Definition LINUX_TUN_IFACE : string := "nekoray-tun".
Definition LINUX_NFT_TABLE : string := "throne_hotspot".
Definition LINUX_REQUIRED_INET_TABLE : string := "sing-box".

Definition ESC : string := Py.chr 27.
Definition GREEN : string := ESC ++ "[0;32m".
Definition BLUE : string := ESC ++ "[0;34m".
Definition YELLOW : string := ESC ++ "[1;33m".
Definition RED : string := ESC ++ "[0;31m".
Definition NC : string := ESC ++ "[0m".
Definition BOLD : string := ESC ++ "[1m".

Definition color (text shade : string) : string := shade ++ text ++ NC.

Definition NL : string := Py.chr 10.

Section Program.

Variable os : OS.

(** ** The execution engine *)

(** [subprocess.run(cmd, shell=..., check=...)], output captured or not.
    The program to run is taken to be there: a run that cannot be started,
    where [subprocess.run] raises, is outside the model (see [spawnable]). *)
Definition run (cmd : Cmd) (check capture : bool) : M CompletedProcess :=
  fun st =>
    let reply := os_run os (executed st) cmd in
    let st' := {| executed := (executed st ++ [cmd])%list;
                  output := output st;
                  stdin := stdin st |} in
    if check && negb (fst reply =? 0)%Z
    then (Raise (CalledProcessError (fst reply) cmd), st')
    else (Ret {| args := cmd; returncode := fst reply;
                 stdout := if capture then Some (snd reply) else None |}, st').

(** [run_cmd(cmd, dry_run, shell, check)]; the [shell] flag is carried by
    the shape of [cmd]. *)
Definition run_cmd (cmd : Cmd) (dry_run : bool) (check : bool) : M CompletedProcess :=
  if dry_run then
    match cmd with
    | Argv l => echo (color ("→ " ++ Py.join " " l) BLUE)
    | Shell s => echo (color ("→ " ++ s) BLUE)
    end ;;
    ret {| args := cmd; returncode := 0; stdout := None |}
  else run cmd check false.

Definition run_capture (cmd : list string) : M CompletedProcess :=
  run (Argv cmd) false true.

Definition text (res : CompletedProcess) : string :=
  match stdout res with Some s => s | None => EmptyString end.

Definition failed (res : CompletedProcess) : bool :=
  negb (returncode res =? 0)%Z.

(** ** Preconditions and interface resolution (Linux) *)

Definition ensure_linux_command (cmd : string) (hint : option string) : M bool :=
  if os_which os cmd then ret true
  else
    echo (color ("❌ '" ++ cmd ++ "' command not found. Please install it.") RED) ;;
    when (Py.truthy hint) (echo (Py.or_else hint EmptyString)) ;;
    ret false.

(** The loop of [detect_wifi_iface] over the lines of [nmcli device status]. *)
Fixpoint detect_wifi_iface_scan (lines : list string) : string :=
  match lines with
  | [] => EmptyString
  | line :: rest =>
      match Py.split_ws line with
      | p0 :: p1 :: _ =>
          if String.eqb p1 "wifi" then p0 else detect_wifi_iface_scan rest
      | _ => detect_wifi_iface_scan rest
      end
  end.

Definition detect_wifi_iface : M string :=
  res <- run_capture ["nmcli"; "device"; "status"] ;;
  if failed res then ret EmptyString
  else ret (detect_wifi_iface_scan (Py.splitlines (text res))).

(** The loop of [find_linux_wifi_iface] over the lines of the terse listing. *)
Fixpoint find_linux_wifi_iface_scan (requested_iface : string) (lines : list string) : string :=
  match lines with
  | [] => EmptyString
  | line :: rest =>
      match Py.split_once ":" line with
      | None => find_linux_wifi_iface_scan requested_iface rest
      | Some (device, dev_type) =>
          if String.eqb device requested_iface && String.eqb dev_type "wifi"
          then device
          else find_linux_wifi_iface_scan requested_iface rest
      end
  end.

Definition find_linux_wifi_iface (requested_iface : option string) : M string :=
  if negb (Py.truthy requested_iface) then detect_wifi_iface
  else
    res <- run_capture ["nmcli"; "-t"; "-f"; "DEVICE,TYPE"; "device"] ;;
    if failed res then ret EmptyString
    else ret (find_linux_wifi_iface_scan (Py.or_else requested_iface EmptyString)
                (Py.splitlines (text res))).

(** ** Enabling and disabling the hotspot (Linux) *)

Definition DRY_RUN_PROMPT : string := "Run in dry-run mode? (y/N): ".

(** The lines [if dry_run is None: ...] that open every hotspot operation. *)
Definition ask_dry_run (dry_run : option bool) : M bool :=
  match dry_run with
  | None =>
      dry_choice <- input DRY_RUN_PROMPT ;;
      ret (String.eqb (Py.lower (Py.strip dry_choice)) "y")
  | Some b => ret b
  end.

Definition PASSWORD_TOO_SHORT : string :=
  color "❌ Password must be at least 8 characters." RED.

(** The [while True] loop asking for a password.  Every turn reads a line,
    so [fuel] turns with [fuel] above the number of waiting lines always
    end in the loop itself: by a password or by [EOFError]. *)
Fixpoint password_loop (fuel : nat) : M string :=
  match fuel with
  | O => raise EOFError
  | S n =>
      password <- getpass (NL ++ "🔒 Enter hotspot password (min 8 chars): ") ;;
      if (8 <=? Py.len password)%nat then ret password
      else echo PASSWORD_TOO_SHORT ;; password_loop n
  end.

(** The lines [if not password: while True: ...] of the enable operations. *)
Definition obtain_password (password : option string) : M string :=
  if negb (Py.truthy password) then
    fun st => password_loop (S (List.length (stdin st))) st
  else ret (Py.or_else password EmptyString).

Definition nmcli_hint : string :=
  "   Debian/Ubuntu: sudo apt install network-manager" ++ NL ++
  "   Fedora:        sudo dnf install NetworkManager" ++ NL ++
  "   Arch:          sudo pacman -S networkmanager".

Definition iw_hint : string :=
  "   Debian/Ubuntu: sudo apt install iw" ++ NL ++
  "   Fedora:        sudo dnf install iw" ++ NL ++
  "   Arch:          sudo pacman -S iw".

Definition nft_hint : string :=
  "   Debian/Ubuntu: sudo apt install nftables" ++ NL ++
  "   Fedora:        sudo dnf install nftables" ++ NL ++
  "   Arch:          sudo pacman -S nftables".

Definition enable_hotspot_linux
    (dry_run : option bool) (iface ssid password : option string) : M unit :=
  echo (color "=== ENABLE HOTSPOT ===" BLUE) ;;
  echo EmptyString ;;
  echo (color "🚀 Starting Throne Hotspot..." GREEN) ;;
  dry_run <- ask_dry_run dry_run ;;
  when dry_run
    (echo (color "🧪 Running in dry-run mode — no changes will be made." YELLOW)) ;;

  ok <- ensure_linux_command "nmcli" (Some nmcli_hint) ;;
  when (negb ok) (sys_exit 1) ;;
  ok <- ensure_linux_command "iw" (Some iw_hint) ;;
  when (negb ok) (sys_exit 1) ;;
  ok <- ensure_linux_command "nft" (Some nft_hint) ;;
  when (negb ok) (sys_exit 1) ;;

  hotspot_iface <- find_linux_wifi_iface iface ;;
  when (negb (Py.truthy (Some hotspot_iface)))
    ((if Py.truthy iface
      then echo (color ("❌ Wi-Fi interface not found: " ++ Py.or_else iface EmptyString) RED)
      else echo (color "❌ No Wi-Fi interface found. Exiting." RED)) ;;
     sys_exit 1) ;;
  echo (color ("✅ Wi-Fi interface: " ++ BOLD ++ hotspot_iface ++ NC) GREEN) ;;

  res <- run_capture ["sudo"; "nft"; "list"; "table"; "inet"; LINUX_REQUIRED_INET_TABLE] ;;
  when (failed res)
    (echo (color ("❌ Missing 'inet " ++ LINUX_REQUIRED_INET_TABLE ++ "' nftables table.") RED) ;;
     echo "   Please enable 'Tun Mode' in Throne/NekoRay GUI settings." ;;
     sys_exit 1) ;;

  echo (color "✅ Enabling Wi-Fi..." GREEN) ;;
  run_cmd (Argv ["nmcli"; "radio"; "wifi"; "on"]) dry_run false ;;

  res <- run_capture ["iw"; "dev"; hotspot_iface; "info"] ;;
  if negb (failed res) && Py.contains "type AP" (text res) then
    echo (color ("⚠ A Wi-Fi hotspot is already active on " ++ hotspot_iface
                 ++ ". Skipping creation.") YELLOW)
  else
    echo (color "✅ Starting hotspot..." GREEN) ;;
    password <- obtain_password password ;;
    when (Py.len password <? 8)%nat
      (echo PASSWORD_TOO_SHORT ;; sys_exit 1) ;;

    let ssid := Py.or_else ssid LINUX_SSID in

    (if dry_run then
       echo (color ("→ nmcli dev wifi hotspot ifname " ++ dq ++ hotspot_iface ++ dq
                    ++ " ssid " ++ dq ++ ssid ++ dq
                    ++ " password " ++ dq ++ "********" ++ dq) BLUE)
     else
       res <- run_capture ["nmcli"; "dev"; "wifi"; "hotspot"; "ifname"; hotspot_iface;
                           "ssid"; ssid; "password"; password] ;;
       when (failed res)
         (echo (color "❌ Failed to start hotspot — maybe AP mode is unsupported." RED) ;;
          sys_exit 1)) ;;

    echo (color "✅ Setting up nftables rules..." GREEN) ;;

    let table := quote LINUX_NFT_TABLE in
    let tun_iface := quote LINUX_TUN_IFACE in
    let hs_iface := quote hotspot_iface in

    run_cmd (Shell ("sudo nft delete table ip " ++ table ++ " 2>/dev/null || true"))
      dry_run false ;;
    run_cmd (Shell ("sudo nft add table ip " ++ table)) dry_run false ;;
    run_cmd (Shell ("sudo nft add chain ip " ++ table
                    ++ " postrouting { type nat hook postrouting priority srcnat; policy accept; }"))
      dry_run false ;;
    run_cmd (Shell ("sudo nft add rule ip " ++ table ++ " postrouting oifname "
                    ++ dq ++ tun_iface ++ dq ++ " masquerade"))
      dry_run false ;;
    run_cmd (Shell ("sudo nft add chain ip " ++ table
                    ++ " forward { type filter hook forward priority filter; policy accept; }"))
      dry_run false ;;
    run_cmd (Shell ("sudo nft add rule ip " ++ table ++ " forward iifname "
                    ++ dq ++ hs_iface ++ dq ++ " oifname " ++ dq ++ tun_iface ++ dq ++ " accept"))
      dry_run false ;;
    run_cmd (Shell ("sudo nft add rule ip " ++ table ++ " forward iifname "
                    ++ dq ++ tun_iface ++ dq ++ " oifname " ++ dq ++ hs_iface ++ dq
                    ++ " ct state established,related accept"))
      dry_run false ;;

    echo EmptyString ;;
    echo (color "✔ Hotspot is ready and running!" (GREEN ++ BOLD)) ;;
    echo ("SSID: " ++ ssid) ;;
    echo ("Password: " ++ password) ;;
    echo EmptyString.

Definition disable_hotspot_linux (dry_run : option bool) : M unit :=
  echo (color "=== DISABLE HOTSPOT ===" BLUE) ;;
  echo EmptyString ;;
  dry_run <- ask_dry_run dry_run ;;
  when dry_run
    (echo (color "🧪 Running in dry-run mode — no changes will be made." YELLOW)) ;;

  echo (color "✅ Stopping hotspot..." GREEN) ;;
  run_cmd (Argv ["nmcli"; "connection"; "down"; "Hotspot"]) dry_run false ;;
  run_cmd (Argv ["nmcli"; "connection"; "delete"; "Hotspot"]) dry_run false ;;

  echo (color "✅ Removing nftables table..." GREEN) ;;
  run_cmd (Shell ("sudo nft delete table ip " ++ quote LINUX_NFT_TABLE
                  ++ " 2>/dev/null || true"))
    dry_run false ;;

  echo EmptyString ;;
  echo (color "✔ Hotspot stopped and nftables rules removed." (GREEN ++ BOLD)) ;;
  echo EmptyString.

(** ** Enabling and disabling the hotspot (macOS) *)

(** The inner loop of [detect_macos_wifi_iface] over [lines[idx+1 : idx+3]]. *)
Fixpoint macos_device_line (next_lines : list string) : option string :=
  match next_lines with
  | [] => None
  | next_line :: rest =>
      if Py.startswith next_line "Device:" then
        match Py.split_once ":" next_line with
        | Some (_, d) => Some (Py.strip d)
        | None => None
        end
      else macos_device_line rest
  end.

Fixpoint detect_macos_wifi_iface_scan (lines : list string) : string :=
  match lines with
  | [] => EmptyString
  | line :: rest =>
      if Py.startswith line "Hardware Port:" then
        match Py.split_once ":" line with
        | Some (_, p) =>
            let port := Py.lower (Py.strip p) in
            if String.eqb port "wi-fi" || String.eqb port "airport" then
              match macos_device_line (firstn 2 rest) with
              | Some d => d
              | None => detect_macos_wifi_iface_scan rest
              end
            else detect_macos_wifi_iface_scan rest
        | None => detect_macos_wifi_iface_scan rest
        end
      else detect_macos_wifi_iface_scan rest
  end.

Definition detect_macos_wifi_iface : M string :=
  res <- run_capture ["networksetup"; "-listallhardwareports"] ;;
  if failed res then ret EmptyString
  else ret (detect_macos_wifi_iface_scan (Py.splitlines (text res))).

Definition airport_tool : string :=
  "/System/Library/PrivateFrameworks/Apple80211.framework/Versions/Current/Resources/airport".

Definition sharing_plist : string :=
  "/System/Library/LaunchDaemons/com.apple.InternetSharing.plist".

Definition enable_hotspot_macos
    (dry_run : option bool) (iface ssid password : option string) : M unit :=
  echo (color "=== ENABLE HOTSPOT ===" BLUE) ;;
  echo EmptyString ;;
  echo (color "🚀 Starting Throne Hotspot (best-effort on macOS)..." GREEN) ;;

  dry_run <- ask_dry_run dry_run ;;
  when dry_run
    (echo (color "🧪 Running in dry-run mode — no changes will be made." YELLOW)) ;;

  when (negb (os_which os "networksetup"))
    (echo (color "❌ 'networksetup' not found. macOS hotspot is unavailable." RED) ;;
     sys_exit 1) ;;

  when (negb (os_path_exists os airport_tool))
    (echo (color "❌ 'airport' tool not found. macOS hotspot is unavailable." RED) ;;
     sys_exit 1) ;;

  iface <- (if negb (Py.truthy iface) then detect_macos_wifi_iface
            else ret (Py.or_else iface EmptyString)) ;;
  when (negb (Py.truthy (Some iface)))
    (echo (color "❌ Wi-Fi interface not found on macOS." RED) ;;
     sys_exit 1) ;;

  let ssid := Py.or_else ssid LINUX_SSID in

  password <- obtain_password password ;;
  when (Py.len password <? 8)%nat
    (echo PASSWORD_TOO_SHORT ;; sys_exit 1) ;;

  echo (color "✅ Enabling Wi-Fi..." GREEN) ;;
  run_cmd (Argv ["networksetup"; "-setairportpower"; iface; "on"]) dry_run false ;;

  echo (color "✅ Attempting to create hotspot..." GREEN) ;;
  let create_cmd := [airport_tool; "--create"; ssid; password] in
  res <- (if dry_run then
            run_cmd (Argv create_cmd) true false ;;
            ret {| args := Argv create_cmd; returncode := 0; stdout := None |}
          else run_capture create_cmd) ;;
  when (failed res)
    (echo (color "⚠ Failed to create hotspot via 'airport'." YELLOW) ;;
     echo "   macOS hotspot setup can require manual configuration.") ;;

  (if os_path_exists os sharing_plist then
     echo (color "✅ Attempting to enable Internet Sharing..." GREEN) ;;
     run_cmd (Argv ["sudo"; "launchctl"; "load"; "-w"; sharing_plist]) dry_run false ;;
     ret tt
   else echo (color "⚠ Internet Sharing plist not found." YELLOW)) ;;

  echo EmptyString ;;
  echo (color "✔ Hotspot command completed (best-effort)." (GREEN ++ BOLD)) ;;
  echo ("SSID: " ++ ssid) ;;
  echo ("Password: " ++ password) ;;
  echo "Verify in System Settings → General → Sharing → Internet Sharing." ;;
  echo EmptyString.

Definition disable_hotspot_macos (dry_run : option bool) : M unit :=
  echo (color "=== DISABLE HOTSPOT ===" BLUE) ;;
  echo EmptyString ;;
  dry_run <- ask_dry_run dry_run ;;
  when dry_run
    (echo (color "🧪 Running in dry-run mode — no changes will be made." YELLOW)) ;;

  (if os_path_exists os sharing_plist then
     echo (color "✅ Attempting to disable Internet Sharing..." GREEN) ;;
     run_cmd (Argv ["sudo"; "launchctl"; "unload"; "-w"; sharing_plist]) dry_run false ;;
     ret tt
   else echo (color "⚠ Internet Sharing plist not found." YELLOW)) ;;

  echo EmptyString ;;
  echo (color "✔ Hotspot stop command completed (best-effort)." (GREEN ++ BOLD)) ;;
  echo EmptyString.

(** ** The command line *)

(** What [parse_args] returns for [throne-tool hotspot ...]: the
    sub-command, the [--dry-run] flag ([action="store_true"]: [True] when
    the flag is given, [False] when it is absent) and the optional values. *)
Record Namespace : Type := {
  hotspot_command : option string;
  ns_dry_run : bool;
  ns_iface : option string;
  ns_ssid : option string;
  ns_password : option string
}.

(** The text that [hotspot_parser.print_help()] writes, as [argparse]
    lays it out (Python 3.11, a terminal of ordinary width). *)
Definition hotspot_help : string :=
  "usage: throne-tool hotspot [-h] {enable,disable} ..." ++ NL ++
  NL ++
  "positional arguments:" ++ NL ++
  "  {enable,disable}" ++ NL ++
  "    enable          Enable hotspot" ++ NL ++
  "    disable         Disable hotspot" ++ NL ++
  NL ++
  "options:" ++ NL ++
  "  -h, --help        show this help message and exit".

(** [main] once [parse_args] has returned with [args.command == "hotspot"]. *)
Definition main (sys_platform : string) (args : Namespace) : M unit :=
  if Py.startswith sys_platform "linux" then
    match hotspot_command args with
    | Some cmd =>
        if String.eqb cmd "enable" then
          enable_hotspot_linux (Some (ns_dry_run args)) (ns_iface args)
            (ns_ssid args) (ns_password args)
        else if String.eqb cmd "disable" then
          disable_hotspot_linux (Some (ns_dry_run args))
        else echo hotspot_help
    | None => echo hotspot_help
    end
  else if String.eqb sys_platform "darwin" then
    match hotspot_command args with
    | Some cmd =>
        if String.eqb cmd "enable" then
          enable_hotspot_macos (Some (ns_dry_run args)) (ns_iface args)
            (ns_ssid args) (ns_password args)
        else if String.eqb cmd "disable" then
          disable_hotspot_macos (Some (ns_dry_run args))
        else echo hotspot_help
    | None => echo hotspot_help
    end
  else if Py.startswith sys_platform "win" then
    echo (color "Hotspot commands are supported on Linux/macOS only." RED) ;;
    sys_exit 1
  else
    echo (color "Unsupported platform. This script supports Linux, macOS, and Windows only." RED) ;;
    sys_exit 1.

(** The interactive menu calls the operations with no argument at all:
    choices 5 and 6 of [main_linux]. *)
Definition main_linux_choice_5 : M unit := enable_hotspot_linux None None None None.
Definition main_linux_choice_6 : M unit := disable_hotspot_linux None.

End Program.

(** ** Installed applications (Linux) *)

(** [os.path.join] of [posixpath]: a component that starts with a slash
    replaces what was joined so far, any other one is appended, after a
    slash unless the path is empty or already ends with one. *)
Module OsPath.

Fixpoint endswith (s suffix : string) : bool :=
  String.eqb s suffix ||
  match s with
  | String _ t => endswith t suffix
  | EmptyString => false
  end.

Fixpoint join (a : string) (p : list string) : string :=
  match p with
  | [] => a
  | b :: rest =>
      join (if Py.startswith b "/" then b
            else if negb (Py.truthy (Some a)) || endswith a "/" then a ++ b
            else a ++ "/" ++ b)
           rest
  end.

End OsPath.

(** The file system as the program sees it: the home directory that
    [os.path.expanduser("~")] gives, and the answers of [os.path.isdir] and
    [os.path.isfile], which may depend on the commands executed so far. *)
Record FS : Type := {
  fs_home : string;
  fs_isdir : list Cmd -> string -> bool;
  fs_isfile : list Cmd -> string -> bool
}.

Section Packages.

Variable os : OS.
Variable fs : FS.

Definition prompt_app_name (prompt_text : string) : M string :=
  line <- input prompt_text ;;
  let app_name := Py.lower (Py.strip line) in
  when (negb (existsb (String.eqb app_name) ["nekoray"; "throne"]))
    (echo (color "Invalid app name. Only 'nekoray' or 'throne' allowed." RED) ;;
     sys_exit 1) ;;
  ret app_name.

Definition app_variants (app_name : string) : list string :=
  if String.eqb app_name "throne" then ["throne"; "Throne"] else ["nekoray"; "NekoRay"].

Definition locations (variant : string) : list string :=
  [ "/opt/" ++ variant;
    "/usr/share/applications/" ++ variant ++ ".desktop";
    OsPath.join (fs_home fs) [".local/share/applications"; variant ++ ".desktop"];
    OsPath.join (fs_home fs) [".config"; variant] ].

(** [os.path.isdir(location) or os.path.isfile(location)], asked now. *)
Definition present (location : string) : M bool :=
  fun st =>
    (Ret (fs_isdir fs (executed st) location || fs_isfile fs (executed st) location), st).

(** The inner loop of [check_installations] over [locations]. *)
Fixpoint check_locations (ls : list string) (found : bool) : M bool :=
  match ls with
  | [] => ret found
  | location :: rest =>
      here <- present location ;;
      if here then
        echo (color ("Found system installation: " ++ location) YELLOW) ;;
        check_locations rest true
      else check_locations rest found
  end.

(** Its outer loop over [app_variants]. *)
Fixpoint check_variants (variants : list string) (found : bool) : M bool :=
  match variants with
  | [] => ret found
  | variant :: rest =>
      found <- check_locations (locations variant) found ;;
      check_variants rest found
  end.

Definition check_installations (app_name : string) : M bool :=
  found <- (if os_which os "dpkg" then
              res <- run_capture os ["dpkg"; "-l"] ;;
              if (returncode res =? 0)%Z && Py.contains app_name (text res) then
                echo (color (app_name ++ " package is installed.") YELLOW) ;;
                ret true
              else ret false
            else ret false) ;;
  found <- (if os_which os "rpm" then
              res <- run_capture os ["rpm"; "-q"; app_name] ;;
              if (returncode res =? 0)%Z then
                echo (color (app_name ++ " package is installed.") YELLOW) ;;
                ret true
              else ret found
            else ret found) ;;
  check_variants (app_variants app_name) found.

(** The loops of [uninstall_app_linux] over the locations of a variant
    and over the variants. *)
Fixpoint remove_locations (ls : list string) : M unit :=
  match ls with
  | [] => ret tt
  | location :: rest =>
      here <- present location ;;
      when here
        (run_cmd os (Argv ["sudo"; "rm"; "-rf"; location]) false false ;; ret tt) ;;
      remove_locations rest
  end.

Fixpoint remove_variants (variants : list string) : M unit :=
  match variants with
  | [] => ret tt
  | variant :: rest =>
      remove_locations (locations variant) ;;
      remove_variants rest
  end.

Definition uninstall_app_linux (app_name : option string) (skip_check : bool) : M unit :=
  echo (color "=== UNINSTALL ===" BLUE) ;;
  echo EmptyString ;;
  app_name <- (if negb (Py.truthy app_name)
               then prompt_app_name "👉 Enter which app (nekoray, throne): "
               else ret (Py.or_else app_name EmptyString)) ;;
  echo (NL ++ "Uninstalling " ++ app_name ++ "...") ;;

  missing <- (if negb skip_check
              then found <- check_installations app_name ;; ret (negb found)
              else ret false) ;;
  if missing then
    echo (color (NL ++ "⚠ No " ++ app_name ++ " installations found on this system.") YELLOW) ;;
    echo EmptyString
  else
    when (os_which os "dpkg")
      (res <- run_capture os ["dpkg"; "-l"] ;;
       when ((returncode res =? 0)%Z && Py.contains app_name (text res))
         (echo ("Removing " ++ app_name ++ " .deb package...") ;;
          run_cmd os (Argv ["sudo"; "dpkg"; "-r"; app_name]) false false ;; ret tt)) ;;
    when (os_which os "rpm")
      (res <- run_capture os ["rpm"; "-q"; app_name] ;;
       when (returncode res =? 0)%Z
         (echo ("Removing " ++ app_name ++ " .rpm package...") ;;
          run_cmd os (Argv ["sudo"; "rpm"; "-e"; app_name]) false false ;; ret tt)) ;;

    remove_variants (app_variants app_name) ;;

    echo (color (NL ++ "✅ " ++ app_name ++ " installations have been removed.") GREEN) ;;
    echo EmptyString.

End Packages.

(** ** Information about an installation (Linux) *)

Section Info.

Variable os : OS.
Variable fs : FS.

(** The loop of [linux_package_version] over the lines of [dpkg -s]. *)
Fixpoint version_field (lines : list string) : option string :=
  match lines with
  | [] => None
  | line :: rest =>
      if Py.startswith line "Version:" then
        match Py.split_once ":" line with
        | Some (_, v) => Some (Py.strip v)
        | None => None
        end
      else version_field rest
  end.

Definition linux_package_version (app_name : string) : M string :=
  from_dpkg <- (if os_which os "dpkg" then
                  res <- run_capture os ["dpkg"; "-s"; app_name] ;;
                  if (returncode res =? 0)%Z
                  then ret (version_field (Py.splitlines (text res)))
                  else ret None
                else ret None) ;;
  match from_dpkg with
  | Some version => ret version
  | None =>
      if os_which os "rpm" then
        res <- run_capture os ["rpm"; "-q"; "--qf"; "%{VERSION}-%{RELEASE}"; app_name] ;;
        if (returncode res =? 0)%Z then ret (Py.strip (text res)) else ret EmptyString
      else ret EmptyString
  end.

Definition linux_install_paths (app_name : string) : list string :=
  let variants :=
    if String.eqb app_name "throne" then ["Throne"; "throne"] else ["NekoRay"; "nekoray"] in
  let paths :=
    flat_map (fun variant =>
                [ "/opt/" ++ variant;
                  "/usr/share/applications/" ++ variant ++ ".desktop";
                  OsPath.join (fs_home fs)
                    [".local/share/applications"; variant ++ ".desktop"] ])
             variants in
  filter (os_path_exists os) paths.

Definition info_linux (app_name : string) : M unit :=
  echo (color "=== INFO ===" BLUE) ;;
  echo EmptyString ;;
  version <- linux_package_version app_name ;;
  let version := Py.or_else (Some version) "unknown" in
  let paths := linux_install_paths app_name in
  let install_path := match paths with p :: _ => p | [] => "not found" end in
  echo ("App: " ++ app_name) ;;
  echo ("Version: " ++ version) ;;
  echo ("Install path: " ++ install_path) ;;
  echo EmptyString.

End Info.

(** ** The distribution (Linux) *)

(** [str.strip(chars)] for a one-character [chars]. *)
Fixpoint lstrip_char (ch : ascii) (s : string) : string :=
  match s with
  | String c t => if Ascii.eqb c ch then lstrip_char ch t else s
  | EmptyString => EmptyString
  end.

Fixpoint rstrip_char (ch : ascii) (s : string) : string :=
  match s with
  | String c t =>
      match rstrip_char ch t with
      | EmptyString => if Ascii.eqb c ch then EmptyString else String c EmptyString
      | t' => String c t'
      end
  | EmptyString => EmptyString
  end.

Definition strip_char (ch : ascii) (s : string) : string :=
  rstrip_char ch (lstrip_char ch s).

(** A Python [dict] with string keys and values, in insertion order:
    [data[key] = value] and [data.get(key)]. *)
Definition dict : Type := list (string * string).

Fixpoint dict_set (key value : string) (data : dict) : dict :=
  match data with
  | [] => [(key, value)]
  | (k, v) :: rest =>
      if String.eqb k key then (k, value) :: rest
      else (k, v) :: dict_set key value rest
  end.

Fixpoint dict_get (key : string) (data : dict) : option string :=
  match data with
  | [] => None
  | (k, v) :: rest => if String.eqb k key then Some v else dict_get key rest
  end.

(** The loop of [read_os_release] over the lines of the file, each with
    its line end. *)
Fixpoint read_os_release_lines (handle : list string) (data : dict) : dict :=
  match handle with
  | [] => data
  | line :: rest =>
      let line := Py.strip line in
      if negb (Py.truthy (Some line)) || negb (Py.contains "=" line) then
        read_os_release_lines rest data
      else
        match Py.split_once "=" line with
        | Some (key, value) =>
            read_os_release_lines rest
              (dict_set key (strip_char (ascii_of_nat 34) (Py.strip value)) data)
        | None => read_os_release_lines rest data
        end
  end.

(** [read_os_release()], [os_release] being the lines of
    [/etc/os-release] when that file exists. *)
Definition read_os_release (os : OS) (os_release : list string) : dict :=
  if negb (os_path_exists os "/etc/os-release") then []
  else read_os_release_lines os_release [].

(** ** A sample machine *)

Fixpoint argv_eqb (x y : list string) : bool :=
  match x, y with
  | [], [] => true
  | a :: x', b :: y' => String.eqb a b && argv_eqb x' y'
  | _, _ => false
  end.

Definition cmd_eqb (a b : Cmd) : bool :=
  match a, b with
  | Argv x, Argv y => argv_eqb x y
  | Shell x, Shell y => String.eqb x y
  | _, _ => false
  end.

(** A laptop with [wlan0] and [eth0], the [sing-box] table loaded, no
    access point running, and every command succeeding. *)
Definition laptop : OS := {|
  os_which := fun _ => true;
  os_path_exists := fun _ => true;
  os_run := fun _ cmd =>
    if cmd_eqb cmd (Argv ["nmcli"; "-t"; "-f"; "DEVICE,TYPE"; "device"]) then
      (0%Z, "wlan0:wifi" ++ NL ++ "eth0:ethernet" ++ NL)
    else if cmd_eqb cmd (Argv ["nmcli"; "device"; "status"]) then
      (0%Z, "DEVICE  TYPE      STATE         CONNECTION" ++ NL ++
            "eth0    ethernet  connected     Wired" ++ NL ++
            "wlan0   wifi      disconnected  --" ++ NL)
    else if cmd_eqb cmd (Argv ["iw"; "dev"; "wlan0"; "info"]) then
      (0%Z, "Interface wlan0" ++ NL ++ "        type managed" ++ NL)
    else (0%Z, EmptyString)
|}.

(** The laptop before tunnel mode is enabled: the [sing-box] table is
    missing, so its probe exits with 1. *)
Definition laptop_no_table : OS := {|
  os_which := os_which laptop;
  os_path_exists := os_path_exists laptop;
  os_run := fun h cmd =>
    if cmd_eqb cmd (Argv ["sudo"; "nft"; "list"; "table"; "inet"; "sing-box"])
    then (1%Z, EmptyString)
    else os_run laptop h cmd
|}.

(** The laptop with a card that cannot be an access point: the creation
    command exits with 1. *)
Definition laptop_no_ap_mode : OS := {|
  os_which := os_which laptop;
  os_path_exists := os_path_exists laptop;
  os_run := fun h cmd =>
    match cmd with
    | Argv (a :: b :: c :: d :: _) =>
        if String.eqb a "nmcli" && String.eqb b "dev" && String.eqb c "wifi"
           && String.eqb d "hotspot"
        then (1%Z, EmptyString)
        else os_run laptop h cmd
    | _ => os_run laptop h cmd
    end
|}.


(** The laptop on which the AP-mode probe fails: [iw] exits with 1, even
    though its output mentions [type AP]. *)
Definition laptop_probe_fails : OS := {|
  os_which := os_which laptop;
  os_path_exists := os_path_exists laptop;
  os_run := fun h cmd =>
    if cmd_eqb cmd (Argv ["iw"; "dev"; "wlan0"; "info"])
    then (1%Z, "Interface wlan0" ++ NL ++ "        type AP" ++ NL)
    else os_run laptop h cmd
|}.

(** A Mac with its Wi-Fi port on [en0]; the helper fails to create the
    network (exit code 1), every other command succeeds. *)
Definition mac : OS := {|
  os_which := fun _ => true;
  os_path_exists := fun _ => true;
  os_run := fun _ cmd =>
    if cmd_eqb cmd (Argv ["networksetup"; "-listallhardwareports"]) then
      (0%Z, "Hardware Port: Wi-Fi" ++ NL ++ "Device: en0" ++ NL ++
            "Ethernet Address: 00:00:00:00:00:00" ++ NL)
    else
      match cmd with
      | Argv [_; b; _; _] => if String.eqb b "--create" then (1%Z, EmptyString)
                             else (0%Z, EmptyString)
      | _ => (0%Z, EmptyString)
      end
|}.

(** A machine on which every command fails with exit code 1. *)
Definition broken : OS := {|
  os_which := fun _ => true;
  os_path_exists := fun _ => true;
  os_run := fun _ _ => (1%Z, EmptyString)
|}.

(** ** Vocabulary of the statements *)

(** The hotspot-creation command, whatever its operands. *)
Definition is_creation (c : Cmd) : bool :=
  match c with
  | Argv (a :: b :: c :: d :: _) =>
      String.eqb a "nmcli" && String.eqb b "dev" && String.eqb c "wifi"
      && String.eqb d "hotspot"
  | _ => false
  end.

(** A firewall command: a shell line for [nft]. *)
Definition is_firewall (c : Cmd) : bool :=
  match c with
  | Shell line => Py.startswith line "sudo nft "
  | Argv _ => false
  end.

(** The read-only queries of the operations: on Linux the two device
    listings, the probe for the required table and the AP-mode probe; on
    macOS the listing of the hardware ports. *)
Definition is_query (c : Cmd) : bool :=
  match c with
  | Argv [a; b; _; d] =>
      (String.eqb a "iw" && String.eqb b "dev" && String.eqb d "info")
  | Argv l =>
      argv_eqb l ["nmcli"; "device"; "status"]
      || argv_eqb l ["nmcli"; "-t"; "-f"; "DEVICE,TYPE"; "device"]
      || argv_eqb l ["sudo"; "nft"; "list"; "table"; "inet"; "sing-box"]
      || argv_eqb l ["networksetup"; "-listallhardwareports"]
  | Shell _ => false
  end.

Definition CMD_HARDWARE_PORTS : Cmd := Argv ["networksetup"; "-listallhardwareports"].

(** The interface the macOS enable operation works with on a fresh run:
    the one given, or else the one detected (empty when none). *)
Definition macos_iface (os : OS) (iface : option string) : string :=
  if Py.truthy iface then Py.or_else iface EmptyString
  else match fst (detect_macos_wifi_iface os (init [])) with
       | Ret s => s
       | _ => EmptyString
       end.

Definition macos_detection (iface : option string) : list Cmd :=
  if Py.truthy iface then [] else [CMD_HARDWARE_PORTS].


Definition CMD_DEVICE_STATUS : Cmd := Argv ["nmcli"; "device"; "status"].
Definition CMD_DEVICE_LIST : Cmd := Argv ["nmcli"; "-t"; "-f"; "DEVICE,TYPE"; "device"].
Definition CMD_TABLE_PROBE : Cmd := Argv ["sudo"; "nft"; "list"; "table"; "inet"; "sing-box"].
Definition CMD_RADIO_ON : Cmd := Argv ["nmcli"; "radio"; "wifi"; "on"].
Definition cmd_ap_probe (hs : string) : Cmd := Argv ["iw"; "dev"; hs; "info"].
Definition cmd_create (hs ssid pw : string) : Cmd :=
  Argv ["nmcli"; "dev"; "wifi"; "hotspot"; "ifname"; hs; "ssid"; ssid; "password"; pw].

(** The seven firewall commands; [hs] is the hot-spot interface as it is
    written into the command lines. *)
Definition firewall_cmds (hs : string) : list Cmd :=
  [ Shell "sudo nft delete table ip throne_hotspot 2>/dev/null || true";
    Shell "sudo nft add table ip throne_hotspot";
    Shell "sudo nft add chain ip throne_hotspot postrouting { type nat hook postrouting priority srcnat; policy accept; }";
    Shell ("sudo nft add rule ip throne_hotspot postrouting oifname " ++ dq ++ "nekoray-tun" ++ dq
           ++ " masquerade");
    Shell "sudo nft add chain ip throne_hotspot forward { type filter hook forward priority filter; policy accept; }";
    Shell ("sudo nft add rule ip throne_hotspot forward iifname " ++ dq ++ hs ++ dq
           ++ " oifname " ++ dq ++ "nekoray-tun" ++ dq ++ " accept");
    Shell ("sudo nft add rule ip throne_hotspot forward iifname " ++ dq ++ "nekoray-tun" ++ dq
           ++ " oifname " ++ dq ++ hs ++ dq ++ " ct state established,related accept") ].

Definition disable_cmds : list Cmd :=
  [ Argv ["nmcli"; "connection"; "down"; "Hotspot"];
    Argv ["nmcli"; "connection"; "delete"; "Hotspot"];
    Shell "sudo nft delete table ip throne_hotspot 2>/dev/null || true" ].

(** Whether [subprocess.run] finds the program to start: the first word
    of an argument vector is looked up on the search path, as
    [shutil.which] does it; a shell line is handed to [/bin/sh], which is
    always there. *)
Definition spawnable (os : OS) (c : Cmd) : bool :=
  match c with
  | Argv (program :: _) => os_which os program
  | Argv [] => false
  | Shell _ => true
  end.

(** The listing that interface resolution consults for a request. *)
Definition iface_query (iface : option string) : Cmd :=
  if Py.truthy iface then CMD_DEVICE_LIST else CMD_DEVICE_STATUS.

(** The name interface resolution yields on a fresh run (empty when none). *)
Definition resolved (os : OS) (iface : option string) : string :=
  match fst (find_linux_wifi_iface os iface (init [])) with
  | Ret s => s
  | _ => EmptyString
  end.

Definition tools_present (os : OS) : bool :=
  os_which os "nmcli" && os_which os "iw" && os_which os "nft".

(** Exit code of the probe for the required table, issued after the listing. *)
Definition table_probe_code (os : OS) (iface : option string) : Z :=
  fst (os_run os [iface_query iface] CMD_TABLE_PROBE).

(** The commands executed before the access-point probe. *)
Definition before_ap_probe (dry_run : bool) (iface : option string) : list Cmd :=
  ([iface_query iface; CMD_TABLE_PROBE] ++ (if dry_run then [] else [CMD_RADIO_ON]))%list.

Definition ap_probe_result (os : OS) (dry_run : bool) (iface : option string) (hs : string)
  : Z * string :=
  os_run os (before_ap_probe dry_run iface) (cmd_ap_probe hs).

(** The test of [enable_hotspot_linux] on the probe's result. *)
Definition ap_active (os : OS) (dry_run : bool) (iface : option string) (hs : string) : bool :=
  (fst (ap_probe_result os dry_run iface hs) =? 0)%Z
  && Py.contains "type AP" (snd (ap_probe_result os dry_run iface hs)).

(** Exit code of the creation command in a real run. *)
Definition creation_code (os : OS) (iface : option string) (hs ssid pw : string) : Z :=
  fst (os_run os (before_ap_probe false iface ++ [cmd_ap_probe hs])%list (cmd_create hs ssid pw)).

(** Messages that tell the branches of the enable operation apart. *)
Definition MISSING_TABLE : string :=
  color "❌ Missing 'inet sing-box' nftables table." RED.
Definition IFACE_NOT_FOUND (iface : string) : string :=
  color ("❌ Wi-Fi interface not found: " ++ iface) RED.
Definition NO_WIFI_IFACE : string :=
  color "❌ No Wi-Fi interface found. Exiting." RED.
Definition ALREADY_ACTIVE (hs : string) : string :=
  color ("⚠ A Wi-Fi hotspot is already active on " ++ hs ++ ". Skipping creation.") YELLOW.
Definition CREATION_FAILED : string :=
  color "❌ Failed to start hotspot — maybe AP mode is unsupported." RED.

(** The creation command as a dry run prints it. *)
Definition masked_creation_line (hs ssid : string) : string :=
  color ("→ nmcli dev wifi hotspot ifname " ++ dq ++ hs ++ dq ++ " ssid " ++ dq ++ ssid ++ dq
         ++ " password " ++ dq ++ "********" ++ dq) BLUE.

(** Interface resolution as the specification words it.  The terse device
    listing has one row [DEVICE:TYPE] per line, the device-status listing
    one row per line with the device in the first column and its type in
    the second.  A requested name resolves to itself when the listing
    command succeeds and some row reports it with type [wifi], and is not
    found otherwise; with no name requested the first row of type [wifi]
    gives the interface, and there is none when no row has that type. *)
Inductive resolution : Type :=
| Resolved (name : string)
| InterfaceNotFound
| NoWifiInterface.

Definition listing_rows (listing : string) : list (string * string) :=
  flat_map (fun line => match Py.split_once ":" line with
                        | Some row => [row]
                        | None => []
                        end)
           (Py.splitlines listing).

Definition status_rows (listing : string) : list (string * string) :=
  flat_map (fun line => match Py.split_ws line with
                        | device :: type :: _ => [(device, type)]
                        | _ => []
                        end)
           (Py.splitlines listing).

Definition is_wifi_row (row : string * string) : bool := String.eqb (snd row) "wifi".

Definition spec_resolveInterface (os : OS) (history : list Cmd) (requested : option string)
  : resolution :=
  match requested with
  | Some (String c t) =>
      let name := String c t in
      let '(rc, listing) := os_run os history CMD_DEVICE_LIST in
      if (rc =? 0)%Z
         && existsb (fun row => String.eqb (fst row) name && is_wifi_row row)
                    (listing_rows listing)
      then Resolved name
      else InterfaceNotFound
  | _ =>
      let '(rc, listing) := os_run os history CMD_DEVICE_STATUS in
      if (rc =? 0)%Z then
        match find is_wifi_row (status_rows listing) with
        | Some row => Resolved (fst row)
        | None => NoWifiInterface
        end
      else NoWifiInterface
  end.

(** What [find_linux_wifi_iface] returns for a resolution: the name, or
    the empty string for both failures. *)
Definition name_of (r : resolution) : string :=
  match r with
  | Resolved name => name
  | _ => EmptyString
  end.

(** What obtaining the password comes to, as a function of the argument
    and of the lines waiting on standard input: the result, the messages
    printed meanwhile, and the lines left. *)
Fixpoint read_password_lines (lines : list string) : outcome string * list string * list string :=
  match lines with
  | [] => (Raise EOFError, [], [])
  | l :: rest =>
      if (8 <=? Py.len l)%nat then (Ret l, [], rest)
      else
        let '(o, printed, remaining) := read_password_lines rest in
        (o, PASSWORD_TOO_SHORT :: printed, remaining)
  end.

Definition read_password (password : option string) (lines : list string)
  : outcome string * list string * list string :=
  match password with
  | Some (String c t) => (Ret (String c t), [], lines)
  | _ => read_password_lines lines
  end.

(** The answer to the dry-run question that a line stands for. *)
Definition answer (line : string) : bool :=
  String.eqb (Py.lower (Py.strip line)) "y".

(** The dry-run setting an operation works with, and the lines left on
    standard input once it is known: the given flag, or the answer to the
    question when no flag is given. *)
Definition dry_run_choice (dry_run : option bool) (lines : list string)
  : option (bool * list string) :=
  match dry_run with
  | Some b => Some (b, lines)
  | None =>
      match lines with
      | l :: rest => Some (answer l, rest)
      | [] => None
      end
  end.

(** The answer to the dry-run question, where it is asked, is ASCII
    text, on which [answer] is what the program makes of it. *)
Definition ascii_answer (dry_run : option bool) (lines : list string) : bool :=
  match dry_run, lines with
  | None, l :: _ => Py.isascii l
  | _, _ => true
  end.

Definition asked (dry_run : option bool) : list string :=
  match dry_run with
  | None => [DRY_RUN_PROMPT]
  | Some _ => []
  end.

(** What [run_cmd] prints for a command in dry-run mode. *)
Definition dry_line (cmd : Cmd) : string :=
  match cmd with
  | Argv l => color ("→ " ++ Py.join " " l) BLUE
  | Shell s => color ("→ " ++ s) BLUE
  end.

(** Whether the probe for the required table succeeds. *)
Definition table_present (os : OS) (iface : option string) : bool :=
  (fst (os_run os [iface_query iface]
          (Argv ["sudo"; "nft"; "list"; "table"; "inet"; "sing-box"])) =? 0)%Z.

(** ** Properties of programs *)

(** [preserves I m]: whatever the state, running [m] keeps [I]. *)
Definition preserves {A} (I : state -> Prop) (m : M A) : Prop :=
  forall st, I st -> I (snd (m st)).

(** [noret m]: [m] never returns a value (it exits or raises). *)
Definition noret {A} (m : M A) : Prop :=
  forall st a, fst (m st) <> Ret a.

(** Every command executed so far satisfies [Q]. *)
Definition cmd_all (Q : Cmd -> Prop) (st : state) : Prop := Forall Q (executed st).

(** The output so far satisfies [J]. *)
Definition out_inv (J : list string -> Prop) (st : state) : Prop := J (output st).

(** The lines still to be read are [x]. *)
Definition stdin_is (x : list string) (st : state) : Prop := stdin st = x.

(** Two states that differ in the output only, and the programs that do
    not tell them apart. *)
Definition same_but_output (s1 s2 : state) : Prop :=
  executed s1 = executed s2 /\ stdin s1 = stdin s2.

Definition blind {A} (m : M A) : Prop :=
  forall s1 s2, same_but_output s1 s2 ->
    fst (m s1) = fst (m s2) /\ same_but_output (snd (m s1)) (snd (m s2)).

(** ** Vocabulary of the further properties *)

(** What [ensure_linux_command] prints for a missing tool, and the first
    of the three tools that is missing, with its hint. *)
Definition TOOL_MISSING (tool : string) : string :=
  color ("❌ '" ++ tool ++ "' command not found. Please install it.") RED.

Definition first_missing_tool (os : OS) : option (string * string) :=
  if negb (os_which os "nmcli") then Some ("nmcli", nmcli_hint)
  else if negb (os_which os "iw") then Some ("iw", iw_hint)
  else if negb (os_which os "nft") then Some ("nft", nft_hint)
  else None.

(** The laptop without [iw]. *)
Definition laptop_no_iw : OS := {|
  os_which := fun c => negb (String.eqb c "iw");
  os_path_exists := os_path_exists laptop;
  os_run := os_run laptop
|}.

(** A Mac without the [airport] helper. *)
Definition mac_no_airport : OS := {|
  os_which := os_which mac;
  os_path_exists := fun _ => false;
  os_run := os_run mac
|}.

Definition MACOS_NO_NETWORKSETUP : string :=
  color "❌ 'networksetup' not found. macOS hotspot is unavailable." RED.
Definition MACOS_NO_AIRPORT : string :=
  color "❌ 'airport' tool not found. macOS hotspot is unavailable." RED.
Definition MACOS_CREATE_WARNING : string :=
  color "⚠ Failed to create hotspot via 'airport'." YELLOW.
Definition cmd_macos_power (hs : string) : Cmd :=
  Argv ["networksetup"; "-setairportpower"; hs; "on"].
Definition cmd_macos_create (ssid pw : string) : Cmd :=
  Argv [airport_tool; "--create"; ssid; pw].
Definition CMD_SHARING_LOAD : Cmd := Argv ["sudo"; "launchctl"; "load"; "-w"; sharing_plist].
Definition macos_tools_present (os : OS) : bool :=
  os_which os "networksetup" && os_path_exists os airport_tool.
Definition macos_sharing (os : OS) : list Cmd :=
  if os_path_exists os sharing_plist then [CMD_SHARING_LOAD] else [].
Definition macos_creation_code (os : OS) (iface : option string) (hs ssid pw : string) : Z :=
  fst (os_run os (macos_detection iface ++ [cmd_macos_power hs])%list
         (cmd_macos_create ssid pw)).

Definition UNSUPPORTED_HOTSPOT : string :=
  color "Hotspot commands are supported on Linux/macOS only." RED.
Definition UNSUPPORTED_PLATFORM : string :=
  color "Unsupported platform. This script supports Linux, macOS, and Windows only." RED.

(** A line of [networksetup -listallhardwareports] that names a Wi-Fi
    port, and the device that a [Device:] line gives. *)
Definition is_wifi_port (line : string) : bool :=
  Py.startswith line "Hardware Port:" &&
  match Py.split_once ":" line with
  | Some (_, p) =>
      String.eqb (Py.lower (Py.strip p)) "wi-fi" || String.eqb (Py.lower (Py.strip p)) "airport"
  | None => false
  end.

Definition device_of (line : string) : option string :=
  if Py.startswith line "Device:" then
    match Py.split_once ":" line with
    | Some (_, d) => Some (Py.strip d)
    | None => None
    end
  else None.

(** The commands and messages of the package operations. *)
Definition CMD_DPKG_LIST : Cmd := Argv ["dpkg"; "-l"].
Definition cmd_rpm_query (app : string) : Cmd := Argv ["rpm"; "-q"; app].
Definition cmd_dpkg_remove (app : string) : Cmd := Argv ["sudo"; "dpkg"; "-r"; app].
Definition cmd_rpm_erase (app : string) : Cmd := Argv ["sudo"; "rpm"; "-e"; app].
Definition cmd_rm (location : string) : Cmd := Argv ["sudo"; "rm"; "-rf"; location].

Definition INVALID_APP_NAME : string :=
  color "Invalid app name. Only 'nekoray' or 'throne' allowed." RED.
Definition NOTHING_INSTALLED (app : string) : string :=
  color (NL ++ "⚠ No " ++ app ++ " installations found on this system.") YELLOW.

(** Every place where the program looks for an installation of [app]. *)
Definition all_locations (fs : FS) (app : string) : list string :=
  flat_map (locations fs) (app_variants app).

(** The queries of [check_installations], in order. *)
Definition pkg_queries (os : OS) (app : string) : list Cmd :=
  ((if os_which os "dpkg" then [CMD_DPKG_LIST] else []) ++
   (if os_which os "rpm" then [cmd_rpm_query app] else []))%list.

(** What [check_installations] goes by, after the commands of [h]: the
    package is in the list of [dpkg], [rpm] knows it, or one of its
    locations is a directory or a file. *)
Definition dpkg_lists (os : OS) (h : list Cmd) (app : string) : bool :=
  os_which os "dpkg" &&
  ((fst (os_run os h CMD_DPKG_LIST) =? 0)%Z &&
   Py.contains app (snd (os_run os h CMD_DPKG_LIST))).

Definition rpm_knows (os : OS) (h : list Cmd) (app : string) : bool :=
  os_which os "rpm" &&
  (fst (os_run os (h ++ if os_which os "dpkg" then [CMD_DPKG_LIST] else [])%list
          (cmd_rpm_query app)) =? 0)%Z.

Definition is_present (fs : FS) (h : list Cmd) (location : string) : bool :=
  fs_isdir fs h location || fs_isfile fs h location.

Definition installed (os : OS) (fs : FS) (h : list Cmd) (app : string) : bool :=
  dpkg_lists os h app || rpm_knows os h app ||
  existsb (is_present fs (h ++ pkg_queries os app)%list) (all_locations fs app).

(** A query of the package databases, and a command that removes [app]:
    its package, or one of its locations. *)
Definition pkg_query (app : string) (c : Cmd) : Prop :=
  c = CMD_DPKG_LIST \/ c = cmd_rpm_query app.

Definition removal_of (fs : FS) (app : string) (c : Cmd) : Prop :=
  c = cmd_dpkg_remove app \/ c = cmd_rpm_erase app \/
  exists location, In location (all_locations fs app) /\ c = cmd_rm location.

(** [returns m]: [m] always returns a value; it neither exits nor raises. *)
Definition returns {A} (m : M A) : Prop :=
  forall st, exists a, fst (m st) = Ret a.

(** A machine with Throne installed from a [.deb] package, and the files
    of a user [u]. *)
Definition debian_box : OS := {|
  os_which := fun c => String.eqb c "dpkg";
  os_path_exists := fun _ => true;
  os_run := fun _ cmd =>
    if cmd_eqb cmd (Argv ["dpkg"; "-l"]) then (0%Z, "ii  throne  1.0  amd64  Throne" ++ NL)
    else (0%Z, EmptyString)
|}.

Definition debian_files : FS := {|
  fs_home := "/home/u";
  fs_isdir := fun h location =>
    String.eqb location "/home/u/.config/Throne" ||
    (String.eqb location "/opt/Throne" &&
     negb (existsb (cmd_eqb (Argv ["sudo"; "dpkg"; "-r"; "throne"])) h));
  fs_isfile := fun _ _ => false
|}.

(** A machine with no package manager and no file of the applications. *)
Definition bare_box : OS := {|
  os_which := fun _ => false;
  os_path_exists := fun _ => false;
  os_run := fun _ _ => (127%Z, EmptyString)
|}.

Definition bare_files : FS := {|
  fs_home := "/root";
  fs_isdir := fun _ _ => false;
  fs_isfile := fun _ _ => false
|}.

(** The lines that [check_installations] prints. *)
Definition found_line (location : string) : string :=
  color ("Found system installation: " ++ location) YELLOW.

Definition package_line (app : string) : string :=
  color (app ++ " package is installed.") YELLOW.

(** What [check_installations] prints after the commands of [h]. *)
Definition evidence (os : OS) (fs : FS) (h : list Cmd) (app : string) : list string :=
  ((if dpkg_lists os h app then [package_line app] else []) ++
   (if rpm_knows os h app then [package_line app] else []) ++
   map found_line (filter (is_present fs (h ++ pkg_queries os app)%list)
                     (all_locations fs app)))%list.

(** The application an uninstallation is about: the one given, or else
    one of the two names that the prompt accepts. *)
Definition app_choice (app_name : option string) (app : string) : Prop :=
  if Py.truthy app_name then app = Py.or_else app_name EmptyString
  else app = "nekoray" \/ app = "throne".

Definition uninstall_cmd (fs : FS) (app : string) (c : Cmd) : Prop :=
  pkg_query app c \/ removal_of fs app c.

(** The queries of [linux_package_version]. *)
Definition cmd_dpkg_status (app : string) : Cmd := Argv ["dpkg"; "-s"; app].
Definition cmd_rpm_version (app : string) : Cmd :=
  Argv ["rpm"; "-q"; "--qf"; "%{VERSION}-%{RELEASE}"; app].

Definition version_query (app : string) (c : Cmd) : Prop :=
  c = cmd_dpkg_status app \/ c = cmd_rpm_version app.

(** A machine whose [dpkg] knows Throne 1.0.12, installed in [/opt]. *)
Definition debian_info : OS := {|
  os_which := fun c => String.eqb c "dpkg";
  os_path_exists := fun p => String.eqb p "/opt/Throne";
  os_run := fun _ cmd =>
    if cmd_eqb cmd (Argv ["dpkg"; "-s"; "throne"]) then
      (0%Z, "Package: throne" ++ NL ++ "Status: install ok installed" ++ NL ++
            "Version: 1.0.12" ++ NL)
    else (1%Z, EmptyString)
|}.

(** What one line of [/etc/os-release] assigns, if anything: the entry
    that [read_os_release] makes of it in an empty [dict]. *)
Definition os_release_entry (line : string) : option (string * string) :=
  match read_os_release_lines [line] [] with
  | entry :: _ => Some entry
  | [] => None
  end.

(** ** Checks of the string functions *)

Example splitlines_ex :
  Py.splitlines ("wlan0:wifi" ++ NL ++ "eth0:ethernet" ++ NL) = ["wlan0:wifi"; "eth0:ethernet"].
Proof. reflexivity. Qed.

Example splitlines_crlf :
  Py.splitlines ("a" ++ Py.chr 13 ++ NL ++ NL ++ "b") = ["a"; EmptyString; "b"].
Proof. reflexivity. Qed.

Example split_ws_ex :
  Py.split_ws "wlan0   wifi      disconnected  --  " = ["wlan0"; "wifi"; "disconnected"; "--"].
Proof. reflexivity. Qed.

Example strip_lower_ex : Py.lower (Py.strip ("  Y " ++ NL)) = "y".
Proof. reflexivity. Qed.

Example quote_ex : quote "wlan0" = "wlan0" /\ quote "a b" = sq ++ "a b" ++ sq.
Proof. split; reflexivity. Qed.

(** Eight letters; six Cyrillic letters in twelve bytes; the euro sign in
    three bytes; a stray continuation byte before a letter. *)
Example len_ex :
  Py.len "abcdefgh" = 8 /\
  Py.len (String (ascii_of_nat 208) (String (ascii_of_nat 191)
         (String (ascii_of_nat 208) (String (ascii_of_nat 176)
         (String (ascii_of_nat 209) (String (ascii_of_nat 128)
         (String (ascii_of_nat 208) (String (ascii_of_nat 190)
         (String (ascii_of_nat 208) (String (ascii_of_nat 187)
         (String (ascii_of_nat 209) (String (ascii_of_nat 140) EmptyString)))))))))))) = 6 /\
  Py.len (String (ascii_of_nat 226) (String (ascii_of_nat 130)
         (String (ascii_of_nat 172) EmptyString))) = 1 /\
  Py.len (String (ascii_of_nat 130) "a") = 2.
Proof. repeat split; reflexivity. Qed.

Lemma len_ascii (s : string) : Py.isascii s = true -> Py.len s = String.length s.
Proof.
  induction s as [|c t IH]; [reflexivity|]. cbn [Py.isascii Py.len String.length].
  intros H. apply andb_true_iff in H as [Hc Ht]. rewrite <- (IH Ht).
  assert (E : Py.utf8_tail c t = 0).
  { unfold Py.utf8_tail, Py.byte_in. cbv zeta. apply Nat.ltb_lt in Hc.
    repeat match goal with
           | |- context [(?a <=? nat_of_ascii c)%nat] =>
               replace (a <=? nat_of_ascii c)%nat with false by (symmetry; apply Nat.leb_gt; lia)
           end.
    cbn [andb orb]. destruct t as [|c1 [|c2 [|c3 t3]]]; reflexivity. }
  rewrite E. destruct t; reflexivity.
Qed.

(** ** Stepping through a run *)

Lemma bind_echo {B} (msg : string) (k : unit -> M B) (st : state) :
  bind (echo msg) k st =
  k tt {| executed := executed st; output := (output st ++ [msg])%list; stdin := stdin st |}.
Proof. reflexivity. Qed.

Lemma bind_ret {A B} (a : A) (k : A -> M B) (st : state) :
  bind (ret a) k st = k a st.
Proof. reflexivity. Qed.

Lemma bind_assoc {A B C} (m : M A) (f : A -> M B) (g : B -> M C) (st : state) :
  bind (bind m f) g st = bind m (fun x => bind (f x) g) st.
Proof. unfold bind. destruct (m st) as [[a|c|e] st']; reflexivity. Qed.

Lemma bind_sys_exit {A B} (c : Z) (k : A -> M B) (st : state) :
  bind (sys_exit c) k st = (SysExit c, st).
Proof. reflexivity. Qed.

Lemma bind_run_capture {B} (os : OS) (cmd : list string) (k : CompletedProcess -> M B)
    (st : state) :
  bind (run_capture os cmd) k st =
  k {| args := Argv cmd;
       returncode := fst (os_run os (executed st) (Argv cmd));
       stdout := Some (snd (os_run os (executed st) (Argv cmd))) |}
    {| executed := (executed st ++ [Argv cmd])%list; output := output st; stdin := stdin st |}.
Proof. reflexivity. Qed.

Lemma bind_run_cmd_real {B} (os : OS) (cmd : Cmd) (k : M B) (st : state) :
  bind (run_cmd os cmd false false) (fun _ => k) st =
  k {| executed := (executed st ++ [cmd])%list; output := output st; stdin := stdin st |}.
Proof. reflexivity. Qed.

Lemma bind_run_cmd_dry {B} (os : OS) (cmd : Cmd) (check : bool) (k : M B) (st : state) :
  bind (run_cmd os cmd true check) (fun _ => k) st =
  k {| executed := executed st; output := (output st ++ [dry_line cmd])%list;
       stdin := stdin st |}.
Proof. destruct cmd; reflexivity. Qed.

Lemma bind_ask_dry_run {B} (dr : option bool) (k : bool -> M B) (st : state)
    (dry : bool) (rest : list string) :
  dry_run_choice dr (stdin st) = Some (dry, rest) ->
  bind (ask_dry_run dr) k st =
  k dry {| executed := executed st; output := (output st ++ asked dr)%list; stdin := rest |}.
Proof.
  destruct st as [e o i]. destruct dr as [b|]; cbn [dry_run_choice stdin].
  - intros H. injection H as <- <-. cbn. rewrite app_nil_r. reflexivity.
  - destruct i as [|l i']; [discriminate|]. intros H. injection H as <- <-. reflexivity.
Qed.

Lemma find_linux_wifi_iface_fresh (os : OS) (iface : option string) (st : state) :
  executed st = [] ->
  find_linux_wifi_iface os iface st =
  (Ret (resolved os iface),
   {| executed := [iface_query iface]; output := output st; stdin := stdin st |}).
Proof.
  intros He. unfold resolved, find_linux_wifi_iface, iface_query.
  destruct (Py.truthy iface); cbn [negb];
    unfold detect_wifi_iface, run_capture, run, bind, init;
    cbn [executed output stdin andb]; rewrite He; cbn [app].
  - destruct (failed _); reflexivity.
  - destruct (failed _); reflexivity.
Qed.

Lemma bind_find_fresh {B} (os : OS) (iface : option string) (k : string -> M B) (st : state) :
  executed st = [] ->
  bind (find_linux_wifi_iface os iface) k st =
  k (resolved os iface)
    {| executed := [iface_query iface]; output := output st; stdin := stdin st |}.
Proof. intros He. unfold bind. rewrite find_linux_wifi_iface_fresh by exact He. reflexivity. Qed.

Lemma ap_test (a : Cmd) (rc : Z) (out : string) :
  negb (failed {| args := a; returncode := rc; stdout := Some out |})
  && Py.contains "type AP" out
  = (rc =? 0)%Z && Py.contains "type AP" out.
Proof. unfold failed; cbn [returncode]. rewrite negb_involutive. reflexivity. Qed.

Lemma truthy_nonempty (s : string) : s <> EmptyString -> Py.truthy (Some s) = true.
Proof. destruct s; [congruence | reflexivity]. Qed.

Lemma or_else_nonempty (s d : string) : s <> EmptyString -> Py.or_else (Some s) d = s.
Proof. destruct s; [congruence | reflexivity]. Qed.

Ltac norm :=
  cbn [executed output stdin app init fst snd negb andb orb failed returncode text stdout
       args when Z.eqb].

(** One step of a run at a time, by the equations above; the rest of the
    program keeps its shape. *)
Ltac rstep :=
  norm;
  first
    [ rewrite bind_echo
    | rewrite bind_ret
    | rewrite bind_sys_exit
    | rewrite bind_run_capture
    | rewrite bind_run_cmd_real
    | rewrite bind_run_cmd_dry
    | rewrite bind_find_fresh by reflexivity
    | rewrite bind_assoc ].

Ltac rsteps := repeat rstep; norm.

(** A run as far as it computes: up to the next test on an answer of the
    machine or on an argument. *)
Ltac compute_run :=
  cbn [bind ret echo when sys_exit raise run_capture run run_cmd ask_dry_run
       executed output stdin args returncode stdout text failed
       app init fst snd negb andb orb Z.eqb].

Ltac msteps :=
  repeat
    first
      [ progress compute_run
      | rewrite bind_find_fresh by reflexivity
      | rewrite bind_assoc
      | rewrite bind_run_capture ].

Ltac mstep := msteps.

(** The end of a run: the last action is applied to the state. *)
Ltac mfinish := msteps; unfold echo, ret, sys_exit; norm.

(** Membership in a list written with [::] and [++]. *)
Ltac find_in :=
  lazymatch goal with
  | |- In _ (_ :: _) => first [ left; reflexivity | right; find_in ]
  | |- In _ (_ ++ _)%list => apply in_or_app; first [ left; find_in | right; find_in ]
  end.

(** Computing a run once, then reading the statement off its result. *)
Ltac run_enable tac :=
  lazymatch goal with
  | |- context [enable_hotspot_linux ?os ?dr ?i ?s ?p ?st] =>
      let E := fresh "E" in
      eassert (E : enable_hotspot_linux os dr i s p st = _);
      [ tac; mfinish; reflexivity | rewrite E; clear E; norm ]
  end.

Ltac run_disable tac :=
  lazymatch goal with
  | |- context [disable_hotspot_linux ?os ?dr ?st] =>
      let E := fresh "E" in
      eassert (E : disable_hotspot_linux os dr st = _);
      [ tac; mfinish; reflexivity | rewrite E; clear E; norm ]
  end.

(** Opening a run of [enable_hotspot_linux] up to interface resolution. *)
Ltac enable_open Ht Hd :=
  let Hnm := fresh "Hnm" in
  let Hiw := fresh "Hiw" in
  let Hnft := fresh "Hnft" in
  unfold tools_present in Ht;
  apply andb_prop in Ht as [Ht Hnft]; apply andb_prop in Ht as [Hnm Hiw];
  unfold enable_hotspot_linux, ensure_linux_command, LINUX_REQUIRED_INET_TABLE;
  cbv zeta; rewrite Hnm, Hiw, Hnft;
  msteps; erewrite bind_ask_dry_run by exact Hd; norm.

Ltac enable_open_r Ht Hd :=
  let Hnm := fresh "Hnm" in
  let Hiw := fresh "Hiw" in
  let Hnft := fresh "Hnft" in
  unfold tools_present in Ht;
  apply andb_prop in Ht as [Ht Hnft]; apply andb_prop in Ht as [Hnm Hiw];
  unfold enable_hotspot_linux, ensure_linux_command, LINUX_REQUIRED_INET_TABLE;
  cbv zeta; rewrite Hnm, Hiw, Hnft;
  do 3 rstep; norm; erewrite bind_ask_dry_run by exact Hd; norm.

Lemma obtain_password_supplied (pw : string) :
  pw <> EmptyString -> obtain_password (Some pw) = ret pw.
Proof. destruct pw; [congruence | reflexivity]. Qed.

Lemma long_nonempty (pw : string) : (8 <= Py.len pw)%nat -> pw <> EmptyString.
Proof. destruct pw; cbn; [lia | congruence]. Qed.

(** ** Invariants of a run

    The rules below follow the shape of a program, so an invariant of the
    output or of the executed commands is proved by walking through the
    program text once, all branches included. *)

Section Preserves.

Context {I : state -> Prop}.

Lemma preserves_ret {A} (a : A) : preserves I (ret a).
Proof. intros st H. exact H. Qed.

Lemma preserves_sys_exit {A} (c : Z) : preserves I (@sys_exit A c).
Proof. intros st H. exact H. Qed.

Lemma preserves_raise {A} (e : exn) : preserves I (@raise A e).
Proof. intros st H. exact H. Qed.

Lemma preserves_bind {A B} (m : M A) (f : A -> M B) :
  preserves I m -> (forall a, preserves I (f a)) -> preserves I (bind m f).
Proof.
  intros Hm Hf st H. unfold bind. specialize (Hm st H).
  destruct (m st) as [[a|c|e] st']; cbn [snd] in *; [apply Hf|..]; assumption.
Qed.

Lemma preserves_bind_ret {A B} (a : A) (f : A -> M B) :
  preserves I (f a) -> preserves I (bind (ret a) f).
Proof. intros Hf st H. apply Hf, H. Qed.

Lemma preserves_bind_noret {A B} (m : M A) (f : A -> M B) :
  noret m -> preserves I m -> preserves I (bind m f).
Proof.
  intros Hn Hm st H. unfold bind. specialize (Hm st H). specialize (Hn st).
  destruct (m st) as [[a|c|e] st']; cbn [snd fst] in *; [destruct (Hn a); reflexivity|..];
    assumption.
Qed.

Lemma preserves_when (b : bool) (m : M unit) :
  preserves I m -> preserves I (when b m).
Proof. destruct b; [trivial | intros _; apply preserves_ret]. Qed.

Lemma preserves_if {A} (b : bool) (m1 m2 : M A) :
  preserves I m1 -> preserves I m2 -> preserves I (if b then m1 else m2).
Proof. destruct b; trivial. Qed.

End Preserves.

Lemma noret_sys_exit {A} (c : Z) : noret (@sys_exit A c).
Proof. intros st a. discriminate. Qed.

Lemma noret_bind_r {A B} (m : M A) (f : A -> M B) :
  (forall a, noret (f a)) -> noret (bind m f).
Proof.
  intros Hf st b. unfold bind. destruct (m st) as [[a|c|e] st']; cbn [fst];
    [apply Hf | discriminate | discriminate].
Qed.

(** Output invariants: a property [J] of the output that survives the
    writing of every message that is [ok]. *)

Section OutputInvariant.

Variable J : list string -> Prop.
Variable ok : string -> Prop.
Hypothesis J_write : forall o msg, J o -> ok msg -> J (o ++ [msg])%list.

Lemma out_echo (msg : string) : ok msg -> preserves (out_inv J) (echo msg).
Proof. intros Hm st H. apply J_write; assumption. Qed.

Lemma out_input (prompt : string) : ok prompt -> preserves (out_inv J) (input prompt).
Proof.
  intros Hm st H. unfold out_inv, input in *.
  destruct (stdin st); cbn [snd output]; apply J_write; assumption.
Qed.

Lemma out_getpass (prompt : string) : preserves (out_inv J) (getpass prompt).
Proof. intros st H. unfold out_inv, getpass in *. destruct (stdin st); exact H. Qed.

Lemma out_run (os : OS) (cmd : Cmd) (check capture : bool) :
  preserves (out_inv J) (run os cmd check capture).
Proof.
  intros st H. unfold out_inv, run in *. cbv zeta.
  destruct (check && negb (_ =? 0)%Z); exact H.
Qed.

Lemma out_run_capture (os : OS) (cmd : list string) :
  preserves (out_inv J) (run_capture os cmd).
Proof. apply out_run. Qed.

Lemma out_run_cmd (os : OS) (cmd : Cmd) (dry check : bool) :
  (dry = true -> ok (dry_line cmd)) -> preserves (out_inv J) (run_cmd os cmd dry check).
Proof.
  intros Hd. unfold run_cmd. destruct dry; [|apply out_run].
  apply preserves_bind; [|intros; apply preserves_ret].
  specialize (Hd eq_refl). destruct cmd; apply out_echo; exact Hd.
Qed.

Lemma out_password_loop (fuel : nat) :
  ok PASSWORD_TOO_SHORT -> preserves (out_inv J) (password_loop fuel).
Proof.
  intros Hp. induction fuel as [|n IH]; cbn [password_loop].
  - apply preserves_raise.
  - apply preserves_bind; [apply out_getpass | intros pw].
    apply preserves_if; [apply preserves_ret|].
    apply preserves_bind; [apply out_echo, Hp | intros _; exact IH].
Qed.

Lemma out_obtain_password (password : option string) :
  ok PASSWORD_TOO_SHORT -> preserves (out_inv J) (obtain_password password).
Proof.
  intros Hp. unfold obtain_password. apply preserves_if; [|apply preserves_ret].
  intros st H. apply (out_password_loop _ Hp st H).
Qed.

Lemma out_find_linux_wifi_iface (os : OS) (iface : option string) :
  preserves (out_inv J) (find_linux_wifi_iface os iface).
Proof.
  unfold find_linux_wifi_iface, detect_wifi_iface.
  apply preserves_if; (apply preserves_bind; [apply out_run_capture | intros res]);
    apply preserves_if; apply preserves_ret.
Qed.

Lemma out_detect_macos_wifi_iface (os : OS) :
  preserves (out_inv J) (detect_macos_wifi_iface os).
Proof.
  unfold detect_macos_wifi_iface.
  apply preserves_bind; [apply out_run_capture | intros res].
  apply preserves_if; apply preserves_ret.
Qed.

End OutputInvariant.

(** The two output invariants in use: every line written so far satisfies
    [P]; a given line has been written. *)
Lemma all_lines_write (P : string -> Prop) (o : list string) (msg : string) :
  Forall P o -> P msg -> Forall P (o ++ [msg]).
Proof. intros H Hm. apply Forall_app; split; [exact H | constructor; [exact Hm | constructor]]. Qed.

Lemma written_write (x : string) (o : list string) (msg : string) :
  In x o -> True -> In x (o ++ [msg]).
Proof. intros H _. apply in_or_app; left; exact H. Qed.

(** Invariants of the executed commands. *)

Lemma cmd_echo (Q : Cmd -> Prop) (msg : string) : preserves (cmd_all Q) (echo msg).
Proof. intros st H. exact H. Qed.

Lemma cmd_input (Q : Cmd -> Prop) (prompt : string) : preserves (cmd_all Q) (input prompt).
Proof. intros st H. unfold cmd_all, input in *. destruct (stdin st); exact H. Qed.

Lemma cmd_getpass (Q : Cmd -> Prop) (prompt : string) : preserves (cmd_all Q) (getpass prompt).
Proof. intros st H. unfold cmd_all, getpass in *. destruct (stdin st); exact H. Qed.

Lemma cmd_run (Q : Cmd -> Prop) (os : OS) (cmd : Cmd) (check capture : bool) :
  Q cmd -> preserves (cmd_all Q) (run os cmd check capture).
Proof.
  intros Hq st H. unfold cmd_all, run in *. cbv zeta.
  destruct (check && negb (_ =? 0)%Z); cbn [snd executed];
    (apply Forall_app; split; [exact H | constructor; [exact Hq | constructor]]).
Qed.

Lemma cmd_run_capture (Q : Cmd -> Prop) (os : OS) (cmd : list string) :
  Q (Argv cmd) -> preserves (cmd_all Q) (run_capture os cmd).
Proof. apply cmd_run. Qed.

Lemma cmd_run_cmd (Q : Cmd -> Prop) (os : OS) (cmd : Cmd) (dry check : bool) :
  (dry = false -> Q cmd) -> preserves (cmd_all Q) (run_cmd os cmd dry check).
Proof.
  intros Hq. unfold run_cmd. destruct dry; [|apply cmd_run, Hq; reflexivity].
  apply preserves_bind; [|intros; apply preserves_ret].
  destruct cmd; apply cmd_echo.
Qed.

Lemma cmd_password_loop (Q : Cmd -> Prop) (fuel : nat) :
  preserves (cmd_all Q) (password_loop fuel).
Proof.
  induction fuel as [|n IH]; cbn [password_loop].
  - apply preserves_raise.
  - apply preserves_bind; [apply cmd_getpass | intros pw].
    apply preserves_if; [apply preserves_ret|].
    apply preserves_bind; [apply cmd_echo | intros _; exact IH].
Qed.

Lemma cmd_obtain_password (Q : Cmd -> Prop) (password : option string) :
  preserves (cmd_all Q) (obtain_password password).
Proof.
  unfold obtain_password. apply preserves_if; [|apply preserves_ret].
  intros st H. apply (cmd_password_loop Q _ st H).
Qed.

Lemma cmd_find_linux_wifi_iface (Q : Cmd -> Prop) (os : OS) (iface : option string) :
  Q CMD_DEVICE_STATUS -> Q CMD_DEVICE_LIST ->
  preserves (cmd_all Q) (find_linux_wifi_iface os iface).
Proof.
  intros H1 H2. unfold find_linux_wifi_iface, detect_wifi_iface.
  apply preserves_if; (apply preserves_bind; [apply cmd_run_capture; assumption | intros res]);
    apply preserves_if; apply preserves_ret.
Qed.

(** The lines waiting on standard input are not touched by writing and by
    running commands. *)

Lemma stdin_echo (x : list string) (msg : string) : preserves (stdin_is x) (echo msg).
Proof. intros st H. exact H. Qed.

Lemma stdin_run (x : list string) (os : OS) (cmd : Cmd) (check capture : bool) :
  preserves (stdin_is x) (run os cmd check capture).
Proof.
  intros st H. unfold stdin_is, run in *. cbv zeta.
  destruct (check && negb (_ =? 0)%Z); exact H.
Qed.

Lemma stdin_run_cmd (x : list string) (os : OS) (cmd : Cmd) (dry check : bool) :
  preserves (stdin_is x) (run_cmd os cmd dry check).
Proof.
  unfold run_cmd. destruct dry; [|apply stdin_run].
  apply preserves_bind; [destruct cmd; apply stdin_echo | intros; apply preserves_ret].
Qed.

Lemma stdin_find_linux_wifi_iface (x : list string) (os : OS) (iface : option string) :
  preserves (stdin_is x) (find_linux_wifi_iface os iface).
Proof.
  unfold find_linux_wifi_iface, detect_wifi_iface.
  apply preserves_if; (apply preserves_bind; [apply stdin_run | intros res]);
    apply preserves_if; apply preserves_ret.
Qed.

(** Walking through a program text: [pre] is tried first at every node,
    [leaf] settles the primitive actions. *)
Ltac walk pre leaf :=
  repeat
    first
      [ progress cbv beta zeta
      | pre
      | match goal with
        | |- preserves _ (ret _) => apply preserves_ret
        | |- preserves _ (sys_exit _) => apply preserves_sys_exit
        | |- preserves _ (bind (ret _) _) => apply preserves_bind_ret
        | |- preserves _ (bind _ _) => apply preserves_bind; [ | intro ]
        | |- preserves _ (when _ _) => apply preserves_when
        | |- preserves _ (ask_dry_run (Some _)) => apply preserves_ret
        | |- preserves _ (ask_dry_run ?dr) => is_var dr; destruct dr; cbn [ask_dry_run]
        | |- preserves _ (if ?c then _ else _) => destruct c
        end
      | leaf ].

Ltac cmd_leaf :=
  first
    [ apply cmd_echo
    | apply cmd_input
    | apply cmd_obtain_password
    | apply cmd_find_linux_wifi_iface; reflexivity
    | apply cmd_run_capture; reflexivity
    | apply cmd_run_cmd; first [ reflexivity | discriminate | intros _; reflexivity ] ].

Lemma truthy_hints :
  Py.truthy (Some nmcli_hint) = true /\ Py.truthy (Some iw_hint) = true /\
  Py.truthy (Some nft_hint) = true.
Proof. repeat split; reflexivity. Qed.

(** Telling two messages apart by their first differing character. *)
Ltac differ :=
  unfold ALREADY_ACTIVE, DRY_RUN_PROMPT, PASSWORD_TOO_SHORT, masked_creation_line, dry_line,
    color, GREEN, BLUE, YELLOW, RED, BOLD, NC, ESC, NL, Py.chr,
    nmcli_hint, iw_hint, nft_hint, hotspot_help;
  cbn [String.append Py.or_else ascii_of_nat ascii_of_pos ascii_of_N N.of_nat
       Pos.of_succ_nat Pos.succ];
  intros Habs; discriminate Habs.

Ltac out_leaf J ok W :=
  first
    [ apply (out_echo J ok W); first [ exact I | differ ]
    | apply (out_input J ok W); first [ exact I | differ ]
    | apply (out_obtain_password J ok W); first [ exact I | differ ]
    | apply (out_find_linux_wifi_iface J)
    | apply (out_detect_macos_wifi_iface J)
    | apply (out_run_capture J)
    | apply (out_run_cmd J ok W); intros _; first [ exact I | differ ] ].

(** Computing a run up to a point where it is left to [tac] to stop. *)
Ltac run_enable_upto tac :=
  lazymatch goal with
  | |- context [enable_hotspot_linux ?os ?dr ?i ?s ?p ?st] =>
      let E := fresh "E" in
      eassert (E : enable_hotspot_linux os dr i s p st = _);
      [ tac; reflexivity | rewrite E; clear E ]
  end.

Lemma choice_given (b dry : bool) (inp rest : list string) :
  dry_run_choice (Some b) inp = Some (dry, rest) -> b = dry /\ inp = rest.
Proof. cbn. intros H. injection H as <- <-. split; reflexivity. Qed.

(** A message that no step of the rest of a run prints is not in the
    output at its end. *)
Ltac never_printed :=
  lazymatch goal with
  | |- In ?x (output (snd (?m ?st))) -> False =>
      let W := fresh "W" in
      let F := fresh "F" in
      let Hin := fresh "Hin" in
      assert (W : preserves (out_inv (Forall (fun l => l <> x))) m)
        by (walk fail ltac:(out_leaf (Forall (fun l => l <> x)) (fun l => l <> x)
                                     (all_lines_write (fun l => l <> x))));
      assert (F : out_inv (Forall (fun l => l <> x)) st)
        by (unfold out_inv; cbn [output asked app]; repeat constructor; differ);
      intros Hin; apply W in F; unfold out_inv in F; rewrite Forall_forall in F;
      exact (F _ Hin eq_refl)
  end.

(** ** What a run does not depend on

    No action tells apart two states that differ in the output only: the
    results agree, and so do the commands executed and the lines left on
    standard input. *)

Lemma blind_ret {A} (a : A) : blind (ret a).
Proof. intros s1 s2 H. split; [reflexivity | exact H]. Qed.

Lemma blind_sys_exit {A} (c : Z) : blind (@sys_exit A c).
Proof. intros s1 s2 H. split; [reflexivity | exact H]. Qed.

Lemma blind_raise {A} (e : exn) : blind (@raise A e).
Proof. intros s1 s2 H. split; [reflexivity | exact H]. Qed.

Lemma blind_bind {A B} (m : M A) (f : A -> M B) :
  blind m -> (forall a, blind (f a)) -> blind (bind m f).
Proof.
  intros Hm Hf s1 s2 H. unfold bind. destruct (Hm s1 s2 H) as [Ho Hs].
  destruct (m s1) as [[a1|c1|e1] t1], (m s2) as [[a2|c2|e2] t2]; cbn [fst snd] in *;
    try discriminate; injection Ho as <-; [apply Hf; exact Hs | split; auto | split; auto].
Qed.

Lemma blind_when (b : bool) (m : M unit) : blind m -> blind (when b m).
Proof. destruct b; [trivial | intros _; apply blind_ret]. Qed.

Lemma blind_if {A} (b : bool) (m1 m2 : M A) :
  blind m1 -> blind m2 -> blind (if b then m1 else m2).
Proof. destruct b; trivial. Qed.

Lemma blind_echo (msg : string) : blind (echo msg).
Proof. intros s1 s2 H. split; [reflexivity | exact H]. Qed.

Lemma blind_input (prompt : string) : blind (input prompt).
Proof.
  intros s1 s2 [He Hi]. unfold input, same_but_output. rewrite Hi.
  destruct (stdin s2); cbn [fst snd executed stdin]; auto.
Qed.

Lemma blind_getpass (prompt : string) : blind (getpass prompt).
Proof.
  intros s1 s2 [He Hi]. unfold getpass, same_but_output. rewrite Hi.
  destruct (stdin s2) eqn:E; cbn [fst snd executed stdin]; [|auto].
  split; [reflexivity | split; congruence].
Qed.

Lemma blind_run (os : OS) (cmd : Cmd) (check capture : bool) : blind (run os cmd check capture).
Proof.
  intros s1 s2 [He Hi]. unfold run, same_but_output. rewrite He. cbv zeta.
  destruct (check && negb (_ =? 0)%Z); cbn [fst snd executed stdin]; rewrite ?He; auto.
Qed.

Lemma blind_run_capture (os : OS) (cmd : list string) : blind (run_capture os cmd).
Proof. apply blind_run. Qed.

Lemma blind_run_cmd (os : OS) (cmd : Cmd) (dry check : bool) : blind (run_cmd os cmd dry check).
Proof.
  unfold run_cmd. destruct dry; [|apply blind_run].
  apply blind_bind; [destruct cmd; apply blind_echo | intros; apply blind_ret].
Qed.

Lemma blind_password_loop (fuel : nat) : blind (password_loop fuel).
Proof.
  induction fuel as [|n IH]; cbn [password_loop].
  - apply blind_raise.
  - apply blind_bind; [apply blind_getpass | intros pw].
    apply blind_if; [apply blind_ret|].
    apply blind_bind; [apply blind_echo | intros _; exact IH].
Qed.

Lemma blind_obtain_password (password : option string) : blind (obtain_password password).
Proof.
  unfold obtain_password. apply blind_if; [|apply blind_ret].
  intros s1 s2 H. destruct H as [He Hi]. rewrite Hi.
  apply blind_password_loop. split; assumption.
Qed.

Lemma blind_find_linux_wifi_iface (os : OS) (iface : option string) :
  blind (find_linux_wifi_iface os iface).
Proof.
  unfold find_linux_wifi_iface, detect_wifi_iface.
  apply blind_if; (apply blind_bind; [apply blind_run_capture | intros res]);
    apply blind_if; apply blind_ret.
Qed.

Ltac walk_blind :=
  repeat
    first
      [ progress cbv beta zeta
      | match goal with
        | |- blind (ret _) => apply blind_ret
        | |- blind (sys_exit _) => apply blind_sys_exit
        | |- blind (bind _ _) => apply blind_bind; [ | intro ]
        | |- blind (when _ _) => apply blind_when
        | |- blind (echo _) => apply blind_echo
        | |- blind (input _) => apply blind_input
        | |- blind (obtain_password _) => apply blind_obtain_password
        | |- blind (find_linux_wifi_iface _ _) => apply blind_find_linux_wifi_iface
        | |- blind (run_capture _ _) => apply blind_run_capture
        | |- blind (run_cmd _ _ _ _) => apply blind_run_cmd
        | |- blind (if ?c then _ else _) => destruct c
        end ].

(** ** The happy path *)

(** C3. On the Linux happy path (tools present, required table present,
    [wlan0] resolved, no access point active, a supplied password of at least
    eight characters, creation succeeding) a real run returns normally and
    executes, after the device listing and the table probe, exactly one
    radio-on command, one AP-mode probe, one creation command and then the
    seven firewall commands: delete table, add table, add postrouting chain,
    add masquerade rule, add forward chain and the two forward rules, in
    that order.
    Where the dry-run question is asked, the answer typed is taken to be
    ASCII text. *)
Theorem happy_path_commands (os : OS) (dr : option bool) (iface ssid : option string)
    (pw : string) (inp rest : list string) :
  dry_run_choice dr inp = Some (false, rest) ->
  ascii_answer dr inp = true ->
  tools_present os = true ->
  resolved os iface = "wlan0" ->
  table_probe_code os iface = 0%Z ->
  ap_active os false iface "wlan0" = false ->
  (8 <= Py.len pw)%nat ->
  creation_code os iface "wlan0" (Py.or_else ssid LINUX_SSID) pw = 0%Z ->
  let r := enable_hotspot_linux os dr iface ssid (Some pw) (init inp) in
  fst r = Ret tt /\
  executed (snd r) =
    [ iface_query iface;
      Argv ["sudo"; "nft"; "list"; "table"; "inet"; "sing-box"];
      Argv ["nmcli"; "radio"; "wifi"; "on"];
      Argv ["iw"; "dev"; "wlan0"; "info"];
      Argv ["nmcli"; "dev"; "wifi"; "hotspot"; "ifname"; "wlan0";
            "ssid"; Py.or_else ssid LINUX_SSID; "password"; pw];
      Shell "sudo nft delete table ip throne_hotspot 2>/dev/null || true";
      Shell "sudo nft add table ip throne_hotspot";
      Shell "sudo nft add chain ip throne_hotspot postrouting { type nat hook postrouting priority srcnat; policy accept; }";
      Shell ("sudo nft add rule ip throne_hotspot postrouting oifname " ++ dq ++ "nekoray-tun" ++ dq
             ++ " masquerade");
      Shell "sudo nft add chain ip throne_hotspot forward { type filter hook forward priority filter; policy accept; }";
      Shell ("sudo nft add rule ip throne_hotspot forward iifname " ++ dq ++ "wlan0" ++ dq
             ++ " oifname " ++ dq ++ "nekoray-tun" ++ dq ++ " accept");
      Shell ("sudo nft add rule ip throne_hotspot forward iifname " ++ dq ++ "nekoray-tun" ++ dq
             ++ " oifname " ++ dq ++ "wlan0" ++ dq ++ " ct state established,related accept") ].
Proof.
  intros Hd _ Ht Hr Hp Ha Hl Hc.
  unfold table_probe_code, CMD_TABLE_PROBE in Hp.
  unfold ap_active, ap_probe_result, before_ap_probe, cmd_ap_probe, CMD_TABLE_PROBE,
    CMD_RADIO_ON in Ha.
  unfold creation_code, before_ap_probe, cmd_ap_probe, CMD_TABLE_PROBE, CMD_RADIO_ON,
    cmd_create in Hc.
  cbn [app] in Ha, Hc. cbv zeta.
  run_enable ltac:(
    enable_open Ht Hd;
    msteps; rewrite Hr; cbn [Py.truthy]; msteps;
    rewrite Hp; msteps;
    rewrite ap_test, Ha; msteps;
    rewrite (obtain_password_supplied pw (long_nonempty pw Hl)); mstep;
    replace (Py.len pw <? 8)%nat with false by (symmetry; apply Nat.ltb_ge; exact Hl);
    msteps; rewrite Hc).
  split; reflexivity.
Qed.

Lemma happy_path_commands_witness :
  let r := enable_hotspot_linux laptop (Some false) (Some "wlan0") None (Some "abcdefgh")
             (init []) in
  fst r = Ret tt /\
  executed (snd r) =
    CMD_DEVICE_LIST :: CMD_TABLE_PROBE :: CMD_RADIO_ON :: cmd_ap_probe "wlan0"
    :: cmd_create "wlan0" "thronetools" "abcdefgh" :: firewall_cmds "wlan0".
Proof.
  apply (happy_path_commands laptop (Some false) (Some "wlan0") None "abcdefgh" [] []);
    solve [reflexivity | vm_compute; lia].
Defined.

(** ** The already-active short circuit *)



(** ** The probe for the required table *)

(** C2, as the program has it.  With the tools present and the interface
    resolved, a non-zero exit of the probe [nft list table inet sing-box]
    ends the operation with exit code 1 and the missing-table message,
    before the radio-on command, the AP-mode probe, the creation command and
    every firewall command.  The probe comes after interface resolution:
    the commands executed are the device listing, then the probe. *)
Theorem missing_table_aborts (os : OS) (dr : option bool)
    (iface ssid password : option string) (inp rest : list string) (dry : bool) (hs : string) :
  dry_run_choice dr inp = Some (dry, rest) ->
  tools_present os = true ->
  resolved os iface = hs -> hs <> EmptyString ->
  table_probe_code os iface <> 0%Z ->
  let r := enable_hotspot_linux os dr iface ssid password (init inp) in
  fst r = SysExit 1 /\
  executed (snd r) = [iface_query iface; CMD_TABLE_PROBE] /\
  In MISSING_TABLE (output (snd r)) /\
  stdin (snd r) = rest.
Proof.
  intros Hd Ht Hr Hne Hp.
  unfold table_probe_code, CMD_TABLE_PROBE in Hp. apply Z.eqb_neq in Hp.
  cbv zeta.
  destruct dry;
    run_enable ltac:(
      enable_open Ht Hd; msteps; rewrite Hr, (truthy_nonempty hs Hne); msteps;
      unfold failed at 1; cbn [returncode]; rewrite Hp);
    (repeat split; try reflexivity); find_in.
Qed.

Lemma missing_table_aborts_witness :
  let r := enable_hotspot_linux laptop_no_table (Some false) (Some "wlan0") None
             (Some "abcdefgh") (init []) in
  fst r = SysExit 1 /\
  executed (snd r) = [CMD_DEVICE_LIST; CMD_TABLE_PROBE] /\
  In MISSING_TABLE (output (snd r)) /\
  stdin (snd r) = [].
Proof.
  apply (missing_table_aborts laptop_no_table (Some false) (Some "wlan0") None
           (Some "abcdefgh") [] [] false "wlan0");
    solve [reflexivity | discriminate].
Defined.

(** C2 as the specification words it fails: with the table missing, the
    interface is resolved first (the device listing is the first command
    executed and the resolved name is announced), and only then is the
    table probed. *)
Lemma table_probe_follows_resolution :
  let r := enable_hotspot_linux laptop_no_table (Some false) None None (Some "abcdefgh")
             (init []) in
  table_probe_code laptop_no_table None <> 0%Z /\
  fst r = SysExit 1 /\
  executed (snd r) = [CMD_DEVICE_STATUS; CMD_TABLE_PROBE] /\
  In (color ("✅ Wi-Fi interface: " ++ BOLD ++ "wlan0" ++ NC) GREEN) (output (snd r)).
Proof.
  cbv zeta. split; [discriminate|]. split; [reflexivity|]. split; [reflexivity|].
  vm_compute. tauto.
Qed.

(** ** Disabling *)



(** ** The AP-mode probe decides *)

(** C10. With the tools present, the interface resolved and the required
    table present, the already-active branch is taken (its message is
    printed) exactly when the AP-mode probe exits with 0 and its output
    contains [type AP].  A probe that exits with a non-zero code counts as
    no access point: the operation goes on to check the password, to create
    the hotspot and to set up the firewall rules.
    Where the dry-run question is asked, the answer typed is taken to be
    ASCII text. *)
Theorem ap_probe_decides (os : OS) (dr : option bool) (iface ssid : option string)
    (inp rest : list string) (dry : bool) (hs : string) :
  dry_run_choice dr inp = Some (dry, rest) ->
  ascii_answer dr inp = true ->
  tools_present os = true ->
  resolved os iface = hs -> hs <> EmptyString ->
  table_probe_code os iface = 0%Z ->
  (forall password,
      In (ALREADY_ACTIVE hs)
         (output (snd (enable_hotspot_linux os dr iface ssid password (init inp))))
      <-> (fst (ap_probe_result os dry iface hs) = 0%Z /\
           Py.contains "type AP" (snd (ap_probe_result os dry iface hs)) = true)) /\
  (fst (ap_probe_result os dry iface hs) <> 0%Z ->
   forall pw,
     (8 <= Py.len pw)%nat ->
     (dry = false -> creation_code os iface hs (Py.or_else ssid LINUX_SSID) pw = 0%Z) ->
     let r := enable_hotspot_linux os dr iface ssid (Some pw) (init inp) in
     fst r = Ret tt /\
     executed (snd r) =
       (before_ap_probe dry iface ++
        cmd_ap_probe hs ::
        (if dry then []
         else cmd_create hs (Py.or_else ssid LINUX_SSID) pw :: firewall_cmds (quote hs)))%list /\
     In (color "✅ Setting up nftables rules..." GREEN) (output (snd r))).
Proof.
  intros Hd _ Ht Hr Hhs Hp.
  unfold table_probe_code, CMD_TABLE_PROBE in Hp.
  assert (Hact : ap_active os dry iface hs = true <->
                 (fst (ap_probe_result os dry iface hs) = 0%Z /\
                  Py.contains "type AP" (snd (ap_probe_result os dry iface hs)) = true)).
  { unfold ap_active. rewrite andb_true_iff, Z.eqb_eq. reflexivity. }
  split.
  - intros password. rewrite <- Hact. clear Hact.
    destruct (ap_active os dry iface hs) eqn:Ha;
      unfold ap_active, ap_probe_result, before_ap_probe, cmd_ap_probe, CMD_TABLE_PROBE,
        CMD_RADIO_ON in Ha.
    + split; [reflexivity | intros _].
      destruct dry; cbn [app] in Ha;
        run_enable ltac:(
          enable_open Ht Hd; msteps; rewrite Hr, (truthy_nonempty hs Hhs); msteps;
          rewrite Hp; msteps; rewrite ap_test, Ha);
        find_in.
    + split; [intros Hin; exfalso | discriminate].
      revert Hin.
      destruct dry; cbn [app] in Ha;
        run_enable_upto ltac:(
          enable_open_r Ht Hd; rsteps; rewrite Hr, (truthy_nonempty hs Hhs); rsteps;
          rewrite Hp; rsteps; rewrite ap_test, Ha);
        destruct dr; never_printed.
  - intros Hrc pw Hl Hc. cbv zeta.
    assert (Ha : ap_active os dry iface hs = false).
    { unfold ap_active. apply Z.eqb_neq in Hrc. rewrite Hrc. reflexivity. }
    unfold ap_active, ap_probe_result, before_ap_probe, cmd_ap_probe, CMD_TABLE_PROBE,
      CMD_RADIO_ON in Ha.
    unfold creation_code, before_ap_probe, cmd_ap_probe, CMD_TABLE_PROBE, CMD_RADIO_ON,
      cmd_create in Hc.
    unfold before_ap_probe, cmd_ap_probe, CMD_TABLE_PROBE, CMD_RADIO_ON, cmd_create.
    assert (Hlt : (Py.len pw <? 8)%nat = false) by (apply Nat.ltb_ge; exact Hl).
    destruct dry; cbn [app] in Ha, Hc |- *.
    + run_enable ltac:(
        enable_open Ht Hd; msteps; rewrite Hr, (truthy_nonempty hs Hhs); msteps;
        rewrite Hp; msteps; rewrite ap_test, Ha; msteps;
        rewrite (obtain_password_supplied pw (long_nonempty pw Hl)); mstep; rewrite Hlt).
      repeat split; try reflexivity. find_in.
    + specialize (Hc eq_refl).
      run_enable ltac:(
        enable_open Ht Hd; msteps; rewrite Hr, (truthy_nonempty hs Hhs); msteps;
        rewrite Hp; msteps; rewrite ap_test, Ha; msteps;
        rewrite (obtain_password_supplied pw (long_nonempty pw Hl)); mstep; rewrite Hlt;
        msteps; rewrite Hc).
      repeat split; try reflexivity. find_in.
Qed.

(** ** The dry-run question *)

Lemma never_asked_with_flag (os : OS) (sys_platform : string) (args : Namespace)
    (inp : list string) :
  ~ In DRY_RUN_PROMPT (output (snd (main os sys_platform args (init inp)))).
Proof.
  assert (W : preserves (out_inv (Forall (fun l => l <> DRY_RUN_PROMPT)))
                (main os sys_platform args)).
  { unfold main, enable_hotspot_linux, disable_hotspot_linux, enable_hotspot_macos,
      disable_hotspot_macos, ensure_linux_command.
    walk
      ltac:(idtac; match goal with
            | |- preserves _ (match hotspot_command args with _ => _ end) =>
                destruct (hotspot_command args)
            end)
      ltac:(out_leaf (Forall (fun l => l <> DRY_RUN_PROMPT)) (fun l => l <> DRY_RUN_PROMPT)
                     (all_lines_write (fun l => l <> DRY_RUN_PROMPT))). }
  intros Hin. specialize (W (init inp) (Forall_nil _)).
  unfold out_inv in W. rewrite Forall_forall in W. exact (W _ Hin eq_refl).
Qed.

(** Reading the statement off two runs of one continuation that start in
    states differing in the output only. *)
Ltac same_continuation :=
  lazymatch goal with
  | |- context [fst (?m ?s1) = fst (?m ?s2)] =>
      let B := fresh "B" in
      let W := fresh "W" in
      assert (B : blind m) by walk_blind;
      assert (W : preserves (out_inv (In DRY_RUN_PROMPT)) m)
        by (walk fail ltac:(out_leaf (In DRY_RUN_PROMPT) (fun _ : string => True)
                                     (written_write DRY_RUN_PROMPT)));
      destruct (B s1 s2 (conj eq_refl eq_refl)) as [Ho [He Hi]];
      split; [ apply W; unfold out_inv; cbn [output]; find_in | ];
      split; [ exact Ho | split; [ exact He | exact Hi ] ]
  end.

Lemma asked_without_setting_enable (os : OS) (iface ssid password : option string)
    (l : string) (rest : list string) :
  let r := enable_hotspot_linux os None iface ssid password (init (l :: rest)) in
  let r' := enable_hotspot_linux os (Some (answer l)) iface ssid password (init rest) in
  In DRY_RUN_PROMPT (output (snd r)) /\
  fst r = fst r' /\ executed (snd r) = executed (snd r') /\ stdin (snd r) = stdin (snd r').
Proof.
  cbv zeta.
  run_enable_upto ltac:(
    unfold enable_hotspot_linux, ensure_linux_command; cbv zeta; do 3 rstep; norm;
    erewrite bind_ask_dry_run by reflexivity; norm; cbn [asked app]).
  run_enable_upto ltac:(
    unfold enable_hotspot_linux, ensure_linux_command; cbv zeta; do 3 rstep; norm;
    erewrite bind_ask_dry_run by reflexivity; norm; cbn [asked app]).
  same_continuation.
Qed.

Lemma asked_without_setting_disable (os : OS) (l : string) (rest : list string) :
  let r := disable_hotspot_linux os None (init (l :: rest)) in
  let r' := disable_hotspot_linux os (Some (answer l)) (init rest) in
  In DRY_RUN_PROMPT (output (snd r)) /\
  fst r = fst r' /\ executed (snd r) = executed (snd r') /\ stdin (snd r) = stdin (snd r').
Proof.
  cbv zeta.
  eassert (E1 : disable_hotspot_linux os None (init (l :: rest)) = _).
  { unfold disable_hotspot_linux. do 2 rstep. norm.
    erewrite bind_ask_dry_run by reflexivity. norm. cbn [asked app]. reflexivity. }
  eassert (E2 : disable_hotspot_linux os (Some (answer l)) (init rest) = _).
  { unfold disable_hotspot_linux. do 2 rstep. norm.
    erewrite bind_ask_dry_run by reflexivity. norm. cbn [asked app]. reflexivity. }
  rewrite E1, E2. same_continuation.
Qed.

(** C6, as the program has it.  Through the command line the dry-run
    setting is the [--dry-run] flag itself: on every platform and for every
    hotspot sub-command no dry-run question is printed, and on Linux the
    operation runs with the flag's value, so without the flag it is a real
    run.  The question is asked when an operation is called with no setting,
    as the interactive menu does: the prompt is printed, one line is read,
    and for a line of ASCII text the run continues as with the setting
    [answer line], which is on exactly when the line, stripped and
    lower-cased, is [y]; an empty line means no. *)
Theorem dry_run_question (os : OS) :
  (forall sys_platform args inp,
      ~ In DRY_RUN_PROMPT (output (snd (main os sys_platform args (init inp))))) /\
  (forall dry iface ssid password,
      main os "linux"
        {| hotspot_command := Some "enable"; ns_dry_run := dry; ns_iface := iface;
           ns_ssid := ssid; ns_password := password |}
      = enable_hotspot_linux os (Some dry) iface ssid password) /\
  (forall dry iface ssid password,
      main os "linux"
        {| hotspot_command := Some "disable"; ns_dry_run := dry; ns_iface := iface;
           ns_ssid := ssid; ns_password := password |}
      = disable_hotspot_linux os (Some dry)) /\
  (forall l rest,
      Py.isascii l = true ->
      let r := main_linux_choice_5 os (init (l :: rest)) in
      let r' := enable_hotspot_linux os (Some (answer l)) None None None (init rest) in
      In DRY_RUN_PROMPT (output (snd r)) /\
      fst r = fst r' /\ executed (snd r) = executed (snd r') /\ stdin (snd r) = stdin (snd r')) /\
  (forall l rest,
      Py.isascii l = true ->
      let r := main_linux_choice_6 os (init (l :: rest)) in
      let r' := disable_hotspot_linux os (Some (answer l)) (init rest) in
      In DRY_RUN_PROMPT (output (snd r)) /\
      fst r = fst r' /\ executed (snd r) = executed (snd r') /\ stdin (snd r) = stdin (snd r')) /\
  answer EmptyString = false /\
  (forall l, Py.isascii l = true -> (answer l = true <-> Py.lower (Py.strip l) = "y")).
Proof.
  split; [intros; apply never_asked_with_flag|].
  split; [reflexivity|]. split; [reflexivity|].
  split; [intros l rest _; apply asked_without_setting_enable|].
  split; [intros l rest _; apply asked_without_setting_disable|].
  split; [reflexivity|].
  intros l _. unfold answer. apply String.eqb_eq.
Qed.

(** C6 as the specification words it fails: [throne-tool hotspot enable]
    without [--dry-run], with a [y] waiting on standard input, prints no
    question, leaves the [y] unread and runs for real.  And where the
    question is asked, [y] is not the only line that selects a dry run. *)
Lemma cli_asks_no_question :
  let args := {| hotspot_command := Some "enable"; ns_dry_run := false; ns_iface := None;
                 ns_ssid := None; ns_password := Some "abcdefgh" |} in
  let r := main laptop "linux" args (init ["y"]) in
  ~ In DRY_RUN_PROMPT (output (snd r)) /\
  stdin (snd r) = ["y"] /\
  In CMD_RADIO_ON (executed (snd r)) /\
  answer " Y " = true.
Proof.
  cbv zeta. split; [apply never_asked_with_flag|].
  split; [reflexivity|]. split; [vm_compute; tauto | reflexivity].
Qed.

(** ** A password that is too short *)

(** A password given as an argument is never asked for: whatever the
    machine does, the only line the enable operation reads is the answer to
    the dry-run question, when that is asked. *)
Lemma supplied_password_not_read (os : OS) (dr : option bool) (iface ssid : option string)
    (pw : string) (inp rest : list string) (dry : bool) :
  dry_run_choice dr inp = Some (dry, rest) ->
  pw <> EmptyString ->
  stdin (snd (enable_hotspot_linux os dr iface ssid (Some pw) (init inp))) = rest.
Proof.
  intros Hd Hne.
  assert (W : forall b x, preserves (stdin_is x)
                            (enable_hotspot_linux os (Some b) iface ssid (Some pw))).
  { intros b x. unfold enable_hotspot_linux, ensure_linux_command.
    rewrite (obtain_password_supplied pw Hne).
    walk fail ltac:(first [ apply stdin_echo
                          | apply stdin_find_linux_wifi_iface
                          | apply stdin_run
                          | apply stdin_run_cmd ]). }
  destruct dr as [b|].
  - apply choice_given in Hd as [_ <-]. apply (W b inp (init inp)). reflexivity.
  - destruct inp as [|l inp']; [discriminate|]. cbn in Hd. injection Hd as _ <-.
    destruct (asked_without_setting_enable os iface ssid (Some pw) l inp') as [_ [_ [_ Hs]]].
    rewrite Hs. apply (W (answer l) inp' (init inp')). reflexivity.
Qed.

(** C1, as the program has it.  A non-empty password of fewer than eight
    characters given as an argument never lets the operation issue the
    creation command or a firewall command, and it is never asked for
    again: no line is read beyond the answer to the dry-run question.  The
    password is looked at only after the access-point probe: with the tools
    present, the interface resolved, the required table present and no
    access point active, the operation ends with exit code 1 once the
    device listing, the table probe, the radio-on command (in a real run)
    and the AP-mode probe have been executed.
    Where the dry-run question is asked, the answer typed is taken to be
    ASCII text. *)
Theorem short_password_rejected (os : OS) (dr : option bool) (iface ssid : option string)
    (pw : string) (inp rest : list string) (dry : bool) :
  dry_run_choice dr inp = Some (dry, rest) ->
  ascii_answer dr inp = true ->
  pw <> EmptyString ->
  (Py.len pw < 8)%nat ->
  let r := enable_hotspot_linux os dr iface ssid (Some pw) (init inp) in
  Forall (fun c => is_creation c || is_firewall c = false) (executed (snd r)) /\
  stdin (snd r) = rest /\
  (forall hs,
      tools_present os = true ->
      resolved os iface = hs -> hs <> EmptyString ->
      table_probe_code os iface = 0%Z ->
      ap_active os dry iface hs = false ->
      fst r = SysExit 1 /\
      executed (snd r) = (before_ap_probe dry iface ++ [cmd_ap_probe hs])%list /\
      last (output (snd r)) EmptyString = PASSWORD_TOO_SHORT).
Proof.
  intros Hd _ Hne Hl. cbv zeta. apply Nat.ltb_lt in Hl. split; [|split].
  - assert (W : preserves (cmd_all (fun c => is_creation c || is_firewall c = false))
                  (enable_hotspot_linux os dr iface ssid (Some pw))).
    { unfold enable_hotspot_linux, ensure_linux_command.
      rewrite (obtain_password_supplied pw Hne).
      walk
        ltac:(idtac; match goal with
              | |- preserves _ (bind (when (Py.len pw <? 8)%nat _) _) =>
                  rewrite Hl; apply preserves_bind_noret;
                  [ cbn [when]; apply noret_bind_r; intros; apply noret_sys_exit | ]
              end)
        cmd_leaf. }
    apply (W (init inp)). constructor.
  - exact (supplied_password_not_read os dr iface ssid pw inp rest dry Hd Hne).
  - intros hs Ht Hr Hhs Hp Ha.
    unfold table_probe_code, CMD_TABLE_PROBE in Hp.
    unfold ap_active, ap_probe_result, before_ap_probe, cmd_ap_probe, CMD_TABLE_PROBE,
      CMD_RADIO_ON in Ha.
    unfold before_ap_probe, cmd_ap_probe, CMD_TABLE_PROBE, CMD_RADIO_ON.
    destruct dry; cbn [app] in Ha |- *;
      run_enable ltac:(
        enable_open Ht Hd; msteps; rewrite Hr, (truthy_nonempty hs Hhs); msteps;
        rewrite Hp; msteps; rewrite ap_test, Ha; msteps;
        rewrite (obtain_password_supplied pw Hne); mstep; rewrite Hl);
      (split; [reflexivity|]); (split; [reflexivity|]);
      rewrite !app_comm_cons; apply last_last.
Qed.

Lemma short_password_rejected_witness :
  let r := enable_hotspot_linux laptop (Some true) None None (Some "short") (init ["next"]) in
  Forall (fun c => is_creation c || is_firewall c = false) (executed (snd r)) /\
  stdin (snd r) = ["next"] /\
  fst r = SysExit 1 /\
  executed (snd r) = [CMD_DEVICE_STATUS; CMD_TABLE_PROBE; cmd_ap_probe "wlan0"] /\
  last (output (snd r)) EmptyString = PASSWORD_TOO_SHORT.
Proof.
  assert (Hne : "short" <> EmptyString) by discriminate.
  assert (Hl : (Py.len "short" < 8)%nat) by (vm_compute; lia).
  assert (Hhs : "wlan0" <> EmptyString) by discriminate.
  pose proof (short_password_rejected laptop (Some true) None None "short" ["next"] ["next"]
                true eq_refl eq_refl Hne Hl) as H.
  cbv zeta in H. destruct H as [H1 [H2 H3]].
  split; [exact H1|]. split; [exact H2|].
  exact (H3 "wlan0" eq_refl eq_refl Hhs eq_refl eq_refl).
Defined.

(** C1 as the specification words it fails: on the sample laptop a real run
    with the five-character password [short] does end with exit code 1, but
    only after the radio-on command and the AP-mode probe were executed. *)
Lemma short_password_after_radio_on :
  let r := enable_hotspot_linux laptop (Some false) (Some "wlan0") None (Some "short")
             (init []) in
  (Py.len "short" < 8)%nat /\
  fst r = SysExit 1 /\
  executed (snd r) = [CMD_DEVICE_LIST; CMD_TABLE_PROBE; CMD_RADIO_ON; cmd_ap_probe "wlan0"] /\
  In CMD_RADIO_ON (executed (snd r)) /\
  In (cmd_ap_probe "wlan0") (executed (snd r)).
Proof.
  cbv zeta. split; [vm_compute; lia|]. split; [reflexivity|]. split; [reflexivity|].
  split; vm_compute; tauto.
Qed.

(** ** Interface resolution *)

Lemma rev_string_nonempty (acc s : string) :
  acc <> EmptyString -> Py.rev_string acc s <> EmptyString.
Proof.
  revert acc. induction s as [|c s IH]; intros acc H; cbn; [exact H|].
  apply IH. discriminate.
Qed.

Lemma split_ws_aux_nonempty (s cur t : string) :
  In t (Py.split_ws_aux cur s) -> t <> EmptyString.
Proof.
  revert cur. induction s as [|c s IH]; intros cur; cbn.
  - destruct cur; cbn; [tauto|]. intros [<-|[]]. apply rev_string_nonempty. discriminate.
  - destruct (Py.isspace c).
    + destruct cur; [apply IH|]. cbn. intros [<-|H]; [|apply (IH _ H)].
      apply rev_string_nonempty. discriminate.
    + apply IH.
Qed.

Lemma find_scan_spec (name : string) (lines : list string) :
  find_linux_wifi_iface_scan name lines =
  if existsb (fun row => String.eqb (fst row) name && is_wifi_row row)
       (flat_map (fun line => match Py.split_once ":" line with
                              | Some row => [row]
                              | None => []
                              end) lines)
  then name else EmptyString.
Proof.
  induction lines as [|line rest IH]; cbn [find_linux_wifi_iface_scan flat_map existsb];
    [reflexivity|].
  destruct (Py.split_once ":" line) as [[device dev_type]|]; cbn [app existsb fst snd];
    [|exact IH].
  unfold is_wifi_row at 1; cbn [snd].
  destruct (String.eqb device name) eqn:Ed; cbn [andb orb]; [|exact IH].
  destruct (String.eqb dev_type "wifi"); cbn [orb]; [|exact IH].
  apply String.eqb_eq in Ed. exact Ed.
Qed.

Lemma detect_scan_spec (lines : list string) :
  detect_wifi_iface_scan lines =
  match find is_wifi_row
          (flat_map (fun line => match Py.split_ws line with
                                 | device :: type :: _ => [(device, type)]
                                 | _ => []
                                 end) lines) with
  | Some row => fst row
  | None => EmptyString
  end.
Proof.
  induction lines as [|line rest IH]; cbn [detect_wifi_iface_scan flat_map find];
    [reflexivity|].
  destruct (Py.split_ws line) as [|p0 [|p1 parts]]; cbn [app find]; try exact IH.
  unfold is_wifi_row at 1; cbn [snd fst].
  destruct (String.eqb p1 "wifi"); [reflexivity | exact IH].
Qed.

Lemma status_rows_device_nonempty (listing : string) (row : string * string) :
  In row (status_rows listing) -> fst row <> EmptyString.
Proof.
  unfold status_rows. rewrite in_flat_map. intros [line [_ H]].
  destruct (Py.split_ws line) as [|p0 [|p1 parts]] eqn:E; cbn in H; try tauto.
  destruct H as [<-|[]]. cbn [fst].
  apply (split_ws_aux_nonempty line EmptyString). unfold Py.split_ws in E. rewrite E.
  left; reflexivity.
Qed.

Lemma resolved_nonempty (os : OS) (history : list Cmd) (requested : option string)
    (name : string) :
  spec_resolveInterface os history requested = Resolved name -> name <> EmptyString.
Proof.
  unfold spec_resolveInterface.
  destruct requested as [[|c t]|].
  2:{ destruct (os_run os history CMD_DEVICE_LIST) as [rc listing].
      destruct (_ && _); [|discriminate]. intros H; injection H as <-. discriminate. }
  all: destruct (os_run os history CMD_DEVICE_STATUS) as [rc listing];
    destruct (rc =? 0)%Z; [|discriminate];
    destruct (find is_wifi_row (status_rows listing)) as [row|] eqn:F; [|discriminate];
    intros H; injection H as <-;
    apply find_some in F; apply (status_rows_device_nonempty listing), F.
Qed.

Lemma find_linux_wifi_iface_spec (os : OS) (requested : option string) (st : state) :
  find_linux_wifi_iface os requested st =
  (Ret (name_of (spec_resolveInterface os (executed st) requested)),
   {| executed := (executed st ++ [iface_query requested])%list;
      output := output st; stdin := stdin st |}).
Proof.
  unfold find_linux_wifi_iface, detect_wifi_iface, spec_resolveInterface, iface_query,
    CMD_DEVICE_LIST, CMD_DEVICE_STATUS.
  destruct requested as [[|c t]|]; cbn [Py.truthy negb Py.or_else]; rewrite bind_run_capture.
  2:{ unfold failed; cbn [returncode text stdout].
      destruct (os_run os (executed st) _) as [rc listing]; cbn [fst snd].
      destruct (rc =? 0)%Z; cbn [negb andb]; [|reflexivity].
      unfold ret. rewrite find_scan_spec. unfold listing_rows.
      destruct (existsb _ _); reflexivity. }
  all: unfold failed; cbn [returncode text stdout];
    destruct (os_run os (executed st) _) as [rc listing]; cbn [fst snd];
    destruct (rc =? 0)%Z; cbn [negb]; [|reflexivity];
    unfold ret; rewrite detect_scan_spec; unfold status_rows;
    destruct (find _ _); reflexivity.
Qed.

Lemma resolved_spec (os : OS) (iface : option string) :
  resolved os iface = name_of (spec_resolveInterface os [] iface).
Proof. unfold resolved. rewrite find_linux_wifi_iface_spec. reflexivity. Qed.

Lemma not_found_only_requested (os : OS) (h : list Cmd) (iface : option string) :
  spec_resolveInterface os h iface = InterfaceNotFound -> Py.truthy iface = true.
Proof.
  unfold spec_resolveInterface. destruct iface as [[|c t]|]; [|reflexivity|];
    destruct (os_run os h CMD_DEVICE_STATUS) as [rc listing];
    destruct (rc =? 0)%Z; try discriminate;
    destruct (find is_wifi_row (status_rows listing)); discriminate.
Qed.

Lemma no_wifi_only_unrequested (os : OS) (h : list Cmd) (iface : option string) :
  spec_resolveInterface os h iface = NoWifiInterface -> Py.truthy iface = false.
Proof.
  unfold spec_resolveInterface. destruct iface as [[|c t]|]; [reflexivity| |reflexivity].
  destruct (os_run os h CMD_DEVICE_LIST) as [rc listing].
  destruct (_ && _); discriminate.
Qed.

Lemma enable_without_interface (os : OS) (dr : option bool) (iface ssid password : option string)
    (inp rest : list string) (dry : bool) :
  dry_run_choice dr inp = Some (dry, rest) ->
  tools_present os = true ->
  resolved os iface = EmptyString ->
  let r := enable_hotspot_linux os dr iface ssid password (init inp) in
  fst r = SysExit 1 /\
  executed (snd r) = [iface_query iface] /\
  In (if Py.truthy iface then IFACE_NOT_FOUND (Py.or_else iface EmptyString) else NO_WIFI_IFACE)
     (output (snd r)).
Proof.
  intros Hd Ht Hr. cbv zeta.
  destruct dry, (Py.truthy iface) eqn:Hi;
    run_enable ltac:(enable_open Ht Hd; msteps; rewrite Hr; cbn [Py.truthy]; msteps;
                     rewrite ?Hi);
    (split; [reflexivity|]); (split; [reflexivity|]); find_in.
Qed.

(** C7. [find_linux_wifi_iface] refines the resolution of the
    specification: it returns the resolved name, and the empty string when
    resolution fails, after executing one command, the read-only listing
    for the request, and nothing else.  A resolved name is never empty, and
    a requested name resolves to itself or not at all.  The enable operation
    turns the two failures into exit code 1 with their own messages.  In
    particular, with the rows [wlan0:wifi] and [eth0:ethernet], requesting
    [wlan0] resolves to [wlan0] and requesting [eth0] is not found. *)
Theorem interface_resolution (os : OS) :
  (forall requested st,
      let r := find_linux_wifi_iface os requested st in
      fst r = Ret (name_of (spec_resolveInterface os (executed st) requested)) /\
      executed (snd r) = (executed st ++ [iface_query requested])%list /\
      is_query (iface_query requested) = true /\
      output (snd r) = output st /\ stdin (snd r) = stdin st) /\
  (forall h requested name,
      spec_resolveInterface os h requested = Resolved name ->
      name <> EmptyString /\ (Py.truthy requested = true -> requested = Some name)) /\
  (forall dr iface ssid password inp rest dry,
      dry_run_choice dr inp = Some (dry, rest) ->
      tools_present os = true ->
      let r := enable_hotspot_linux os dr iface ssid password (init inp) in
      (spec_resolveInterface os [] iface = InterfaceNotFound ->
       fst r = SysExit 1 /\ executed (snd r) = [CMD_DEVICE_LIST] /\
       In (IFACE_NOT_FOUND (Py.or_else iface EmptyString)) (output (snd r))) /\
      (spec_resolveInterface os [] iface = NoWifiInterface ->
       fst r = SysExit 1 /\ executed (snd r) = [CMD_DEVICE_STATUS] /\
       In NO_WIFI_IFACE (output (snd r)))) /\
  (forall h,
      os_run os h CMD_DEVICE_LIST = (0%Z, "wlan0:wifi" ++ NL ++ "eth0:ethernet" ++ NL) ->
      spec_resolveInterface os h (Some "wlan0") = Resolved "wlan0" /\
      spec_resolveInterface os h (Some "eth0") = InterfaceNotFound).
Proof.
  split; [|split; [|split]].
  - intros requested st. cbv zeta. rewrite find_linux_wifi_iface_spec. cbn [fst snd executed
      output stdin]. repeat split. unfold iface_query. destruct (Py.truthy requested); reflexivity.
  - intros h requested name H. split; [exact (resolved_nonempty os h requested name H)|].
    unfold spec_resolveInterface in H. destruct requested as [[|c t]|]; try discriminate.
    intros _. destruct (os_run os h CMD_DEVICE_LIST) as [rc listing].
    destruct (_ && _); [|discriminate]. injection H as <-. reflexivity.
  - intros dr iface ssid password inp rest dry Hd Ht. cbv zeta. split; intros Hs.
    + pose proof (enable_without_interface os dr iface ssid password inp rest dry Hd Ht) as E.
      cbv zeta in E. rewrite resolved_spec, Hs in E. specialize (E eq_refl).
      unfold iface_query in E. rewrite (not_found_only_requested os [] iface Hs) in E. exact E.
    + pose proof (enable_without_interface os dr iface ssid password inp rest dry Hd Ht) as E.
      cbv zeta in E. rewrite resolved_spec, Hs in E. specialize (E eq_refl).
      unfold iface_query in E. rewrite (no_wifi_only_unrequested os [] iface Hs) in E. exact E.
  - intros h H. unfold spec_resolveInterface. rewrite H. split; reflexivity.
Qed.

Lemma interface_resolution_witness :
  spec_resolveInterface laptop [] (Some "wlan0") = Resolved "wlan0" /\
  spec_resolveInterface laptop [] (Some "eth0") = InterfaceNotFound /\
  fst (enable_hotspot_linux laptop (Some false) (Some "eth0") None None (init []))
  = SysExit 1.
Proof.
  destruct (interface_resolution laptop) as [_ [_ [H3 H4]]].
  destruct (H4 [] eq_refl) as [Hw He].
  split; [exact Hw|]. split; [exact He|].
  destruct (H3 (Some false) (Some "eth0") None None [] [] false eq_refl eq_refl) as [Hn _].
  exact (proj1 (Hn He)).
Defined.

(** ** Every branch of the enable operation *)

Lemma failed_rc (a : Cmd) (rc : Z) (o : option string) :
  failed {| args := a; returncode := rc; stdout := o |} = negb (rc =? 0)%Z.
Proof. reflexivity. Qed.

(** Rewriting with what is known of the machine and of the arguments. *)
Ltac use_known :=
  repeat
    match goal with
    | H : os_which _ _ = _ |- _ => rewrite H
    | H : resolved _ _ = _ |- _ => rewrite H
    | H : (fst (os_run _ _ _) =? 0)%Z = _ |- _ => rewrite H
    | H : (fst (os_run _ _ _) =? 0)%Z && _ = _ |- _ => rewrite H
    | H : Py.truthy _ = _ |- _ => rewrite H
    | H : obtain_password _ = _ |- _ => rewrite H
    | H : (Py.len _ <? 8)%nat = _ |- _ => rewrite H
    | H : read_password _ _ = _ |- _ => rewrite H
    | H : os_path_exists _ _ = _ |- _ => rewrite H
    | H : macos_iface _ _ = _ |- _ => rewrite H
    end.

Lemma truthy_cons (c : ascii) (t : string) : Py.truthy (Some (String c t)) = true.
Proof. reflexivity. Qed.

Lemma truthy_empty : Py.truthy (Some EmptyString) = false.
Proof. reflexivity. Qed.

Ltac settle :=
  repeat first [ progress msteps | progress use_known | progress rewrite ap_test
               | progress rewrite failed_rc | progress rewrite truthy_cons
               | progress rewrite truthy_empty ].

(** Opening a run whatever the machine. *)
Ltac enable_any Hd :=
  unfold enable_hotspot_linux, ensure_linux_command, LINUX_REQUIRED_INET_TABLE;
  cbv zeta; msteps;
  try (erewrite bind_ask_dry_run by (first [ exact Hd | reflexivity ]); norm);
  pose proof truthy_hints as [? [? ?]].

Ltac run_any Hd :=
  lazymatch goal with
  | |- context [enable_hotspot_linux ?os ?dr ?i ?s ?p ?st] =>
      let E := fresh "E" in
      eassert (E : enable_hotspot_linux os dr i s p st = _);
      [ enable_any Hd; settle; unfold echo, ret, sys_exit; norm; reflexivity
      | rewrite E; clear E; norm ]
  end.

Ltac branch_tools os :=
  destruct (os_which os "nmcli") eqn:Hnm;
  [ destruct (os_which os "iw") eqn:Hiw;
    [ destruct (os_which os "nft") eqn:Hnft | ] | ].

(** C9, as the program has it.  In a dry run on Linux two passwords of
    valid length lead to the same result and the same executed commands,
    and to the same output but for one line: a run that completes prints
    [Password: ] followed by the password given, in clear, as its last line
    but one.  The creation command is printed with the password masked as
    eight stars, one and the same line for every password. *)
Theorem dry_run_output_and_password (os : OS) (dr : option bool) (iface ssid : option string)
    (pw1 pw2 : string) (inp rest : list string) :
  dry_run_choice dr inp = Some (true, rest) ->
  (8 <= Py.len pw1)%nat ->
  (8 <= Py.len pw2)%nat ->
  let r1 := enable_hotspot_linux os dr iface ssid (Some pw1) (init inp) in
  let r2 := enable_hotspot_linux os dr iface ssid (Some pw2) (init inp) in
  fst r1 = fst r2 /\
  executed (snd r1) = executed (snd r2) /\
  (output (snd r1) = output (snd r2) \/
   exists out,
     output (snd r1) = (out ++ [("Password: " ++ pw1)%string; EmptyString])%list /\
     output (snd r2) = (out ++ [("Password: " ++ pw2)%string; EmptyString])%list /\
     In (masked_creation_line (resolved os iface) (Py.or_else ssid LINUX_SSID)) out).
Proof.
  intros Hd H1 H2. cbv zeta.
  pose proof (obtain_password_supplied pw1 (long_nonempty pw1 H1)) as Ho1.
  pose proof (obtain_password_supplied pw2 (long_nonempty pw2 H2)) as Ho2.
  apply Nat.ltb_ge in H1, H2.
  branch_tools os; try solve [do 2 run_any Hd; auto].
  destruct (resolved os iface) as [|c t] eqn:Hr.
  { destruct (Py.truthy iface) eqn:Hi; do 2 run_any Hd; auto. }
  destruct (table_present os iface) eqn:Hp; unfold table_present in Hp;
    [|do 2 run_any Hd; auto].
  destruct (ap_active os true iface (String c t)) eqn:Ha;
    unfold ap_active, ap_probe_result, before_ap_probe, cmd_ap_probe, CMD_TABLE_PROBE in Ha;
    cbn [app] in Ha; [do 2 run_any Hd; auto|].
  do 2 run_any Hd.
  split; [reflexivity|]. split; [reflexivity|]. right.
  destruct dr; cbn [asked app];
    lazymatch goal with
    | |- exists out, ?l = _ /\ _ => exists (removelast (removelast l))
    end;
    cbn [removelast app];
    (split; [reflexivity|]); (split; [reflexivity|]); find_in.
Qed.

Lemma dry_run_output_and_password_witness :
  let r1 := enable_hotspot_linux laptop (Some true) None None (Some "abcdefgh") (init []) in
  let r2 := enable_hotspot_linux laptop (Some true) None None (Some "ijklmnop") (init []) in
  fst r1 = fst r2 /\
  executed (snd r1) = executed (snd r2) /\
  (output (snd r1) = output (snd r2) \/
   exists out,
     output (snd r1) = (out ++ ["Password: abcdefgh"; EmptyString])%list /\
     output (snd r2) = (out ++ ["Password: ijklmnop"; EmptyString])%list /\
     In (masked_creation_line (resolved laptop None) (Py.or_else None LINUX_SSID)) out).
Proof.
  apply (dry_run_output_and_password laptop (Some true) None None "abcdefgh" "ijklmnop" [] []);
    solve [reflexivity | vm_compute; lia].
Defined.

(** C9 as written fails: two dry runs that differ in the password alone
    differ in their output, which shows the password in clear; and a valid
    password can occur in the printed creation command, as the eight
    letters [password] do. *)
Lemma dry_run_prints_password :
  let r1 := enable_hotspot_linux laptop (Some true) None None (Some "abcdefgh") (init []) in
  let r2 := enable_hotspot_linux laptop (Some true) None None (Some "ijklmnop") (init []) in
  output (snd r1) <> output (snd r2) /\
  In "Password: abcdefgh" (output (snd r1)) /\
  Py.len "password" = 8 /\
  Py.contains "password" (masked_creation_line "wlan0" "thronetools") = true.
Proof.
  cbv zeta. split; [vm_compute; discriminate|].
  split; [vm_compute; tauto|]. split; reflexivity.
Qed.

Lemma ap_probe_decides_witness :
  let r := enable_hotspot_linux laptop_probe_fails (Some false) None None (Some "abcdefgh")
             (init []) in
  fst (ap_probe_result laptop_probe_fails false None "wlan0") = 1%Z /\
  Py.contains "type AP" (snd (ap_probe_result laptop_probe_fails false None "wlan0")) = true /\
  ~ In (ALREADY_ACTIVE "wlan0") (output (snd r)) /\
  fst r = Ret tt /\
  executed (snd r) =
    ([CMD_DEVICE_STATUS; CMD_TABLE_PROBE; CMD_RADIO_ON; cmd_ap_probe "wlan0";
      cmd_create "wlan0" "thronetools" "abcdefgh"] ++ firewall_cmds "wlan0")%list.
Proof.
  assert (Hne : "wlan0" <> EmptyString) by discriminate.
  assert (Hrc : fst (ap_probe_result laptop_probe_fails false None "wlan0") <> 0%Z)
    by discriminate.
  assert (Hl : (8 <= Py.len "abcdefgh")%nat) by (vm_compute; lia).
  pose proof (ap_probe_decides laptop_probe_fails (Some false) None None [] [] false "wlan0"
                eq_refl eq_refl eq_refl eq_refl Hne eq_refl) as H.
  destruct H as [Hiff Hrun].
  cbv zeta. split; [reflexivity|]. split; [reflexivity|]. split.
  - intros Hin. exact (Hrc (proj1 (proj1 (Hiff (Some "abcdefgh")) Hin))).
  - pose proof (Hrun Hrc "abcdefgh" Hl (fun _ => eq_refl)) as H.
    cbv zeta in H. destruct H as [H1 [H2 _]]. split; [exact H1 | exact H2].
Defined.

(** ** Dry run against real run *)

Lemma password_loop_spec (fuel : nat) (st : state) :
  (List.length (stdin st) < fuel)%nat ->
  password_loop fuel st =
  let '(o, printed, remaining) := read_password_lines (stdin st) in
  (o, {| executed := executed st; output := (output st ++ printed)%list;
         stdin := remaining |}).
Proof.
  revert st. induction fuel as [|n IH]; intros [e o i] Hf; [inversion Hf|].
  cbn [stdin executed output] in *. cbn [password_loop]. unfold bind at 1, getpass.
  cbn [stdin executed output].
  destruct i as [|l rest]; cbn [read_password_lines].
  - rewrite app_nil_r. reflexivity.
  - destruct (8 <=? Py.len l)%nat.
    + unfold ret. rewrite app_nil_r. reflexivity.
    + rewrite bind_echo. rewrite IH by (cbn in *; lia). cbn [stdin executed output].
      destruct (read_password_lines rest) as [[o' printed] remaining].
      rewrite <- app_assoc. reflexivity.
Qed.

Lemma bind_obtain_password {B} (password : option string) (k : string -> M B) (st : state) :
  bind (obtain_password password) k st =
  let '(o, printed, remaining) := read_password password (stdin st) in
  let st' := {| executed := executed st; output := (output st ++ printed)%list;
                stdin := remaining |} in
  match o with
  | Ret pw => k pw st'
  | SysExit c => (SysExit c, st')
  | Raise e => (Raise e, st')
  end.
Proof.
  unfold bind, obtain_password, read_password.
  destruct password as [[|c t]|]; cbn [Py.truthy negb Py.or_else].
  2:{ unfold ret. rewrite app_nil_r. destruct st; reflexivity. }
  all: rewrite password_loop_spec by lia;
    destruct (read_password_lines (stdin st)) as [[[pw|c|e] printed] remaining]; reflexivity.
Qed.

Ltac settle_pw :=
  repeat first [ progress settle | rewrite bind_obtain_password; norm ].

Ltac run_both :=
  do 2
    lazymatch goal with
    | |- context [enable_hotspot_linux ?os ?dr ?i ?s ?p ?st] =>
        let E := fresh "E" in
        eassert (E : enable_hotspot_linux os dr i s p st = _);
        [ enable_any I; settle_pw; unfold echo, ret, sys_exit; norm; reflexivity
        | rewrite E; clear E; norm ]
    end.

Lemma is_query_iface_query (iface : option string) : is_query (iface_query iface) = true.
Proof. unfold iface_query. destruct (Py.truthy iface); reflexivity. Qed.

(** Each command of an explicit list is a query, or is printed. *)
Ltac each_emitted :=
  let c := fresh "c" in
  let Hin := fresh "Hin" in
  let Hq := fresh "Hq" in
  intros c Hin Hq; cbn [In] in Hin;
  repeat
    (destruct Hin as [Hin|Hin];
     [ subst c;
       first
         [ rewrite is_query_iface_query in Hq; discriminate Hq
         | cbn in Hq; discriminate Hq
         | try lazymatch goal with
               | |- In (if ?b then _ else _) _ =>
                   let v := eval cbn in b in change b with v; cbv iota
               end;
           find_in ]
     | ]);
  destruct Hin.

Lemma dry_vs_real (os : OS) (iface ssid password : option string) (inp : list string) :
  ap_probe_result os true iface (resolved os iface)
  = ap_probe_result os false iface (resolved os iface) ->
  let d := enable_hotspot_linux os (Some true) iface ssid password (init inp) in
  let r := enable_hotspot_linux os (Some false) iface ssid password (init inp) in
  (fst d = fst r \/
   (fst d = Ret tt /\ fst r = SysExit 1 /\ In CREATION_FAILED (output (snd r)))) /\
  (forall c, In c (executed (snd r)) -> is_query c = false ->
             In (if is_creation c
                 then masked_creation_line (resolved os iface) (Py.or_else ssid LINUX_SSID)
                 else dry_line c)
                (output (snd d))).
Proof.
  intros Hsame. cbv zeta.
  branch_tools os; [ | run_both; split; [left; reflexivity | each_emitted] ..].
  destruct (resolved os iface) as [|ch t] eqn:Hr.
  { destruct (Py.truthy iface) eqn:Hi; run_both; (split; [left; reflexivity | each_emitted]). }
  destruct (table_present os iface) eqn:Hp; unfold table_present in Hp;
    [|run_both; split; [left; reflexivity | each_emitted]].
  destruct (ap_active os true iface (String ch t)) eqn:Ha.
  all: assert (Ha' := Ha); unfold ap_active in Ha'; rewrite Hsame in Ha';
    unfold ap_active, ap_probe_result, before_ap_probe, cmd_ap_probe, CMD_TABLE_PROBE,
      CMD_RADIO_ON in Ha, Ha';
    cbn [app] in Ha, Ha'.
  { run_both; split; [left; reflexivity | each_emitted]. }
  destruct (read_password password inp) as [[[pw|code|e] printed] remaining] eqn:Hpw;
    [ | run_both; split; [left; reflexivity | each_emitted] ..].
  destruct (Py.len pw <? 8)%nat eqn:Hl;
    [run_both; split; [left; reflexivity | each_emitted] | ].
  destruct (creation_code os iface (String ch t) (Py.or_else ssid LINUX_SSID) pw =? 0)%Z eqn:Hc;
    unfold creation_code, before_ap_probe, cmd_ap_probe, cmd_create, CMD_TABLE_PROBE,
      CMD_RADIO_ON in Hc;
    cbn [app] in Hc.
  - run_both. split; [left; reflexivity | each_emitted].
  - run_both. split; [right; repeat split; find_in | each_emitted].
Qed.

Lemma dry_enable_only_queries (os : OS) (iface ssid password : option string)
    (inp : list string) :
  Forall (fun c => is_query c = true)
    (executed (snd (enable_hotspot_linux os (Some true) iface ssid password (init inp)))).
Proof.
  assert (W : preserves (cmd_all (fun c => is_query c = true))
                (enable_hotspot_linux os (Some true) iface ssid password)).
  { unfold enable_hotspot_linux, ensure_linux_command.
    change (ask_dry_run (Some true)) with (@ret bool true).
    walk fail cmd_leaf. }
  apply (W (init inp)). constructor.
Qed.

Lemma disable_run (os : OS) (dr : option bool) (inp rest : list string) (dry : bool) :
  dry_run_choice dr inp = Some (dry, rest) ->
  let r := disable_hotspot_linux os dr (init inp) in
  fst r = Ret tt /\
  executed (snd r) = (if dry then [] else disable_cmds) /\
  (dry = true -> Forall (fun c => In (dry_line c) (output (snd r))) disable_cmds).
Proof.
  intros Hd. cbv zeta.
  destruct dry;
    run_disable ltac:(
      unfold disable_hotspot_linux; msteps;
      erewrite bind_ask_dry_run by exact Hd);
    (split; [reflexivity|]); (split; [reflexivity|]); [intros _ | discriminate].
  unfold disable_cmds. repeat (constructor; [find_in|]). constructor.
Qed.

(** ** Dry run against real run on macOS *)

Lemma cmd_detect_macos_wifi_iface (Q : Cmd -> Prop) (os : OS) :
  Q CMD_HARDWARE_PORTS -> preserves (cmd_all Q) (detect_macos_wifi_iface os).
Proof.
  intros H. unfold detect_macos_wifi_iface.
  apply preserves_bind; [apply cmd_run_capture; exact H | intros res].
  apply preserves_if; apply preserves_ret.
Qed.

Lemma dry_enable_macos_only_queries (os : OS) (iface ssid password : option string)
    (inp : list string) :
  Forall (fun c => is_query c = true)
    (executed (snd (enable_hotspot_macos os (Some true) iface ssid password (init inp)))).
Proof.
  assert (W : preserves (cmd_all (fun c => is_query c = true))
                (enable_hotspot_macos os (Some true) iface ssid password)).
  { unfold enable_hotspot_macos.
    change (ask_dry_run (Some true)) with (@ret bool true).
    walk fail ltac:(first [ cmd_leaf | apply cmd_detect_macos_wifi_iface; reflexivity ]). }
  apply (W (init inp)). constructor.
Qed.

Lemma bind_macos_iface {B} (os : OS) (iface : option string) (k : string -> M B) (st : state) :
  executed st = [] ->
  bind (if negb (Py.truthy iface) then detect_macos_wifi_iface os
        else ret (Py.or_else iface EmptyString)) k st =
  k (macos_iface os iface)
    {| executed := macos_detection iface; output := output st; stdin := stdin st |}.
Proof.
  intros He. unfold macos_iface, macos_detection.
  destruct (Py.truthy iface); cbn [negb].
  - rewrite bind_ret. destruct st; cbn in He; subst; reflexivity.
  - unfold detect_macos_wifi_iface, bind, run_capture, run, init, CMD_HARDWARE_PORTS.
    cbn [executed output stdin andb]. rewrite He. cbn [app].
    destruct (failed _); reflexivity.
Qed.

Ltac settle_macos :=
  repeat first [ progress settle
               | rewrite bind_obtain_password; norm
               | rewrite bind_macos_iface by reflexivity; norm ].

Ltac run_both_macos :=
  do 2
    lazymatch goal with
    | |- context [enable_hotspot_macos ?os ?dr ?i ?s ?p ?st] =>
        let E := fresh "E" in
        eassert (E : enable_hotspot_macos os dr i s p st = _);
        [ unfold enable_hotspot_macos; cbv zeta; msteps;
          settle_macos; unfold echo, ret, sys_exit; norm; reflexivity
        | rewrite E; clear E; norm ]
    end.

Ltac macos_emitted :=
  unfold macos_detection; destruct (Py.truthy _); cbn [app]; each_emitted.

Lemma dry_vs_real_macos (os : OS) (iface ssid password : option string) (inp : list string) :
  let d := enable_hotspot_macos os (Some true) iface ssid password (init inp) in
  let r := enable_hotspot_macos os (Some false) iface ssid password (init inp) in
  fst d = fst r /\
  (forall c, In c (executed (snd r)) -> is_query c = false -> In (dry_line c) (output (snd d))).
Proof.
  cbv zeta.
  destruct (os_which os "networksetup") eqn:Hw;
    [|run_both_macos; split; [reflexivity | each_emitted]].
  destruct (os_path_exists os airport_tool) eqn:Hair;
    [|run_both_macos; split; [reflexivity | each_emitted]].
  destruct (macos_iface os iface) as [|ch t] eqn:Hi;
    [run_both_macos; split; [reflexivity | macos_emitted]|].
  destruct (read_password password inp) as [[[pw|code|e] printed] remaining] eqn:Hpw;
    [ | run_both_macos; split; [reflexivity | macos_emitted] ..].
  destruct (Py.len pw <? 8)%nat eqn:Hl;
    [run_both_macos; split; [reflexivity | macos_emitted] | ].
  destruct (os_path_exists os sharing_plist) eqn:Hplist;
    destruct (fst (os_run os
                     (macos_detection iface ++
                      [Argv ["networksetup"; "-setairportpower"; String ch t; "on"]])%list
                     (Argv [airport_tool; "--create"; Py.or_else ssid LINUX_SSID; pw]))
              =? 0)%Z eqn:Hc;
    run_both_macos; (split; [reflexivity | macos_emitted]).
Qed.

Lemma disable_macos_run (os : OS) (inp : list string) :
  let d := disable_hotspot_macos os (Some true) (init inp) in
  let r := disable_hotspot_macos os (Some false) (init inp) in
  executed (snd d) = [] /\ fst d = fst r /\
  (forall c, In c (executed (snd r)) -> In (dry_line c) (output (snd d))).
Proof.
  cbv zeta. unfold disable_hotspot_macos.
  destruct (os_path_exists os sharing_plist) eqn:Hplist.
  all: do 2
         lazymatch goal with
         | |- context [bind ?m ?k (init ?i)] =>
             let E := fresh "E" in
             eassert (E : bind m k (init i) = _);
             [ msteps; settle;
               unfold echo, ret, sys_exit; norm; reflexivity
             | rewrite E; clear E; norm ]
         end.
  all: split; [reflexivity|]; split; [reflexivity|].
  all: intros c Hc; cbn [In] in Hc.
  - destruct Hc as [<-|[]]. find_in.
  - destruct Hc.
Qed.

(** C4, as the program has it.  In dry-run mode [run_cmd] executes
    nothing, prints the command and returns a result with exit code 0.  A
    dry run of an enable operation executes read-only queries only, and a
    dry run of a disable operation executes nothing and prints the commands
    of the real run (three on Linux; on macOS the one that unloads Internet
    Sharing, where there is one).  Disable ends alike in both modes (on
    Linux, where the commands of the real run can be started), and so does
    enable on macOS.  For enable on Linux, when the AP-mode probe answers
    the same in both modes, the dry run ends as the real run does, except
    that a real run can fail where its creation command fails, which the
    dry run assumes to succeed.  Every command that a real run executes
    other than a query is printed by the dry run, the Linux creation
    command in its masked form. *)
Theorem dry_run_property (os : OS) :
  (forall cmd check st,
      run_cmd os cmd true check st =
      (Ret {| args := cmd; returncode := 0%Z; stdout := None |},
       {| executed := executed st; output := (output st ++ [dry_line cmd])%list;
          stdin := stdin st |})) /\
  (forall dr iface ssid password inp rest,
      dry_run_choice dr inp = Some (true, rest) ->
      Forall (fun c => is_query c = true)
        (executed (snd (enable_hotspot_linux os dr iface ssid password (init inp))))) /\
  (forall dr inp rest,
      dry_run_choice dr inp = Some (true, rest) ->
      let d := disable_hotspot_linux os dr (init inp) in
      fst d = Ret tt /\ executed (snd d) = [] /\
      Forall (fun c => In (dry_line c) (output (snd d))) disable_cmds) /\
  (forall inp,
      Forall (fun c => spawnable os c = true) disable_cmds ->
      fst (disable_hotspot_linux os (Some true) (init inp))
      = fst (disable_hotspot_linux os (Some false) (init inp))) /\
  (forall iface ssid password inp,
      ap_probe_result os true iface (resolved os iface)
      = ap_probe_result os false iface (resolved os iface) ->
      let d := enable_hotspot_linux os (Some true) iface ssid password (init inp) in
      let r := enable_hotspot_linux os (Some false) iface ssid password (init inp) in
      (fst d = fst r \/
       (fst d = Ret tt /\ fst r = SysExit 1 /\ In CREATION_FAILED (output (snd r)))) /\
      (forall c, In c (executed (snd r)) -> is_query c = false ->
                 In (if is_creation c
                     then masked_creation_line (resolved os iface) (Py.or_else ssid LINUX_SSID)
                     else dry_line c)
                    (output (snd d)))) /\
  (forall iface ssid password inp,
      let d := enable_hotspot_macos os (Some true) iface ssid password (init inp) in
      let r := enable_hotspot_macos os (Some false) iface ssid password (init inp) in
      Forall (fun c => is_query c = true) (executed (snd d)) /\
      fst d = fst r /\
      (forall c, In c (executed (snd r)) -> is_query c = false ->
                 In (dry_line c) (output (snd d)))) /\
  (forall inp,
      let d := disable_hotspot_macos os (Some true) (init inp) in
      let r := disable_hotspot_macos os (Some false) (init inp) in
      executed (snd d) = [] /\ fst d = fst r /\
      (forall c, In c (executed (snd r)) -> In (dry_line c) (output (snd d)))).
Proof.
  split; [|split; [|split; [|split; [|split; [|split]]]]].
  - intros cmd check st. destruct cmd; reflexivity.
  - intros dr iface ssid password inp rest Hd. destruct dr as [b|].
    + apply choice_given in Hd as [-> _]. apply dry_enable_only_queries.
    + destruct inp as [|l inp']; [discriminate|]. cbn in Hd. injection Hd as Ha _.
      destruct (asked_without_setting_enable os iface ssid password l inp') as [_ [_ [He _]]].
      rewrite He, Ha. apply dry_enable_only_queries.
  - intros dr inp rest Hd. cbv zeta.
    destruct (disable_run os dr inp rest true Hd) as [H1 [H2 H3]].
    split; [exact H1|]. split; [exact H2 | exact (H3 eq_refl)].
  - intros inp _.
    destruct (disable_run os (Some true) inp inp true eq_refl) as [H1 _].
    destruct (disable_run os (Some false) inp inp false eq_refl) as [H2 _].
    cbv zeta in H1, H2. rewrite H1, H2. reflexivity.
  - intros iface ssid password inp. apply dry_vs_real.
  - intros iface ssid password inp. cbv zeta.
    split; [apply dry_enable_macos_only_queries | apply dry_vs_real_macos].
  - intros inp. apply disable_macos_run.
Qed.

Lemma dry_run_property_witness :
  let d := enable_hotspot_linux laptop (Some true) None None (Some "abcdefgh") (init []) in
  let r := enable_hotspot_linux laptop (Some false) None None (Some "abcdefgh") (init []) in
  Forall (fun c => is_query c = true) (executed (snd d)) /\
  (fst d = fst r \/
   (fst d = Ret tt /\ fst r = SysExit 1 /\ In CREATION_FAILED (output (snd r)))) /\
  fst (disable_hotspot_linux laptop (Some true) (init []))
  = fst (disable_hotspot_linux laptop (Some false) (init [])).
Proof.
  assert (Hs : Forall (fun c => spawnable laptop c = true) disable_cmds)
    by (repeat constructor).
  destruct (dry_run_property laptop) as [_ [H2 [_ [H4 [H5 _]]]]].
  split; [|split].
  - exact (H2 (Some true) None None (Some "abcdefgh") [] [] eq_refl).
  - exact (proj1 (H5 None None (Some "abcdefgh") [] eq_refl)).
  - exact (H4 [] Hs).
Defined.

(** C4 as written fails: on a machine whose card cannot be an access
    point the queries answer alike in both modes, yet the dry run returns
    normally where the real run ends with exit code 1. *)
Lemma dry_run_hides_creation_failure :
  let d := enable_hotspot_linux laptop_no_ap_mode (Some true) None None (Some "abcdefgh")
             (init []) in
  let r := enable_hotspot_linux laptop_no_ap_mode (Some false) None None (Some "abcdefgh")
             (init []) in
  (forall h1 h2 c, is_query c = true ->
     os_run laptop_no_ap_mode h1 c = os_run laptop_no_ap_mode h2 c) /\
  fst d = Ret tt /\
  fst r = SysExit 1.
Proof.
  cbv zeta. split; [|split; reflexivity].
  intros h1 h2 c _. reflexivity.
Qed.

(** * Further properties of the program

    Properties read off the code beside those of its specification: how
    the hotspot operations fail, what the macOS variants do, and the
    package operations that share the command runner. *)

(** ** The password prompt *)

Lemma read_password_lines_rejects (rejected : list string) (lines : list string) :
  Forall (fun l => (Py.len l < 8)%nat) rejected ->
  read_password_lines (rejected ++ lines) =
  let '(o, printed, remaining) := read_password_lines lines in
  (o, (repeat PASSWORD_TOO_SHORT (List.length rejected) ++ printed)%list, remaining).
Proof.
  induction 1 as [|l rejected Hl _ IH]; cbn [app read_password_lines List.length repeat].
  - destruct (read_password_lines lines) as [[o printed] remaining]. reflexivity.
  - apply Nat.leb_gt in Hl. rewrite Hl, IH.
    destruct (read_password_lines lines) as [[o printed] remaining]. reflexivity.
Qed.

Lemma obtain_password_run (password : option string) (st : state) :
  obtain_password password st =
  let '(o, printed, remaining) := read_password password (stdin st) in
  (o, {| executed := executed st; output := (output st ++ printed)%list; stdin := remaining |}).
Proof.
  pose proof (bind_obtain_password password (@ret string) st) as H.
  unfold bind in H. unfold bind.
  destruct (obtain_password password st) as [[pw|c|e] st'];
    destruct (read_password password (stdin st)) as [[[pw'|c'|e'] printed] remaining];
    cbn in H; exact H.
Qed.

(** The password prompt of the enable operations: with no password given
    (or an empty one), every line of fewer than eight characters is
    rejected with one message, the first line of at least eight characters
    is the password, and the lines after it stay unread; when the input
    ends before such a line comes, [EOFError] is raised. *)
Theorem password_prompt_loop (password : option string) (rejected rest : list string)
    (pw : string) (cmds : list Cmd) (out : list string) :
  Py.truthy password = false ->
  Forall (fun l => (Py.len l < 8)%nat) rejected ->
  (8 <= Py.len pw)%nat ->
  obtain_password password
    {| executed := cmds; output := out; stdin := (rejected ++ pw :: rest)%list |}
  = (Ret pw,
     {| executed := cmds;
        output := (out ++ repeat PASSWORD_TOO_SHORT (List.length rejected))%list;
        stdin := rest |})
  /\
  obtain_password password {| executed := cmds; output := out; stdin := rejected |}
  = (Raise EOFError,
     {| executed := cmds;
        output := (out ++ repeat PASSWORD_TOO_SHORT (List.length rejected))%list;
        stdin := [] |}).
Proof.
  intros Hp Hr Hl.
  assert (Hread : forall lines, read_password password lines = read_password_lines lines).
  { intros lines. unfold read_password. destruct password as [[|c t]|]; try reflexivity.
    discriminate Hp. }
  apply Nat.leb_le in Hl. split.
  - rewrite obtain_password_run. cbn [stdin executed output]. rewrite Hread.
    rewrite (read_password_lines_rejects rejected (pw :: rest) Hr).
    cbn [read_password_lines]. rewrite Hl. rewrite app_nil_r. reflexivity.
  - rewrite obtain_password_run. cbn [stdin executed output]. rewrite Hread.
    rewrite <- (app_nil_r rejected) at 1.
    rewrite (read_password_lines_rejects rejected [] Hr).
    cbn [read_password_lines]. rewrite app_nil_r. reflexivity.
Qed.

Lemma password_prompt_loop_witness :
  obtain_password None
    {| executed := []; output := []; stdin := ["short"; "1234567"; "longenough"; "next"] |}
  = (Ret "longenough",
     {| executed := []; output := [PASSWORD_TOO_SHORT; PASSWORD_TOO_SHORT];
        stdin := ["next"] |}).
Proof.
  assert (Hr : Forall (fun l => (Py.len l < 8)%nat) ["short"; "1234567"])
    by (repeat constructor; vm_compute; lia).
  assert (Hl : (8 <= Py.len "longenough")%nat) by (vm_compute; lia).
  exact (proj1 (password_prompt_loop None ["short"; "1234567"] ["next"] "longenough" [] []
                  eq_refl Hr Hl)).
Defined.

(** ** Failures of the enable operation on Linux *)

(** A missing tool ends the Linux enable operation at once: for the first
    of [nmcli], [iw] and [nft] that [which] does not find, the message
    naming it and the installation hint are printed, the exit code is 1,
    and no command at all has been executed. *)
Theorem missing_tool_aborts (os : OS) (dr : option bool) (iface ssid password : option string)
    (inp rest : list string) (dry : bool) (tool hint : string) :
  dry_run_choice dr inp = Some (dry, rest) ->
  first_missing_tool os = Some (tool, hint) ->
  let r := enable_hotspot_linux os dr iface ssid password (init inp) in
  fst r = SysExit 1 /\
  executed (snd r) = [] /\
  In (TOOL_MISSING tool) (output (snd r)) /\
  In hint (output (snd r)) /\
  stdin (snd r) = rest.
Proof.
  intros Hd Hm. cbv zeta. unfold first_missing_tool in Hm.
  branch_tools os; cbn [negb] in Hm; [discriminate Hm | ..];
    injection Hm as <- <-;
    destruct dry; run_any Hd; (repeat split; try reflexivity); find_in.
Qed.

Lemma missing_tool_aborts_witness :
  let r := enable_hotspot_linux laptop_no_iw (Some false) None None None (init []) in
  fst r = SysExit 1 /\
  executed (snd r) = [] /\
  In (TOOL_MISSING "iw") (output (snd r)) /\
  In iw_hint (output (snd r)) /\
  stdin (snd r) = [].
Proof.
  cbv zeta.
  exact (missing_tool_aborts laptop_no_iw (Some false) None None None [] [] false "iw" iw_hint
           eq_refl eq_refl).
Defined.

(** A failing creation command is fatal on Linux: in a real run that has
    reached the creation of the hotspot, a non-zero exit code of
    [nmcli dev wifi hotspot] ends the operation with exit code 1 and the
    failure message, and no firewall command is executed.
    Where the dry-run question is asked, the answer typed is taken to be
    ASCII text. *)
Theorem creation_failure_is_fatal (os : OS) (dr : option bool) (iface ssid : option string)
    (pw : string) (inp rest : list string) (hs : string) :
  dry_run_choice dr inp = Some (false, rest) ->
  ascii_answer dr inp = true ->
  tools_present os = true ->
  resolved os iface = hs -> hs <> EmptyString ->
  table_probe_code os iface = 0%Z ->
  ap_active os false iface hs = false ->
  (8 <= Py.len pw)%nat ->
  creation_code os iface hs (Py.or_else ssid LINUX_SSID) pw <> 0%Z ->
  let r := enable_hotspot_linux os dr iface ssid (Some pw) (init inp) in
  fst r = SysExit 1 /\
  executed (snd r) =
    [iface_query iface; CMD_TABLE_PROBE; CMD_RADIO_ON; cmd_ap_probe hs;
     cmd_create hs (Py.or_else ssid LINUX_SSID) pw] /\
  forallb (fun c => negb (is_firewall c)) (executed (snd r)) = true /\
  In CREATION_FAILED (output (snd r)).
Proof.
  intros Hd _ Ht Hr Hhs Hp Ha Hl Hc. cbv zeta.
  unfold table_probe_code, CMD_TABLE_PROBE in Hp.
  unfold ap_active, ap_probe_result, before_ap_probe, cmd_ap_probe, CMD_TABLE_PROBE,
    CMD_RADIO_ON in Ha.
  unfold creation_code, before_ap_probe, cmd_ap_probe, CMD_TABLE_PROBE, CMD_RADIO_ON,
    cmd_create in Hc.
  cbn [app] in Ha, Hc. apply Z.eqb_neq in Hc.
  assert (Hlt : (Py.len pw <? 8)%nat = false) by (apply Nat.ltb_ge; exact Hl).
  assert (Hq : is_firewall (iface_query iface) = false)
    by (unfold iface_query; destruct (Py.truthy iface); reflexivity).
  run_enable ltac:(
    enable_open Ht Hd; msteps; rewrite Hr, (truthy_nonempty hs Hhs); msteps;
    rewrite Hp; msteps; rewrite ap_test, Ha; msteps;
    rewrite (obtain_password_supplied pw (long_nonempty pw Hl)); msteps; rewrite Hlt;
    msteps; rewrite failed_rc, Hc).
  split; [reflexivity|]. split; [reflexivity|].
  split; [cbn [forallb]; rewrite Hq; reflexivity | find_in].
Qed.

Lemma creation_failure_is_fatal_witness :
  let r := enable_hotspot_linux laptop_no_ap_mode (Some false) None None (Some "abcdefgh")
             (init []) in
  fst r = SysExit 1 /\
  executed (snd r) =
    [CMD_DEVICE_STATUS; CMD_TABLE_PROBE; CMD_RADIO_ON; cmd_ap_probe "wlan0";
     cmd_create "wlan0" "thronetools" "abcdefgh"] /\
  forallb (fun c => negb (is_firewall c)) (executed (snd r)) = true /\
  In CREATION_FAILED (output (snd r)).
Proof.
  assert (Hne : "wlan0" <> EmptyString) by discriminate.
  assert (Hc : creation_code laptop_no_ap_mode None "wlan0" "thronetools" "abcdefgh" <> 0%Z)
    by discriminate.
  assert (Hl : (8 <= Py.len "abcdefgh")%nat) by (vm_compute; lia).
  exact (creation_failure_is_fatal laptop_no_ap_mode (Some false) None None "abcdefgh" [] []
           "wlan0" eq_refl eq_refl eq_refl eq_refl Hne eq_refl eq_refl Hl Hc).
Defined.

(** ** The hotspot operations on macOS *)

Ltac open_macos Hd :=
  unfold enable_hotspot_macos; cbv zeta; msteps;
  try (erewrite bind_ask_dry_run by (first [ exact Hd | reflexivity ]); norm).

Ltac run_macos Hd :=
  lazymatch goal with
  | |- context [enable_hotspot_macos ?os ?dr ?i ?s ?p ?st] =>
      let E := fresh "E" in
      eassert (E : enable_hotspot_macos os dr i s p st = _);
      [ open_macos Hd; settle_macos; unfold echo, ret, sys_exit; norm; reflexivity
      | rewrite E; clear E; norm ]
  end.

(** On macOS the enable operation needs [networksetup] and the
    [airport] helper: when one of them is missing it prints the message for
    the first one missing, exits with code 1 and executes no command. *)
Theorem macos_missing_tools_abort (os : OS) (dr : option bool) (iface ssid password : option string)
    (inp rest : list string) (dry : bool) :
  dry_run_choice dr inp = Some (dry, rest) ->
  macos_tools_present os = false ->
  let r := enable_hotspot_macos os dr iface ssid password (init inp) in
  fst r = SysExit 1 /\
  executed (snd r) = [] /\
  In (if os_which os "networksetup" then MACOS_NO_AIRPORT else MACOS_NO_NETWORKSETUP)
     (output (snd r)).
Proof.
  intros Hd Ht. cbv zeta. unfold macos_tools_present in Ht.
  destruct (os_which os "networksetup") eqn:Hw;
    [ destruct (os_path_exists os airport_tool) eqn:Hair; [discriminate Ht|] | ];
    destruct dry; run_macos Hd; (repeat split; try reflexivity); find_in.
Qed.

Lemma macos_missing_tools_abort_witness :
  let r := enable_hotspot_macos mac_no_airport (Some false) None None None (init []) in
  fst r = SysExit 1 /\
  executed (snd r) = [] /\
  In MACOS_NO_AIRPORT (output (snd r)).
Proof.
  cbv zeta.
  exact (macos_missing_tools_abort mac_no_airport (Some false) None None None [] [] false
           eq_refl eq_refl).
Defined.

(** On macOS a password given on the command line that is shorter than
    eight characters ends the enable operation with exit code 1, the
    message about the length being the last line printed.  Nothing has been
    changed by then: the only command that can have run is the listing of
    the hardware ports, and no further input is read.
    Where the dry-run question is asked, the answer typed is taken to be
    ASCII text. *)
Theorem macos_short_password_rejected (os : OS) (dr : option bool) (iface ssid : option string)
    (pw : string) (inp rest : list string) (dry : bool) :
  dry_run_choice dr inp = Some (dry, rest) ->
  ascii_answer dr inp = true ->
  macos_tools_present os = true ->
  macos_iface os iface <> EmptyString ->
  pw <> EmptyString ->
  (Py.len pw < 8)%nat ->
  let r := enable_hotspot_macos os dr iface ssid (Some pw) (init inp) in
  fst r = SysExit 1 /\
  executed (snd r) = macos_detection iface /\
  last (output (snd r)) EmptyString = PASSWORD_TOO_SHORT /\
  stdin (snd r) = rest.
Proof.
  intros Hd _ Ht Hi Hne Hl. cbv zeta. unfold macos_tools_present in Ht.
  apply andb_true_iff in Ht as [Hw Hair].
  destruct (macos_iface os iface) as [|ch t] eqn:Hhs; [congruence|].
  assert (Hlt : (Py.len pw <? 8)%nat = true) by (apply Nat.ltb_lt; exact Hl).
  assert (Hrp : read_password (Some pw) rest = (Ret pw, [], rest))
    by (destruct pw; [congruence | reflexivity]).
  destruct dry; run_macos Hd;
    (split; [reflexivity|]); (split; [reflexivity|]); (split; [|reflexivity]);
    rewrite !app_comm_cons; apply last_last.
Qed.

Lemma macos_short_password_rejected_witness :
  let r := enable_hotspot_macos mac (Some false) None None (Some "secret") (init []) in
  fst r = SysExit 1 /\
  executed (snd r) = [CMD_HARDWARE_PORTS] /\
  last (output (snd r)) EmptyString = PASSWORD_TOO_SHORT /\
  stdin (snd r) = [].
Proof.
  assert (Hi : macos_iface mac None <> EmptyString) by discriminate.
  assert (Hne : "secret" <> EmptyString) by discriminate.
  assert (Hl : (Py.len "secret" < 8)%nat) by (vm_compute; lia).
  exact (macos_short_password_rejected mac (Some false) None None "secret" [] [] false
           eq_refl eq_refl eq_refl Hi Hne Hl).
Defined.

Ltac not_among :=
  intros Hin; exfalso;
  repeat match goal with
         | H : In _ (_ ++ _)%list |- _ => apply in_app_or in H; destruct H as [H|H]
         | H : In _ (_ :: _) |- _ => destruct H as [H|H]
         | H : In _ [] |- _ => destruct H
         | H : In _ (asked ?dr) |- _ => destruct dr as [?|]; cbn [asked] in H
         | H : _ = ?x |- False => revert H; differ
         end.

(** Enabling the hotspot on macOS is best effort.  Once the tools, the
    interface and the password are there, a real run returns normally
    whatever the exit codes of its commands: it switches Wi-Fi on, runs the
    creation command and, on a machine that has the property list of
    Internet Sharing, loads that service.  A failing creation command only
    adds a warning, printed exactly when the command fails.
    Where the dry-run question is asked, the answer typed is taken to be
    ASCII text. *)
Theorem macos_enable_best_effort (os : OS) (dr : option bool) (iface ssid : option string)
    (pw : string) (inp rest : list string) :
  dry_run_choice dr inp = Some (false, rest) ->
  ascii_answer dr inp = true ->
  macos_tools_present os = true ->
  macos_iface os iface <> EmptyString ->
  (8 <= Py.len pw)%nat ->
  let hs := macos_iface os iface in
  let name := Py.or_else ssid LINUX_SSID in
  let r := enable_hotspot_macos os dr iface ssid (Some pw) (init inp) in
  fst r = Ret tt /\
  executed (snd r) =
    (macos_detection iface ++ [cmd_macos_power hs; cmd_macos_create name pw]
     ++ macos_sharing os)%list /\
  (In MACOS_CREATE_WARNING (output (snd r)) <-> macos_creation_code os iface hs name pw <> 0%Z).
Proof.
  intros Hd _ Ht Hi Hl. cbv zeta. unfold macos_tools_present in Ht.
  apply andb_true_iff in Ht as [Hw Hair].
  unfold macos_creation_code, macos_sharing, cmd_macos_power, cmd_macos_create.
  destruct (macos_iface os iface) as [|ch t] eqn:Hhs; [congruence|].
  assert (Hlt : (Py.len pw <? 8)%nat = false) by (apply Nat.ltb_ge; exact Hl).
  assert (Hrp : read_password (Some pw) rest = (Ret pw, [], rest))
    by (destruct pw; [cbn in Hl; lia | reflexivity]).
  destruct (os_path_exists os sharing_plist) eqn:Hplist;
    destruct (fst (os_run os
                     (macos_detection iface ++
                      [Argv ["networksetup"; "-setairportpower"; String ch t; "on"]])%list
                     (Argv [airport_tool; "--create"; Py.or_else ssid LINUX_SSID; pw]))
              =? 0)%Z eqn:Hc;
    run_macos Hd.
  all: split; [reflexivity|].
  all: split; [rewrite <- ?app_assoc; reflexivity|].
  all: first [ apply Z.eqb_eq in Hc | apply Z.eqb_neq in Hc ].
  all: split;
    first [ intros _; exact Hc
          | intros Hn; exfalso; exact (Hn Hc)
          | intros _; find_in
          | unfold MACOS_CREATE_WARNING; not_among ].
Qed.

Lemma macos_enable_best_effort_witness :
  let r := enable_hotspot_macos mac (Some false) None None (Some "abcdefgh") (init []) in
  fst r = Ret tt /\
  executed (snd r) =
    [CMD_HARDWARE_PORTS; cmd_macos_power "en0"; cmd_macos_create "thronetools" "abcdefgh";
     CMD_SHARING_LOAD] /\
  In MACOS_CREATE_WARNING (output (snd r)).
Proof.
  assert (Hi : macos_iface mac None <> EmptyString) by discriminate.
  assert (Hl : (8 <= Py.len "abcdefgh")%nat) by (vm_compute; lia).
  assert (Hc : macos_creation_code mac None (macos_iface mac None)
                 (Py.or_else None LINUX_SSID) "abcdefgh" <> 0%Z) by discriminate.
  pose proof (macos_enable_best_effort mac (Some false) None None "abcdefgh" [] []
                eq_refl eq_refl eq_refl Hi Hl) as H.
  cbv zeta in H. destruct H as [H1 [H2 H3]].
  split; [exact H1|]. split; [exact H2|]. exact (proj2 H3 Hc).
Defined.

(** A dry run on macOS prints the creation command as it would be run,
    the password in clear among its arguments. *)
Theorem macos_dry_run_shows_password (os : OS) (dr : option bool) (iface ssid : option string)
    (pw : string) (inp rest : list string) :
  dry_run_choice dr inp = Some (true, rest) ->
  macos_tools_present os = true ->
  macos_iface os iface <> EmptyString ->
  (8 <= Py.len pw)%nat ->
  let r := enable_hotspot_macos os dr iface ssid (Some pw) (init inp) in
  fst r = Ret tt /\
  executed (snd r) = macos_detection iface /\
  In (color ("→ " ++ airport_tool ++ " --create " ++ Py.or_else ssid LINUX_SSID ++ " " ++ pw)
        BLUE)
     (output (snd r)).
Proof.
  intros Hd Ht Hi Hl. cbv zeta. unfold macos_tools_present in Ht.
  apply andb_true_iff in Ht as [Hw Hair].
  destruct (macos_iface os iface) as [|ch t] eqn:Hhs; [congruence|].
  assert (Hlt : (Py.len pw <? 8)%nat = false) by (apply Nat.ltb_ge; exact Hl).
  assert (Hrp : read_password (Some pw) rest = (Ret pw, [], rest))
    by (destruct pw; [cbn in Hl; lia | reflexivity]).
  destruct (os_path_exists os sharing_plist) eqn:Hplist; run_macos Hd.
  all: split; [reflexivity|].
  all: split; [rewrite ?app_nil_r; reflexivity|].
  all: find_in.
Qed.

Lemma macos_dry_run_shows_password_witness :
  let r := enable_hotspot_macos mac (Some true) None None (Some "abcdefgh") (init []) in
  fst r = Ret tt /\
  executed (snd r) = [CMD_HARDWARE_PORTS] /\
  In (color ("→ " ++ airport_tool ++ " --create thronetools abcdefgh") BLUE)
     (output (snd r)).
Proof.
  assert (Hi : macos_iface mac None <> EmptyString) by discriminate.
  assert (Hl : (8 <= Py.len "abcdefgh")%nat) by (vm_compute; lia).
  exact (macos_dry_run_shows_password mac (Some true) None None "abcdefgh" [] []
           eq_refl eq_refl Hi Hl).
Defined.



(** ** The command line *)

(** With [--dry-run] on the command line, [throne-tool hotspot] changes
    nothing on any platform and for any sub-command: the only commands it
    executes are read-only queries. *)
Theorem main_dry_run_only_queries (os : OS) (sys_platform : string) (args : Namespace)
    (inp : list string) :
  ns_dry_run args = true ->
  Forall (fun c => is_query c = true)
    (executed (snd (main os sys_platform args (init inp)))).
Proof.
  intros Hdry. unfold main. rewrite Hdry.
  assert (Hhelp : forall st, executed st = [] ->
            Forall (fun c => is_query c = true) (executed (snd (echo hotspot_help st))))
    by (intros st He; cbn; rewrite He; constructor).
  destruct (Py.startswith sys_platform "linux").
  { destruct (hotspot_command args) as [cmd|]; [|apply Hhelp; reflexivity].
    destruct (String.eqb cmd "enable"); [apply dry_enable_only_queries|].
    destruct (String.eqb cmd "disable"); [|apply Hhelp; reflexivity].
    destruct (disable_run os (Some true) inp inp true eq_refl) as [_ [H _]].
    cbv zeta in H. rewrite H. constructor. }
  destruct (String.eqb sys_platform "darwin").
  { destruct (hotspot_command args) as [cmd|]; [|apply Hhelp; reflexivity].
    destruct (String.eqb cmd "enable"); [apply dry_enable_macos_only_queries|].
    destruct (String.eqb cmd "disable"); [|apply Hhelp; reflexivity].
    pose proof (disable_macos_run os inp) as H. cbv zeta in H. destruct H as [H _].
    rewrite H. constructor. }
  destruct (Py.startswith sys_platform "win"); cbn; constructor.
Qed.

Lemma main_dry_run_only_queries_witness :
  Forall (fun c => is_query c = true)
    (executed (snd (main laptop "linux"
                      {| hotspot_command := Some "enable"; ns_dry_run := true;
                         ns_iface := None; ns_ssid := None; ns_password := Some "abcdefgh" |}
                      (init [])))).
Proof.
  exact (main_dry_run_only_queries laptop "linux"
           {| hotspot_command := Some "enable"; ns_dry_run := true;
              ns_iface := None; ns_ssid := None; ns_password := Some "abcdefgh" |}
           [] eq_refl).
Defined.

(** On a platform that is neither Linux nor macOS the hotspot command
    does nothing: it prints one message, executes no command, reads no
    input and exits with code 1. *)
Theorem main_unsupported_platform (os : OS) (sys_platform : string) (args : Namespace)
    (st : state) :
  Py.startswith sys_platform "linux" = false ->
  sys_platform <> "darwin" ->
  let r := main os sys_platform args st in
  fst r = SysExit 1 /\
  executed (snd r) = executed st /\
  stdin (snd r) = stdin st /\
  output (snd r) =
    (output st ++ [if Py.startswith sys_platform "win" then UNSUPPORTED_HOTSPOT
                   else UNSUPPORTED_PLATFORM])%list.
Proof.
  intros Hl Hd. cbv zeta. unfold main. rewrite Hl.
  apply String.eqb_neq in Hd. rewrite Hd.
  destruct (Py.startswith sys_platform "win"); repeat split.
Qed.

Lemma main_unsupported_platform_witness :
  let r := main laptop "win32"
             {| hotspot_command := Some "enable"; ns_dry_run := false;
                ns_iface := None; ns_ssid := None; ns_password := None |} (init []) in
  fst r = SysExit 1 /\ executed (snd r) = [] /\ stdin (snd r) = [] /\
  output (snd r) = [UNSUPPORTED_HOTSPOT].
Proof.
  assert (Hd : "win32" <> "darwin") by discriminate.
  exact (main_unsupported_platform laptop "win32"
           {| hotspot_command := Some "enable"; ns_dry_run := false;
              ns_iface := None; ns_ssid := None; ns_password := None |} (init [])
           eq_refl Hd).
Defined.

(** ** Detection of the Wi-Fi interface on macOS *)

Lemma macos_device_line_sound (next_lines : list string) (d : string) :
  macos_device_line next_lines = Some d ->
  exists line, In line next_lines /\ device_of line = Some d.
Proof.
  induction next_lines as [|l ls IH]; cbn [macos_device_line]; [discriminate|].
  intros H. destruct (Py.startswith l "Device:") eqn:Hs.
  - exists l. split; [left; reflexivity|]. unfold device_of. rewrite Hs. exact H.
  - destruct (IH H) as [line [Hin Hd]]. exists line. split; [right; exact Hin | exact Hd].
Qed.

Lemma macos_scan_sound (lines : list string) :
  detect_macos_wifi_iface_scan lines <> EmptyString ->
  exists before port after device,
    lines = (before ++ port :: after)%list /\
    is_wifi_port port = true /\
    In device (firstn 2 after) /\
    device_of device = Some (detect_macos_wifi_iface_scan lines).
Proof.
  induction lines as [|l ls IH]; cbn [detect_macos_wifi_iface_scan]; [congruence|].
  assert (Next : detect_macos_wifi_iface_scan ls <> EmptyString ->
                 exists before port after device,
                   l :: ls = (before ++ port :: after)%list /\
                   is_wifi_port port = true /\
                   In device (firstn 2 after) /\
                   device_of device = Some (detect_macos_wifi_iface_scan ls)).
  { intros H. destruct (IH H) as [b [p [a [d [E [Hp [Hin Hd]]]]]]].
    exists (l :: b), p, a, d.
    split; [rewrite E; reflexivity|]. split; [exact Hp|]. split; [exact Hin | exact Hd]. }
  destruct (Py.startswith l "Hardware Port:") eqn:Hs; [|exact Next].
  destruct (Py.split_once ":" l) as [[x p]|] eqn:Hsp; [|exact Next].
  destruct (String.eqb (Py.lower (Py.strip p)) "wi-fi"
            || String.eqb (Py.lower (Py.strip p)) "airport") eqn:Hw; [|exact Next].
  destruct (macos_device_line (firstn 2 ls)) as [d|] eqn:Hd; [|exact Next].
  intros _. destruct (macos_device_line_sound _ _ Hd) as [line [Hin Hdev]].
  exists [], l, ls, line. split; [reflexivity|]. split; [|split; assumption].
  unfold is_wifi_port. rewrite Hs, Hsp, Hw. reflexivity.
Qed.

(** The interface that [detect_macos_wifi_iface] returns is read from the
    listing, never made up.  The function runs one query; it returns the
    empty string when the query fails, and a result that is not empty is
    the device named by a [Device:] line that is one of the two lines just
    after a [Hardware Port:] line for Wi-Fi or AirPort. *)
Theorem macos_detection_sound (os : OS) (st : state) :
  let r := detect_macos_wifi_iface os st in
  let reply := os_run os (executed st) CMD_HARDWARE_PORTS in
  exists iface,
    fst r = Ret iface /\
    executed (snd r) = (executed st ++ [CMD_HARDWARE_PORTS])%list /\
    output (snd r) = output st /\
    (fst reply <> 0%Z -> iface = EmptyString) /\
    (iface <> EmptyString ->
     exists before port after device,
       Py.splitlines (snd reply) = (before ++ port :: after)%list /\
       is_wifi_port port = true /\
       In device (firstn 2 after) /\
       device_of device = Some iface).
Proof.
  cbv zeta. unfold detect_macos_wifi_iface, bind, run_capture, run, failed, text, ret,
    CMD_HARDWARE_PORTS.
  cbn [andb fst snd returncode stdout executed output stdin].
  destruct (fst (os_run os (executed st) (Argv ["networksetup"; "-listallhardwareports"]))
            =? 0)%Z eqn:Hc; cbn [negb fst snd executed output].
  - eexists. split; [reflexivity|]. split; [reflexivity|]. split; [reflexivity|].
    split; [intros Hn; apply Z.eqb_eq in Hc; contradiction|].
    apply macos_scan_sound.
  - exists EmptyString. repeat split; try reflexivity. congruence.
Qed.

Lemma macos_scan_skips (l : string) (ls : list string) :
  is_wifi_port l = false ->
  detect_macos_wifi_iface_scan (l :: ls) = detect_macos_wifi_iface_scan ls.
Proof.
  unfold is_wifi_port. cbn [detect_macos_wifi_iface_scan]. intros H.
  destruct (Py.startswith l "Hardware Port:"); [|reflexivity].
  destruct (Py.split_once ":" l) as [[x p]|]; [|reflexivity].
  cbn [andb] in H. rewrite H. reflexivity.
Qed.

(** On a listing in the usual layout the detection finds the Wi-Fi
    device: when the query succeeds and the first line that names a Wi-Fi or
    AirPort port is followed at once by a [Device:] line, the function
    returns the device which that line names. *)
Theorem macos_detection_finds_wifi (os : OS) (st : state)
    (before after : list string) (port device iface : string) :
  fst (os_run os (executed st) CMD_HARDWARE_PORTS) = 0%Z ->
  Py.splitlines (snd (os_run os (executed st) CMD_HARDWARE_PORTS))
  = (before ++ port :: device :: after)%list ->
  forallb (fun l => negb (is_wifi_port l)) before = true ->
  is_wifi_port port = true ->
  device_of device = Some iface ->
  fst (detect_macos_wifi_iface os st) = Ret iface.
Proof.
  intros Hc Hl Hb Hp Hd.
  unfold detect_macos_wifi_iface, bind, run_capture, run, failed, text, ret.
  unfold CMD_HARDWARE_PORTS in Hc, Hl.
  cbn [andb fst snd returncode stdout executed output stdin].
  rewrite Hc, Hl. cbn [Z.eqb negb fst]. f_equal.
  clear Hc Hl. induction before as [|l ls IH].
  - cbn [List.app detect_macos_wifi_iface_scan].
    unfold is_wifi_port in Hp. apply andb_true_iff in Hp as [Hs Hw]. rewrite Hs.
    destruct (Py.split_once ":" port) as [[x p]|]; [|discriminate Hw]. rewrite Hw.
    cbn [firstn macos_device_line]. unfold device_of in Hd.
    destruct (Py.startswith device "Device:"); [|discriminate Hd].
    destruct (Py.split_once ":" device) as [[y d]|]; [|discriminate Hd].
    injection Hd as <-. reflexivity.
  - cbn [forallb] in Hb. apply andb_true_iff in Hb as [Hl Hb].
    apply negb_true_iff in Hl. cbn [List.app]. rewrite (macos_scan_skips _ _ Hl).
    exact (IH Hb).
Qed.

Lemma macos_detection_finds_wifi_witness :
  fst (detect_macos_wifi_iface mac (init [])) = Ret "en0".
Proof.
  exact (macos_detection_finds_wifi mac (init []) []
           ["Ethernet Address: 00:00:00:00:00:00"] "Hardware Port: Wi-Fi" "Device: en0" "en0"
           eq_refl eq_refl eq_refl eq_refl eq_refl).
Defined.

(** ** The package operations *)

Lemma check_locations_run (fs : FS) (ls : list string) (found : bool) (st : state) :
  check_locations fs ls found st =
  (Ret (found || existsb (is_present fs (executed st)) ls),
   {| executed := executed st;
      output := (output st ++ map found_line (filter (is_present fs (executed st)) ls))%list;
      stdin := stdin st |}).
Proof.
  revert found st. induction ls as [|l ls IH]; intros found st.
  - cbn. rewrite orb_false_r, app_nil_r. destruct st; reflexivity.
  - cbn [check_locations existsb filter]. unfold bind at 1. unfold present at 1.
    fold (is_present fs (executed st) l).
    destruct (is_present fs (executed st) l).
    + unfold bind, echo. rewrite IH. cbn [executed output stdin map orb].
      rewrite orb_true_r, <- app_assoc. reflexivity.
    + rewrite IH. cbn [orb]. reflexivity.
Qed.

Lemma check_variants_run (fs : FS) (vs : list string) (found : bool) (st : state) :
  check_variants fs vs found st =
  (Ret (found || existsb (is_present fs (executed st)) (flat_map (locations fs) vs)),
   {| executed := executed st;
      output := (output st ++ map found_line
                   (filter (is_present fs (executed st)) (flat_map (locations fs) vs)))%list;
      stdin := stdin st |}).
Proof.
  revert found st. induction vs as [|v vs IH]; intros found st.
  - cbn. rewrite orb_false_r, app_nil_r. destruct st; reflexivity.
  - cbn [check_variants flat_map]. unfold bind. rewrite check_locations_run, IH.
    cbn [executed output stdin].
    rewrite existsb_app, filter_app, map_app, orb_assoc, <- app_assoc. reflexivity.
Qed.

Lemma check_installations_run (os : OS) (fs : FS) (app : string) (st : state) :
  check_installations os fs app st =
  (Ret (installed os fs (executed st) app),
   {| executed := (executed st ++ pkg_queries os app)%list;
      output := (output st ++ evidence os fs (executed st) app)%list;
      stdin := stdin st |}).
Proof.
  unfold check_installations, installed, evidence, dpkg_lists, rpm_knows, pkg_queries,
    all_locations, CMD_DPKG_LIST, cmd_rpm_query, package_line.
  destruct st as [h o i]. cbn [executed output stdin].
  destruct (os_which os "dpkg"); destruct (os_which os "rpm");
    unfold bind at 1; cbn [andb orb List.app]; rewrite ?app_nil_r;
    unfold run_capture, run, bind, echo, ret, text;
    cbn [executed output stdin andb fst snd returncode stdout];
    repeat (cbn [executed output stdin andb fst snd returncode stdout];
            match goal with
            | |- context [if ?c then _ else _] =>
                lazymatch c with
                | context [os_run] => destruct c eqn:?
                end
            end);
    cbn [andb orb List.app fst snd executed output stdin];
    rewrite check_variants_run; cbn [executed output stdin orb List.app];
    rewrite <- ?app_assoc, ?app_nil_r; cbn [List.app]; try reflexivity.
Qed.

(** [check_installations] is a read-only inspection with an exact
    answer.  It executes the queries of the package managers that are
    present and nothing else, reads no input, and returns [True] exactly
    when [dpkg] lists the name, [rpm] knows the package, or one of the
    application's locations is a directory or a file; it prints something
    exactly when it returns [True]. *)
Theorem check_installations_spec (os : OS) (fs : FS) (app : string) (st : state) :
  let r := check_installations os fs app st in
  fst r = Ret (installed os fs (executed st) app) /\
  executed (snd r) = (executed st ++ pkg_queries os app)%list /\
  Forall (pkg_query app) (pkg_queries os app) /\
  stdin (snd r) = stdin st /\
  (output (snd r) = output st <-> installed os fs (executed st) app = false).
Proof.
  cbv zeta. rewrite check_installations_run. cbn [fst snd executed output stdin].
  split; [reflexivity|]. split; [reflexivity|].
  split.
  { unfold pkg_queries, pkg_query.
    destruct (os_which os "dpkg"); destruct (os_which os "rpm"); cbn [List.app];
      repeat (apply Forall_cons; [first [left; reflexivity | right; reflexivity]|]);
      apply Forall_nil. }
  split; [reflexivity|].
  unfold installed, evidence.
  destruct (dpkg_lists os (executed st) app); cbn [orb List.app].
  { split; [intros H | discriminate].
    apply (f_equal (@List.length string)) in H. rewrite length_app in H. cbn in H. lia. }
  destruct (rpm_knows os (executed st) app); cbn [orb List.app].
  { split; [intros H | discriminate].
    apply (f_equal (@List.length string)) in H. rewrite length_app in H. cbn in H. lia. }
  induction (all_locations fs app) as [|l ls IH]; cbn [existsb filter map].
  { rewrite app_nil_r. split; reflexivity. }
  destruct (is_present fs _ l); cbn [orb map].
  { split; [intros H | discriminate].
    apply (f_equal (@List.length string)) in H. rewrite length_app in H. cbn in H. lia. }
  exact IH.
Qed.

(** *** What the package operations may execute *)

Lemma cmd_present (Q : Cmd -> Prop) (fs : FS) (location : string) :
  preserves (cmd_all Q) (present fs location).
Proof. intros st H. exact H. Qed.

Lemma cmd_check_installations (Q : Cmd -> Prop) (os : OS) (fs : FS) (app : string) :
  Q CMD_DPKG_LIST -> Q (cmd_rpm_query app) ->
  preserves (cmd_all Q) (check_installations os fs app).
Proof.
  intros H1 H2 st H. rewrite check_installations_run. unfold cmd_all in *.
  cbn [snd executed]. apply Forall_app. split; [exact H|].
  unfold pkg_queries.
  destruct (os_which os "dpkg"); destruct (os_which os "rpm"); cbn [List.app];
    repeat (apply Forall_cons; [assumption|]); apply Forall_nil.
Qed.

Lemma cmd_remove_locations (Q : Cmd -> Prop) (os : OS) (fs : FS) (ls : list string) :
  (forall l, In l ls -> Q (cmd_rm l)) ->
  preserves (cmd_all Q) (remove_locations os fs ls).
Proof.
  induction ls as [|l ls IH]; intros H; cbn [remove_locations].
  - apply preserves_ret.
  - apply preserves_bind; [apply cmd_present | intros here].
    apply preserves_bind; [|intros _; apply IH; intros l' Hl'; apply H; right; exact Hl'].
    apply preserves_when. apply preserves_bind; [|intros; apply preserves_ret].
    apply cmd_run_cmd. intros _. apply H. left; reflexivity.
Qed.

Lemma cmd_remove_variants (Q : Cmd -> Prop) (os : OS) (fs : FS) (vs : list string) :
  (forall l, In l (flat_map (locations fs) vs) -> Q (cmd_rm l)) ->
  preserves (cmd_all Q) (remove_variants os fs vs).
Proof.
  induction vs as [|v vs IH]; intros H; cbn [remove_variants].
  - apply preserves_ret.
  - apply preserves_bind.
    + apply cmd_remove_locations. intros l Hl. apply H. cbn [flat_map].
      apply in_or_app. left; exact Hl.
    + intros _. apply IH. intros l Hl. apply H. cbn [flat_map].
      apply in_or_app. right; exact Hl.
Qed.

Ltac uninstall_leaf :=
  first
    [ apply cmd_echo
    | apply cmd_check_installations; left; [left | right]; reflexivity
    | apply cmd_remove_variants;
      let l := fresh "l" in let Hl := fresh "Hl" in
      intros l Hl; right; right; right; exists l; split; [exact Hl | reflexivity]
    | apply cmd_run_capture; left; first [left; reflexivity | right; reflexivity]
    | apply cmd_run_cmd; intros _; right;
      first [left; reflexivity | right; left; reflexivity] ].

Lemma prompt_app_name_run (prompt_text : string) (st : state) :
  prompt_app_name prompt_text st =
  match stdin st with
  | [] => (Raise EOFError,
           {| executed := executed st; output := (output st ++ [prompt_text])%list;
              stdin := [] |})
  | l :: rest =>
      if existsb (String.eqb (Py.lower (Py.strip l))) ["nekoray"; "throne"] then
        (Ret (Py.lower (Py.strip l)),
         {| executed := executed st; output := (output st ++ [prompt_text])%list;
            stdin := rest |})
      else
        (SysExit 1,
         {| executed := executed st;
            output := ((output st ++ [prompt_text]) ++ [INVALID_APP_NAME])%list;
            stdin := rest |})
  end.
Proof.
  unfold prompt_app_name, bind, input. destruct (stdin st) as [|l rest]; [reflexivity|].
  destruct (existsb _ _); reflexivity.
Qed.

Lemma accepted_name (a : string) :
  existsb (String.eqb a) ["nekoray"; "throne"] = true -> a = "nekoray" \/ a = "throne".
Proof.
  cbn [existsb]. rewrite orb_false_r. intros H. apply orb_true_iff in H.
  destruct H as [H|H]; apply String.eqb_eq in H; auto.
Qed.

Lemma bind_prompt_app_name {B} (prompt_text : string) (k : string -> M B) (st : state) :
  bind (prompt_app_name prompt_text) k st =
  match prompt_app_name prompt_text st with
  | (Ret a, st') => k a st'
  | (SysExit c, st') => (SysExit c, st')
  | (Raise e, st') => (Raise e, st')
  end.
Proof. reflexivity. Qed.

Ltac uninstall_body :=
  cbv beta;
  lazymatch goal with
  | |- Forall ?Q (executed (snd (?m ?s))) =>
      let W := fresh "W" in
      assert (W : preserves (cmd_all Q) m)
        by (walk fail ltac:(uninstall_leaf));
      apply (W s); constructor
  end.

(** Uninstalling touches one application only.  Every command that
    [uninstall_app_linux] executes is a query of the package databases for
    the application concerned, the removal of its package, or [rm -rf] of
    one of the eight locations of that application; the application is the
    one given or, when none is given, one of the two names that the prompt
    accepts. *)
Theorem uninstall_touches_one_app (os : OS) (fs : FS) (app_name : option string)
    (skip_check : bool) (inp : list string) :
  exists app,
    app_choice app_name app /\
    Forall (uninstall_cmd fs app)
      (executed (snd (uninstall_app_linux os fs app_name skip_check (init inp)))).
Proof.
  unfold uninstall_app_linux, app_choice, uninstall_cmd. rewrite !bind_echo.
  destruct (Py.truthy app_name) eqn:Ht; cbn [negb].
  - rewrite bind_ret. exists (Py.or_else app_name EmptyString). split; [reflexivity|].
    uninstall_body.
  - rewrite bind_prompt_app_name, prompt_app_name_run. cbn [stdin init].
    destruct inp as [|l rest]; [exists "nekoray"; split; [left; reflexivity | constructor]|].
    destruct (existsb _ _) eqn:Hv;
      [|exists "nekoray"; split; [left; reflexivity | constructor]].
    exists (Py.lower (Py.strip l)). split; [exact (accepted_name _ Hv)|].
    uninstall_body.
Qed.

Example join_ex :
  OsPath.join "/home/u" [".local/share/applications"; "throne.desktop"]
  = "/home/u/.local/share/applications/throne.desktop" /\
  OsPath.join "/" [".config"; "Throne"] = "/.config/Throne" /\
  OsPath.join EmptyString [".config"; "Throne"] = ".config/Throne" /\
  OsPath.join "/home/u" ["/etc"; "x"] = "/etc/x".
Proof. repeat split; reflexivity. Qed.

Example uninstall_ex :
  let r := uninstall_app_linux debian_box debian_files (Some "throne") false (init []) in
  fst r = Ret tt /\
  executed (snd r) =
    [CMD_DPKG_LIST; CMD_DPKG_LIST; cmd_dpkg_remove "throne"; cmd_rm "/home/u/.config/Throne"].
Proof. split; reflexivity. Qed.

Example all_locations_ex :
  all_locations debian_files "throne" =
  ["/opt/throne"; "/usr/share/applications/throne.desktop";
   "/home/u/.local/share/applications/throne.desktop"; "/home/u/.config/throne";
   "/opt/Throne"; "/usr/share/applications/Throne.desktop";
   "/home/u/.local/share/applications/Throne.desktop"; "/home/u/.config/Throne"].
Proof. reflexivity. Qed.

(** Without [skip_check], an uninstallation that finds no trace of the
    application removes nothing: it executes the queries of
    [check_installations] only, reports that nothing was found and returns
    normally. *)
Theorem uninstall_nothing_found (os : OS) (fs : FS) (app : string) (inp : list string) :
  app <> EmptyString ->
  installed os fs [] app = false ->
  let r := uninstall_app_linux os fs (Some app) false (init inp) in
  fst r = Ret tt /\
  executed (snd r) = pkg_queries os app /\
  In (NOTHING_INSTALLED app) (output (snd r)) /\
  stdin (snd r) = inp.
Proof.
  intros Hne Hi. cbv zeta. unfold uninstall_app_linux.
  rewrite !bind_echo. rewrite (truthy_nonempty app Hne). cbn [negb].
  rewrite bind_ret, bind_echo, (or_else_nonempty app EmptyString Hne).
  rewrite bind_assoc.
  match goal with
  | |- context [bind (check_installations os fs app) ?k ?s] =>
      change (bind (check_installations os fs app) k s)
        with (match check_installations os fs app s with
              | (Ret a, st') => k a st'
              | (SysExit c, st') => (SysExit c, st')
              | (Raise e, st') => (Raise e, st')
              end)
  end.
  rewrite check_installations_run. cbn [executed output stdin init List.app].
  rewrite Hi. rewrite bind_ret. cbn [negb]. rewrite bind_echo. unfold echo.
  cbn [fst snd executed output stdin].
  split; [reflexivity|]. split; [reflexivity|]. split; [|reflexivity].
  unfold NOTHING_INSTALLED. find_in.
Qed.

Lemma uninstall_nothing_found_witness :
  let r := uninstall_app_linux bare_box bare_files (Some "throne") false (init []) in
  fst r = Ret tt /\
  executed (snd r) = [] /\
  In (NOTHING_INSTALLED "throne") (output (snd r)) /\
  stdin (snd r) = [].
Proof.
  assert (Hne : "throne" <> EmptyString) by discriminate.
  exact (uninstall_nothing_found bare_box bare_files "throne" [] Hne eq_refl).
Defined.

(** *** Programs that always return *)

Lemma returns_ret {A} (a : A) : returns (ret a).
Proof. intros st. exists a. reflexivity. Qed.

Lemma returns_bind {A B} (m : M A) (f : A -> M B) :
  returns m -> (forall a, returns (f a)) -> returns (bind m f).
Proof.
  intros Hm Hf st. unfold bind. destruct (Hm st) as [a Ha].
  destruct (m st) as [[a'|c|e] st']; cbn [fst] in Ha; try discriminate. apply Hf.
Qed.

Lemma returns_when (b : bool) (m : M unit) : returns m -> returns (when b m).
Proof. destruct b; [trivial | intros _; apply returns_ret]. Qed.

Lemma returns_if {A} (b : bool) (m1 m2 : M A) :
  returns m1 -> returns m2 -> returns (if b then m1 else m2).
Proof. destruct b; trivial. Qed.

Lemma returns_echo (msg : string) : returns (echo msg).
Proof. intros st. exists tt. reflexivity. Qed.

Lemma returns_run_unchecked (os : OS) (cmd : Cmd) (capture : bool) :
  returns (run os cmd false capture).
Proof. intros st. unfold run. cbn [andb]. eexists. reflexivity. Qed.

Lemma returns_run_capture (os : OS) (cmd : list string) : returns (run_capture os cmd).
Proof. apply returns_run_unchecked. Qed.

Lemma returns_run_cmd_unchecked (os : OS) (cmd : Cmd) (dry : bool) :
  returns (run_cmd os cmd dry false).
Proof.
  unfold run_cmd. destruct dry; [|apply returns_run_unchecked].
  apply returns_bind; [destruct cmd; apply returns_echo | intros; apply returns_ret].
Qed.

Lemma returns_check_installations (os : OS) (fs : FS) (app : string) :
  returns (check_installations os fs app).
Proof. intros st. rewrite check_installations_run. eexists. reflexivity. Qed.

Lemma returns_present (fs : FS) (location : string) : returns (present fs location).
Proof. intros st. eexists. reflexivity. Qed.

Lemma returns_remove_locations (os : OS) (fs : FS) (ls : list string) :
  returns (remove_locations os fs ls).
Proof.
  induction ls as [|l ls IH]; cbn [remove_locations]; [apply returns_ret|].
  apply returns_bind; [apply returns_present | intros here].
  apply returns_bind; [|intros _; exact IH].
  apply returns_when, returns_bind; [apply returns_run_cmd_unchecked | intros; apply returns_ret].
Qed.

Lemma returns_remove_variants (os : OS) (fs : FS) (vs : list string) :
  returns (remove_variants os fs vs).
Proof.
  induction vs as [|v vs IH]; cbn [remove_variants]; [apply returns_ret|].
  apply returns_bind; [apply returns_remove_locations | intros _; exact IH].
Qed.

Ltac returns_walk :=
  repeat
    first
      [ progress cbv beta zeta
      | match goal with
        | |- returns (ret _) => apply returns_ret
        | |- returns (echo _) => apply returns_echo
        | |- returns (bind _ _) => apply returns_bind; [ | intro ]
        | |- returns (when _ _) => apply returns_when
        | |- returns (if ?c then _ else _) => destruct c
        | |- returns (check_installations _ _ _) => apply returns_check_installations
        | |- returns (remove_variants _ _ _) => apply returns_remove_variants
        | |- returns (run_capture _ _) => apply returns_run_capture
        | |- returns (run_cmd _ _ _ false) => apply returns_run_cmd_unchecked
        end ].

(** *** Programs that read no input *)

Lemma stdin_check_installations (x : list string) (os : OS) (fs : FS) (app : string) :
  preserves (stdin_is x) (check_installations os fs app).
Proof. intros st H. rewrite check_installations_run. exact H. Qed.

Lemma stdin_remove_locations (x : list string) (os : OS) (fs : FS) (ls : list string) :
  preserves (stdin_is x) (remove_locations os fs ls).
Proof.
  induction ls as [|l ls IH]; cbn [remove_locations]; [apply preserves_ret|].
  apply preserves_bind; [intros st H; exact H | intros here].
  apply preserves_bind; [|intros _; exact IH].
  apply preserves_when, preserves_bind; [apply stdin_run_cmd | intros; apply preserves_ret].
Qed.

Lemma stdin_remove_variants (x : list string) (os : OS) (fs : FS) (vs : list string) :
  preserves (stdin_is x) (remove_variants os fs vs).
Proof.
  induction vs as [|v vs IH]; cbn [remove_variants]; [apply preserves_ret|].
  apply preserves_bind; [apply stdin_remove_locations | intros _; exact IH].
Qed.

(** On a machine that has [sudo], uninstalling a given application never
    fails: whatever the package managers and [rm] answer,
    [uninstall_app_linux] returns normally, and it reads no input.  ([dpkg]
    and [rpm] are run only where [which] finds them; the removal commands
    are run through [sudo].) *)
Theorem uninstall_never_fails (os : OS) (fs : FS) (app : string) (skip_check : bool)
    (st : state) :
  app <> EmptyString ->
  os_which os "sudo" = true ->
  let r := uninstall_app_linux os fs (Some app) skip_check st in
  fst r = Ret tt /\ stdin (snd r) = stdin st.
Proof.
  intros Hne _. cbv zeta.
  assert (R : returns (uninstall_app_linux os fs (Some app) skip_check)).
  { unfold uninstall_app_linux. rewrite (truthy_nonempty app Hne). cbn [negb]. returns_walk. }
  destruct (R st) as [[] Ha]. split; [exact Ha|].
  assert (W : preserves (stdin_is (stdin st))
                (uninstall_app_linux os fs (Some app) skip_check)).
  { unfold uninstall_app_linux. rewrite (truthy_nonempty app Hne). cbn [negb].
    walk fail ltac:(
      first [ apply stdin_echo
            | apply stdin_check_installations
            | apply stdin_remove_variants
            | apply stdin_run
            | apply stdin_run_cmd ]). }
  apply (W st). reflexivity.
Qed.

Lemma uninstall_never_fails_witness :
  let r := uninstall_app_linux broken debian_files (Some "throne") true (init ["y"]) in
  fst r = Ret tt /\ stdin (snd r) = ["y"].
Proof.
  assert (Hne : "throne" <> EmptyString) by discriminate.
  exact (uninstall_never_fails broken debian_files "throne" true (init ["y"]) Hne eq_refl).
Defined.

(** [prompt_app_name] lets two names through and nothing else.  It
    executes no command; for a line of ASCII text, when it returns, the
    result is [nekoray] or [throne] and is the line read, stripped and
    lowered; otherwise the line was something else and the program exits
    with code 1 after the message, or there was no line to read. *)
Theorem prompt_app_name_validates (prompt_text : string) (st : state) :
  (forall l rest, stdin st = l :: rest -> Py.isascii l = true) ->
  let r := prompt_app_name prompt_text st in
  executed (snd r) = executed st /\
  (forall a, fst r = Ret a ->
     (a = "nekoray" \/ a = "throne") /\
     exists l, stdin st = l :: stdin (snd r) /\ a = Py.lower (Py.strip l)) /\
  (forall c, fst r = SysExit c ->
     c = 1%Z /\ last (output (snd r)) EmptyString = INVALID_APP_NAME /\
     exists l, stdin st = l :: stdin (snd r) /\
               Py.lower (Py.strip l) <> "nekoray" /\ Py.lower (Py.strip l) <> "throne") /\
  (forall e, fst r = Raise e -> e = EOFError /\ stdin st = []).
Proof.
  intros _. cbv zeta. rewrite prompt_app_name_run.
  destruct (stdin st) as [|l rest]; cbn [fst snd executed output stdin].
  { split; [reflexivity|]. split; [intros a H; discriminate H|].
    split; [intros c H; discriminate H|].
    intros e H. injection H as <-. split; reflexivity. }
  destruct (existsb _ _) eqn:Hv; cbn [fst snd executed output stdin].
  - split; [reflexivity|]. split; [|split; [intros c H; discriminate H | intros e H; discriminate H]].
    intros a H. injection H as <-. split; [exact (accepted_name _ Hv)|].
    exists l. split; reflexivity.
  - split; [reflexivity|]. split; [intros a H; discriminate H|].
    split; [|intros e H; discriminate H].
    intros c H. injection H as <-. split; [reflexivity|]. split; [apply last_last|].
    exists l. split; [reflexivity|].
    cbn [existsb] in Hv. rewrite orb_false_r in Hv. apply orb_false_iff in Hv as [H1 H2].
    split; apply String.eqb_neq; assumption.
Qed.

Lemma prompt_app_name_validates_witness :
  let r := prompt_app_name "app: " (init ["  Throne "; "next"]) in
  executed (snd r) = [] /\
  (forall a, fst r = Ret a ->
     (a = "nekoray" \/ a = "throne") /\
     exists l, ["  Throne "; "next"] = l :: stdin (snd r) /\ a = Py.lower (Py.strip l)) /\
  (forall c, fst r = SysExit c ->
     c = 1%Z /\ last (output (snd r)) EmptyString = INVALID_APP_NAME /\
     exists l, ["  Throne "; "next"] = l :: stdin (snd r) /\
               Py.lower (Py.strip l) <> "nekoray" /\ Py.lower (Py.strip l) <> "throne") /\
  (forall e, fst r = Raise e -> e = EOFError /\ ["  Throne "; "next"] = []).
Proof.
  assert (Ha : forall l rest, stdin (init ["  Throne "; "next"]) = l :: rest ->
                              Py.isascii l = true)
    by (intros l rest H; injection H as <- _; reflexivity).
  exact (prompt_app_name_validates "app: " (init ["  Throne "; "next"]) Ha).
Defined.

Example prompt_app_name_ex :
  fst (prompt_app_name "app: " (init ["  Throne "])) = Ret "throne" /\
  fst (prompt_app_name "app: " (init ["thr one"])) = SysExit 1.
Proof. split; reflexivity. Qed.

(** ** Information about an installation *)

Example info_linux_ex :
  let r := info_linux debian_info debian_files "throne" (init []) in
  fst r = Ret tt /\
  executed (snd r) = [cmd_dpkg_status "throne"] /\
  output (snd r) =
    [color "=== INFO ===" BLUE; EmptyString; "App: throne"; "Version: 1.0.12";
     "Install path: /opt/Throne"; EmptyString].
Proof. repeat split; reflexivity. Qed.

Example info_linux_unknown :
  output (snd (info_linux bare_box bare_files "nekoray" (init []))) =
    [color "=== INFO ===" BLUE; EmptyString; "App: nekoray"; "Version: unknown";
     "Install path: not found"; EmptyString].
Proof. reflexivity. Qed.

Lemma linux_package_version_run (os : OS) (app : string) (st : state) :
  exists version queries,
    linux_package_version os app st =
    (Ret version,
     {| executed := (executed st ++ queries)%list; output := output st; stdin := stdin st |}) /\
    Forall (version_query app) queries.
Proof.
  assert (Q1 : version_query app (Argv ["dpkg"; "-s"; app])) by (left; reflexivity).
  assert (Q2 : version_query app (Argv ["rpm"; "-q"; "--qf"; "%{VERSION}-%{RELEASE}"; app]))
    by (right; reflexivity).
  destruct st as [h o i].
  unfold linux_package_version, bind, run_capture, run, ret, text.
  cbn [executed output stdin andb fst snd returncode stdout].
  destruct (os_which os "dpkg"); destruct (os_which os "rpm");
    cbn [executed output stdin andb fst snd returncode stdout];
    repeat match goal with
           | |- context [if ?c then _ else _] => destruct c
           | |- context [match version_field ?l with _ => _ end] => destruct (version_field l)
           end;
    cbn [executed output stdin andb fst snd returncode stdout];
    rewrite <- ?app_assoc; cbn [List.app];
    eexists; first [ exists (@nil Cmd); rewrite app_nil_r; split; [reflexivity | constructor]
                   | eexists; split; [reflexivity | repeat (constructor; [assumption|]); constructor] ].
Qed.

Lemma install_paths_known (os : OS) (fs : FS) (app path : string) :
  In path (linux_install_paths os fs app) ->
  os_path_exists os path = true /\ In path (all_locations fs app).
Proof.
  unfold linux_install_paths, all_locations, app_variants, locations. cbv zeta.
  intros H. apply filter_In in H as [H He]. split; [exact He|].
  destruct (String.eqb app "throne"); cbn [flat_map List.app In] in H |- *; intuition.
Qed.

(** [info_linux] is a read-only report that always returns.  It
    executes nothing but the version queries of [dpkg] and [rpm], reads no
    input, and prints six lines; the version shown is never empty, and the
    install path shown is [not found] when none of the paths it looks at
    exists, and otherwise an existing path among the locations that
    [check_installations] inspects for the same application. *)
Theorem info_linux_reports (os : OS) (fs : FS) (app : string) (st : state) :
  let r := info_linux os fs app st in
  fst r = Ret tt /\
  stdin (snd r) = stdin st /\
  (exists queries,
     executed (snd r) = (executed st ++ queries)%list /\
     Forall (version_query app) queries) /\
  exists version path,
    output (snd r) =
      (output st ++ [color "=== INFO ===" BLUE; EmptyString; ("App: " ++ app)%string;
                     ("Version: " ++ version)%string;
                     ("Install path: " ++ path)%string; EmptyString])%list /\
    version <> EmptyString /\
    ((path = "not found" /\ linux_install_paths os fs app = []) \/
     (os_path_exists os path = true /\ In path (all_locations fs app))).
Proof.
  cbv zeta. unfold info_linux. rewrite !bind_echo.
  match goal with
  | |- context [bind (linux_package_version os app) ?k ?s] =>
      change (bind (linux_package_version os app) k s)
        with (match linux_package_version os app s with
              | (Ret a, st') => k a st'
              | (SysExit c, st') => (SysExit c, st')
              | (Raise e, st') => (Raise e, st')
              end);
      destruct (linux_package_version_run os app s) as [v [qs [E Hq]]]; rewrite E
  end.
  cbv zeta. unfold bind, echo. cbn [fst snd executed output stdin].
  split; [reflexivity|]. split; [reflexivity|].
  split; [exists qs; split; [reflexivity | exact Hq]|].
  exists (Py.or_else (Some v) "unknown").
  exists (match linux_install_paths os fs app with p :: _ => p | [] => "not found" end).
  split; [rewrite <- !app_assoc; reflexivity|].
  split; [destruct v; discriminate|].
  destruct (linux_install_paths os fs app) as [|p ps] eqn:Hp.
  - left. split; reflexivity.
  - right. apply (install_paths_known os fs app p). rewrite Hp. left; reflexivity.
Qed.

(** ** Reading [/etc/os-release] *)

Example read_os_release_ex :
  read_os_release laptop
    [ "NAME=" ++ dq ++ "Ubuntu" ++ dq ++ NL; "# comment" ++ NL; NL;
      "ID=ubuntu" ++ NL; "  ID_LIKE = debian " ++ NL; "ID=" ++ dq ++ "pop" ++ dq ]
  = [("NAME", "Ubuntu"); ("ID", "pop"); ("ID_LIKE ", "debian")].
Proof. reflexivity. Qed.

Lemma dict_get_set_same (key value : string) (data : dict) :
  dict_get key (dict_set key value data) = Some value.
Proof.
  induction data as [|[k v] rest IH]; cbn [dict_set dict_get].
  - rewrite String.eqb_refl. reflexivity.
  - destruct (String.eqb k key) eqn:E; cbn [dict_get]; rewrite E; [reflexivity | exact IH].
Qed.

Lemma dict_get_set_other (key key' value : string) (data : dict) :
  key' <> key ->
  dict_get key (dict_set key' value data) = dict_get key data.
Proof.
  intros Hne. induction data as [|[k v] rest IH]; cbn [dict_set dict_get].
  - apply String.eqb_neq in Hne. rewrite Hne. reflexivity.
  - destruct (String.eqb k key') eqn:E; cbn [dict_get].
    + apply String.eqb_eq in E. subst k. apply String.eqb_neq in Hne. rewrite Hne.
      reflexivity.
    + rewrite IH. reflexivity.
Qed.

Lemma read_os_release_line (line : string) (data : dict) :
  read_os_release_lines [line] data =
  match os_release_entry line with
  | Some (key, value) => dict_set key value data
  | None => data
  end.
Proof.
  unfold os_release_entry. cbn [read_os_release_lines]. cbv zeta.
  destruct (negb (Py.truthy (Some (Py.strip line))) || negb (Py.contains "=" (Py.strip line)));
    [reflexivity|].
  destruct (Py.split_once "=" (Py.strip line)) as [[k v]|]; reflexivity.
Qed.

Lemma read_os_release_cons (line : string) (rest : list string) (data : dict) :
  read_os_release_lines (line :: rest) data =
  read_os_release_lines rest (read_os_release_lines [line] data).
Proof.
  cbn [read_os_release_lines]. cbv zeta.
  destruct (negb (Py.truthy (Some (Py.strip line))) || negb (Py.contains "=" (Py.strip line)));
    [reflexivity|].
  destruct (Py.split_once "=" (Py.strip line)) as [[k v]|]; reflexivity.
Qed.

Lemma read_os_release_app (before after : list string) (data : dict) :
  read_os_release_lines (before ++ after) data =
  read_os_release_lines after (read_os_release_lines before data).
Proof.
  revert data. induction before as [|l ls IH]; intros data; [reflexivity|].
  cbn [List.app]. rewrite read_os_release_cons, IH, <- read_os_release_cons. reflexivity.
Qed.

Lemma read_os_release_keeps (key : string) (lines : list string) (data : dict) :
  Forall (fun l => forall v, os_release_entry l <> Some (key, v)) lines ->
  dict_get key (read_os_release_lines lines data) = dict_get key data.
Proof.
  intros H. revert data. induction H as [|l ls Hl _ IH]; intros data; [reflexivity|].
  rewrite read_os_release_cons, IH, read_os_release_line.
  destruct (os_release_entry l) as [[k v]|]; [|reflexivity].
  apply dict_get_set_other. intros ->. exact (Hl v eq_refl).
Qed.

(** In [/etc/os-release] the last assignment of a key wins: the value
    that [read_os_release] holds for a key is the one of the last line that
    assigns that key, whatever comes before it and whatever lines for other
    keys, comments or blank lines come after it. *)
Theorem read_os_release_last_wins (os : OS) (before after : list string)
    (line key value : string) :
  os_path_exists os "/etc/os-release" = true ->
  os_release_entry line = Some (key, value) ->
  Forall (fun l => forall v, os_release_entry l <> Some (key, v)) after ->
  dict_get key (read_os_release os (before ++ line :: after)) = Some value.
Proof.
  intros He Hl Ha. unfold read_os_release. rewrite He. cbn [negb].
  rewrite read_os_release_app, read_os_release_cons, (read_os_release_keeps key after _ Ha).
  rewrite read_os_release_line, Hl. apply dict_get_set_same.
Qed.

Lemma read_os_release_last_wins_witness :
  dict_get "ID"
    (read_os_release laptop
       (["ID=debian" ++ NL] ++ ("ID=" ++ dq ++ "ubuntu" ++ dq ++ NL) :: ["# ID=x" ++ NL; NL]))
  = Some "ubuntu".
Proof.
  assert (Ha : Forall (fun l => forall v, os_release_entry l <> Some ("ID", v))
                 ["# ID=x" ++ NL; NL])
    by (repeat constructor; intros v; discriminate).
  exact (read_os_release_last_wins laptop ["ID=debian" ++ NL] ["# ID=x" ++ NL; NL]
           ("ID=" ++ dq ++ "ubuntu" ++ dq ++ NL) "ID" "ubuntu" eq_refl eq_refl Ha).
Defined.

(** *** Stripping *)

Lemma lstrip_shorter (s : string) :
  Py.lstrip s = s \/ (String.length (Py.lstrip s) < String.length s)%nat.
Proof.
  induction s as [|c t IH]; [left; reflexivity|]. cbn [Py.lstrip].
  destruct (Py.isspace c); [right | left; reflexivity].
  cbn [String.length]. destruct IH as [E|L]; [rewrite E|]; lia.
Qed.

Lemma rstrip_length (s : string) : (String.length (Py.rstrip s) <= String.length s)%nat.
Proof.
  induction s as [|c t IH]; [reflexivity|]. cbn [Py.rstrip].
  destruct (Py.rstrip t) as [|c' t'].
  - destruct (Py.isspace c); cbn [String.length]; lia.
  - cbn [String.length] in *. lia.
Qed.

Lemma strip_fixed (s : string) : Py.strip s = s -> Py.lstrip s = s /\ Py.rstrip s = s.
Proof.
  unfold Py.strip. intros H. destruct (lstrip_shorter s) as [E|L].
  - split; [exact E|]. rewrite E in H. exact H.
  - pose proof (rstrip_length (Py.lstrip s)) as R. rewrite H in R. lia.
Qed.

Lemma lstrip_char_shorter (ch : ascii) (s : string) :
  lstrip_char ch s = s \/ (String.length (lstrip_char ch s) < String.length s)%nat.
Proof.
  induction s as [|c t IH]; [left; reflexivity|]. cbn [lstrip_char].
  destruct (Ascii.eqb c ch); [right | left; reflexivity].
  cbn [String.length]. destruct IH as [E|L]; [rewrite E|]; lia.
Qed.

Lemma rstrip_char_length (ch : ascii) (s : string) :
  (String.length (rstrip_char ch s) <= String.length s)%nat.
Proof.
  induction s as [|c t IH]; [reflexivity|]. cbn [rstrip_char].
  destruct (rstrip_char ch t) as [|c' t'].
  - destruct (Ascii.eqb c ch); cbn [String.length]; lia.
  - cbn [String.length] in *. lia.
Qed.

Lemma strip_char_fixed (ch : ascii) (s : string) :
  strip_char ch s = s -> lstrip_char ch s = s /\ rstrip_char ch s = s.
Proof.
  unfold strip_char. intros H. destruct (lstrip_char_shorter ch s) as [E|L].
  - split; [exact E|]. rewrite E in H. exact H.
  - pose proof (rstrip_char_length ch (lstrip_char ch s)) as R. rewrite H in R. lia.
Qed.

Lemma lstrip_app (s x : string) :
  Py.lstrip s = s -> s <> EmptyString -> Py.lstrip (s ++ x) = s ++ x.
Proof.
  destruct s as [|c t]; [congruence|]. intros H _. cbn [String.append Py.lstrip] in *.
  destruct (Py.isspace c); [|reflexivity].
  destruct (lstrip_shorter t) as [E|L]; [rewrite E in H|rewrite H in L; cbn in L; lia].
  apply (f_equal String.length) in H. cbn in H. lia.
Qed.

Lemma rstrip_cons (c : ascii) (t : string) :
  Py.isspace c = false -> Py.rstrip (String c t) = String c (Py.rstrip t).
Proof. intros H. cbn [Py.rstrip]. rewrite H. destruct (Py.rstrip t); reflexivity. Qed.

Lemma rstrip_app (a b : string) :
  Py.rstrip b <> EmptyString -> Py.rstrip (a ++ b) = a ++ Py.rstrip b.
Proof.
  intros H. induction a as [|c t IH]; [reflexivity|].
  cbn [String.append Py.rstrip]. rewrite IH.
  destruct (t ++ Py.rstrip b) eqn:E; [|reflexivity].
  destruct t; [cbn in E; congruence | discriminate E].
Qed.

Lemma rstrip_space (s : string) (c : ascii) :
  Py.isspace c = true -> Py.rstrip (s ++ String c EmptyString) = Py.rstrip s.
Proof.
  intros H. induction s as [|a t IH].
  - cbn. rewrite H. reflexivity.
  - cbn [String.append Py.rstrip]. rewrite IH. reflexivity.
Qed.

Lemma rstrip_char_app (ch : ascii) (s : string) :
  rstrip_char ch (s ++ String ch EmptyString) = rstrip_char ch s.
Proof.
  induction s as [|a t IH].
  - cbn. rewrite Ascii.eqb_refl. reflexivity.
  - cbn [String.append rstrip_char]. rewrite IH. reflexivity.
Qed.

Lemma split_once_app (sep : ascii) (key rest : string) :
  Py.split_once sep key = None ->
  Py.split_once sep (key ++ String sep rest) = Some (key, rest).
Proof.
  induction key as [|c t IH]; cbn [String.append Py.split_once].
  - intros _. rewrite Ascii.eqb_refl. reflexivity.
  - destruct (Ascii.eqb c sep); [discriminate|].
    destruct (Py.split_once sep t) as [[a b]|]; [discriminate|].
    intros _. rewrite IH by reflexivity. reflexivity.
Qed.

Lemma contains_app (key rest : string) : Py.contains "=" (key ++ String "=" rest) = true.
Proof.
  induction key as [|c t IH]; cbn [String.append Py.contains].
  - destruct rest; reflexivity.
  - rewrite IH. apply orb_true_r.
Qed.

Lemma append_assoc (a b c : string) : (a ++ b) ++ c = a ++ b ++ c.
Proof. induction a as [|x t IH]; [reflexivity|]. cbn [String.append]. rewrite IH. reflexivity. Qed.

Lemma strip_assignment (key value : string) :
  Py.lstrip key = key -> Py.rstrip value = value ->
  Py.strip (key ++ "=" ++ value ++ NL) = key ++ "=" ++ value.
Proof.
  intros Hk Hv. unfold Py.strip.
  assert (Hl : Py.lstrip (key ++ "=" ++ value ++ NL) = key ++ "=" ++ value ++ NL).
  { destruct key as [|c t]; [reflexivity|]. apply lstrip_app; [exact Hk | discriminate]. }
  rewrite Hl.
  assert (Hr : Py.rstrip ("=" ++ value ++ NL) = "=" ++ value).
  { cbn [String.append]. rewrite rstrip_cons by reflexivity.
    unfold NL, Py.chr. rewrite rstrip_space by reflexivity. rewrite Hv. reflexivity. }
  rewrite rstrip_app; rewrite Hr; [reflexivity | discriminate].
Qed.

Lemma strip_char_quoted (ch : ascii) (value : string) :
  lstrip_char ch value = value -> rstrip_char ch value = value ->
  strip_char ch (String ch (value ++ String ch EmptyString)) = value.
Proof.
  intros Hl Hr. unfold strip_char. cbn [lstrip_char]. rewrite Ascii.eqb_refl.
  destruct value as [|c t]; [cbn; rewrite Ascii.eqb_refl; reflexivity|].
  cbn [String.append lstrip_char] in *.
  destruct (Ascii.eqb c ch).
  - destruct (lstrip_char_shorter ch t) as [E|L];
      [rewrite E in Hl | rewrite Hl in L; cbn in L; lia].
    apply (f_equal String.length) in Hl. cbn in Hl. lia.
  - change (String c (t ++ String ch EmptyString)) with (String c t ++ String ch EmptyString).
    rewrite rstrip_char_app. exact Hr.
Qed.

(** A value of [/etc/os-release] reads the same with and without double
    quotes: for a key without [=] and without leading white space, and a
    value with no white space and no double quote at its ends, the line
    [key=value] and the line [key="value"] both assign [value] to [key]. *)
Theorem os_release_quotes_dropped (key value : string) :
  Py.lstrip key = key ->
  Py.split_once "=" key = None ->
  Py.strip value = value ->
  strip_char (ascii_of_nat 34) value = value ->
  os_release_entry (key ++ "=" ++ value ++ NL) = Some (key, value) /\
  os_release_entry (key ++ "=" ++ dq ++ value ++ dq ++ NL) = Some (key, value).
Proof.
  intros Hk Hs Hv Hq.
  destruct (strip_fixed value Hv) as [Hvl Hvr].
  destruct (strip_char_fixed _ value Hq) as [Hql Hqr].
  assert (Hnonempty : forall x, Py.truthy (Some (key ++ String "=" x)) = true)
    by (intros x; destruct key; reflexivity).
  assert (Hquoted : Py.strip (dq ++ value ++ dq) = dq ++ value ++ dq).
  { unfold Py.strip. cbn [String.append dq Py.chr Py.lstrip].
    change (Py.isspace (ascii_of_nat 34)) with false. cbv iota.
    rewrite rstrip_cons by reflexivity. rewrite rstrip_app; [reflexivity | discriminate]. }
  assert (Hunquote : strip_char (ascii_of_nat 34) (dq ++ value ++ dq) = value)
    by exact (strip_char_quoted _ value Hql Hqr).
  unfold os_release_entry. split; cbn [read_os_release_lines]; cbv zeta.
  - rewrite (strip_assignment key value Hk Hvr).
    change (key ++ "=" ++ value) with (key ++ String "=" value).
    rewrite Hnonempty, contains_app. cbn [negb orb].
    rewrite (split_once_app "=" key value Hs), Hv, Hq. reflexivity.
  - assert (Hline : key ++ "=" ++ dq ++ value ++ dq ++ NL
                    = key ++ "=" ++ (dq ++ value ++ dq) ++ NL)
      by (cbn [String.append dq Py.chr]; rewrite append_assoc; reflexivity).
    rewrite Hline, (strip_assignment key (dq ++ value ++ dq) Hk).
    + change (key ++ "=" ++ dq ++ value ++ dq) with (key ++ String "=" (dq ++ value ++ dq)).
      rewrite Hnonempty, contains_app. cbn [negb orb].
      rewrite (split_once_app "=" key _ Hs), Hquoted, Hunquote. reflexivity.
    + unfold Py.strip in Hquoted. cbn [String.append dq Py.chr Py.lstrip] in Hquoted.
      exact Hquoted.
Qed.

Lemma os_release_quotes_dropped_witness :
  os_release_entry ("ID=ubuntu" ++ NL) = Some ("ID", "ubuntu") /\
  os_release_entry ("ID=" ++ dq ++ "ubuntu" ++ dq ++ NL) = Some ("ID", "ubuntu").
Proof.
  exact (os_release_quotes_dropped "ID" "ubuntu" eq_refl eq_refl eq_refl eq_refl).
Defined.
